(** * MasterFit scheduling grid: a shallow embedding of [main.js]

    The script keeps four module-level variables ([MODE], [resources],
    [slotsMap], [registeredSlot]) and mutates slot objects that are shared
    between [slotsMap], the click closures of the grid and the modal
    contexts.  The embedding keeps that shape: slot objects live in a heap
    and are referred to by location, the four variables are fields of a
    [state] record, and every handler is a function from state to state
    that also appends what the user can observe (alerts, status line,
    rendered grids, network requests) to a log.

    JavaScript runs a handler without interruption up to its next [await],
    so a handler is one function where nothing else can run in between.
    Where other code can, the function is cut there: a reload that is
    started without being awaited stays in the log as pending, and
    [loadAndRender] takes the order in which its concurrent slot requests
    settle as an argument.  The network and the clock are the fields of a
    [runtime] record; loops whose end depends on the configuration carry
    fuel and give [None] when they would not end. *)

From Stdlib Require Import ZArith Lia Ascii String List Sorted.
From stdpp Require Import base strings list gmap pretty.

Open Scope string_scope.
Open Scope Z_scope.

(** ** JavaScript values *)

Module JS.

(** Primitive values.  Numbers are the integers the script handles
    (identifiers, status codes, clock readings) plus NaN. *)
Inductive val :=
| VUndef
| VNull
| VBool (b : bool)
| VNum (n : Z)
| VNaN
| VStr (s : string).

#[global] Instance val_eq_dec : EqDecision val.
Proof. solve_decision. Defined.

(** An object is a finite map from property names to values; a property
    that is absent reads as [undefined]. *)
Abbreviation obj := (gmap string val).

Definition get (o : obj) (k : string) : val := default VUndef (o !! k).

(** ToBoolean *)
Definition truthy (v : val) : bool :=
  match v with
  | VUndef | VNull | VNaN => false
  | VBool b => b
  | VNum n => negb (n =? 0)
  | VStr s => negb (String.eqb s "")
  end.

(** [a === b] *)
Definition strict_eq (a b : val) : bool :=
  match a with
  | VNaN => false
  | _ => bool_decide (a = b)
  end.

(** [a || b] and [a ?? b] *)
Definition or_else (a b : val) : val := if truthy a then a else b.

Definition nullish (a b : val) : val :=
  match a with
  | VUndef | VNull => b
  | _ => a
  end.

(** [String(v)] and template-literal interpolation *)
Definition to_string (v : val) : string :=
  match v with
  | VUndef => "undefined"
  | VNull => "null"
  | VBool true => "true"
  | VBool false => "false"
  | VNum n => pretty n
  | VNaN => "NaN"
  | VStr s => s
  end.

Definition is_digit (c : ascii) : bool :=
  let n := nat_of_ascii c in (48 <=? n)%nat && (n <=? 57)%nat.

Definition digit_val (c : ascii) : Z := Z.of_nat (nat_of_ascii c) - 48.

Definition is_space (c : ascii) : bool :=
  let n := nat_of_ascii c in
  (n =? 32)%nat || ((9 <=? n)%nat && (n <=? 13)%nat).

Fixpoint skip_spaces (s : string) : string :=
  match s with
  | String c r => if is_space c then skip_spaces r else s
  | EmptyString => s
  end.

(** Reads the longest run of decimal digits at the head of [s]; returns
    the number read so far, how many digits were read, and the rest. *)
Fixpoint read_digits (acc : Z) (cnt : nat) (s : string) : Z * nat * string :=
  match s with
  | String c r =>
      if is_digit c then read_digits (10 * acc + digit_val c) (S cnt) r
      else (acc, cnt, s)
  | EmptyString => (acc, cnt, s)
  end.

Definition read_sign (s : string) : Z * string :=
  match s with
  | String "-" r => (-1, r)
  | String "+" r => (1, r)
  | _ => (1, s)
  end.

(** [parseInt(s, 10)]: leading blanks, an optional sign, then the longest
    digit prefix; NaN when there is no digit. *)
Definition parseInt (s : string) : val :=
  let '(sg, r) := read_sign (skip_spaces s) in
  let '(n, cnt, _) := read_digits 0 0 r in
  match cnt with
  | O => VNaN
  | _ => VNum (sg * n)
  end.

(** [Number(s)] on a string: blanks are trimmed, the empty string is 0, an
    optionally signed decimal integer is itself, anything else is NaN.
    (Fractions, exponents and hexadecimal literals are outside the integer
    model of [val].) *)
Definition string_to_number (s : string) : val :=
  let t := skip_spaces s in
  match t with
  | EmptyString => VNum 0
  | _ =>
      let '(sg, r) := read_sign t in
      let '(n, cnt, rest) := read_digits 0 0 r in
      match cnt, skip_spaces rest with
      | S _, EmptyString => VNum (sg * n)
      | _, _ => VNaN
      end
  end.

(** [Number(v)] *)
Definition to_number (v : val) : val :=
  match v with
  | VUndef => VNaN
  | VNull => VNum 0
  | VBool true => VNum 1
  | VBool false => VNum 0
  | VNum n => VNum n
  | VNaN => VNaN
  | VStr s => string_to_number s
  end.

(** [s.toLowerCase()] on the ASCII letters; bytes above 127 are left
    alone (no character outside ASCII lower-cases to an ASCII letter of
    the words the script compares with). *)
Definition lower_ascii (c : ascii) : ascii :=
  let n := nat_of_ascii c in
  if (65 <=? n)%nat && (n <=? 90)%nat then ascii_of_nat (n + 32) else c.

Fixpoint toLowerCase (s : string) : string :=
  match s with
  | EmptyString => EmptyString
  | String c r => String (lower_ascii c) (toLowerCase r)
  end.

Fixpoint starts_with (p s : string) : bool :=
  match p, s with
  | EmptyString, _ => true
  | String a p', String b s' => Ascii.eqb a b && starts_with p' s'
  | String _ _, EmptyString => false
  end.

Fixpoint includes (p s : string) : bool :=
  starts_with p s ||
  match s with
  | EmptyString => false
  | String _ r => includes p r
  end.

(** [/word/i.test(s)] for a pattern that is a plain lower-case ASCII word *)
Definition test_i (word s : string) : bool := includes word (toLowerCase s).

(** [s.split(sep)] for a one-character separator *)
Fixpoint split_go (sep : ascii) (cur : string) (s : string) : list string :=
  match s with
  | EmptyString => [String.rev cur]
  | String c r =>
      if Ascii.eqb c sep then String.rev cur :: split_go sep EmptyString r
      else split_go sep (String c cur) r
  end.

Definition split (sep : ascii) (s : string) : list string :=
  split_go sep EmptyString s.

(** Parsed JSON as the script consumes it: a primitive, an array of
    objects, or one object. *)
Inductive json :=
| JPrim (v : val)
| JArr (items : list obj)
| JObj (o : obj).

Definition json_truthy (j : json) : bool :=
  match j with
  | JPrim v => truthy v
  | _ => true
  end.

(** [j.k] for the property names the script reads off a response
    ([result], [msg_en]): arrays and primitives have no such property. *)
Definition json_get (j : json) (k : string) : val :=
  match j with
  | JObj o => get o k
  | _ => VUndef
  end.

End JS.

Import JS.

(** ** The runtime's [Date]

    A [Date] is a time value in milliseconds, read here directly in local
    time (the zone offset is taken to be constant, so no daylight-saving
    jump falls between two rows of a grid), or the invalid date.  The
    day/year arithmetic is the one of the language standard. *)

Module JSDate.

Definition msPerSecond : Z := 1000.
Definition msPerMinute : Z := 60000.
Definition msPerHour : Z := 3600000.
Definition msPerDay : Z := 86400000.

Definition Day (t : Z) : Z := t / msPerDay.

Definition DayFromYear (y : Z) : Z :=
  365 * (y - 1970) + (y - 1969) / 4 - (y - 1901) / 100 + (y - 1601) / 400.

Definition InLeapYear (y : Z) : bool :=
  (y mod 4 =? 0) && (negb (y mod 100 =? 0) || (y mod 400 =? 0)).

Definition DaysInYear (y : Z) : Z := if InLeapYear y then 366 else 365.

(** The year that contains day number [d]: the largest [y] with
    [DayFromYear y <= d], found next to the estimate [d / 365.2425]. *)
Definition YearFromDay (d : Z) : Z :=
  let e := 1970 + (400 * d) / 146097 in
  if DayFromYear (e + 1) <=? d then e + 1
  else if DayFromYear e <=? d then e
  else e - 1.

(** Days of the year before month [m] (0 = January). *)
Definition month_start (lp : bool) (m : Z) : Z :=
  let l := if lp then 1 else 0 in
  if m <=? 0 then 0
  else if m =? 1 then 31
  else if m =? 2 then 59 + l
  else if m =? 3 then 90 + l
  else if m =? 4 then 120 + l
  else if m =? 5 then 151 + l
  else if m =? 6 then 181 + l
  else if m =? 7 then 212 + l
  else if m =? 8 then 243 + l
  else if m =? 9 then 273 + l
  else if m =? 10 then 304 + l
  else 334 + l.

Definition MonthFromDay (d : Z) : Z :=
  let y := YearFromDay d in
  let lp := InLeapYear y in
  let w := d - DayFromYear y in
  if w <? month_start lp 1 then 0
  else if w <? month_start lp 2 then 1
  else if w <? month_start lp 3 then 2
  else if w <? month_start lp 4 then 3
  else if w <? month_start lp 5 then 4
  else if w <? month_start lp 6 then 5
  else if w <? month_start lp 7 then 6
  else if w <? month_start lp 8 then 7
  else if w <? month_start lp 9 then 8
  else if w <? month_start lp 10 then 9
  else if w <? month_start lp 11 then 10
  else 11.

Definition DateFromDay (d : Z) : Z :=
  let y := YearFromDay d in
  d - DayFromYear y - month_start (InLeapYear y) (MonthFromDay d) + 1.

Definition MakeDay (year month date : Z) : Z :=
  let ym := year + month / 12 in
  let mn := month mod 12 in
  DayFromYear ym + month_start (InLeapYear ym) mn + date - 1.

Definition MakeTime (h m s ms : Z) : Z :=
  h * msPerHour + m * msPerMinute + s * msPerSecond + ms.

Definition MakeDate (day time : Z) : Z := day * msPerDay + time.

Definition Date := option Z.

Definition TimeClip (t : Z) : Date :=
  if Z.abs t <=? 8640000000000000 then Some t else None.

Definition num (v : val) : option Z :=
  match to_number v with
  | VNum n => Some n
  | _ => None
  end.

(** [new Date(y, mo, d, h, mi, s)]: a NaN component gives the invalid
    date, a year from 0 to 99 means 1900 + year, and components out of
    range carry over. *)
Definition new_Date (y mo d h mi s : val) : Date :=
  match num y, num mo, num d, num h, num mi, num s with
  | Some y, Some mo, Some d, Some h, Some mi, Some s =>
      let yr := if (0 <=? y) && (y <=? 99) then 1900 + y else y in
      TimeClip (MakeDate (MakeDay yr mo d) (MakeTime h mi s 0))
  | _, _, _, _, _, _ => None
  end.

Definition field (f : Z -> Z) (dt : Date) : val :=
  match dt with
  | Some t => VNum (f t)
  | None => VNaN
  end.

Definition getFullYear : Date -> val := field (fun t => YearFromDay (Day t)).
Definition getMonth : Date -> val := field (fun t => MonthFromDay (Day t)).
Definition getDate : Date -> val := field (fun t => DateFromDay (Day t)).
Definition getHours : Date -> val := field (fun t => (t / msPerHour) mod 24).
Definition getMinutes : Date -> val := field (fun t => (t / msPerMinute) mod 60).

(** [yyyy-mm-ddThh:mm] or [yyyy-mm-ddThh:mm:ss] without a zone designator
    is a local date-time. *)
Definition parse_iso_local (s : string) : Date :=
  match split "T" s with
  | [dpart; tpart] =>
      match split "-" dpart, split ":" tpart with
      | [y; mo; d], [h; mi] =>
          new_Date (string_to_number y)
                   (match string_to_number mo with VNum n => VNum (n - 1) | v => v end)
                   (string_to_number d) (string_to_number h) (string_to_number mi) (VNum 0)
      | [y; mo; d], [h; mi; sc] =>
          new_Date (string_to_number y)
                   (match string_to_number mo with VNum n => VNum (n - 1) | v => v end)
                   (string_to_number d) (string_to_number h) (string_to_number mi)
                   (string_to_number sc)
      | _, _ => None
      end
  | _ => None
  end.

End JSDate.

Import JSDate.

(** Calendar validity of a civil date (month 1 to 12). *)
Definition days_in_month (y m : Z) : Z :=
  if m =? 2 then (if InLeapYear y then 29 else 28)
  else if (m =? 4) || (m =? 6) || (m =? 9) || (m =? 11) then 30
  else 31.

Definition valid_civil (y m d : Z) : bool :=
  (1 <=? m) && (m <=? 12) && (1 <=? d) && (d <=? days_in_month y m).

(** ** Configuration and fixtures *)

(** The repository holds two revisions of the script: [main.js], whose
    register and update actions are both mocked, and the later one with
    the update endpoint and the editable view.  Where they differ the
    embedding branches on the revision. *)
Inductive revision := MainJs | WithUpdate.

Record config := {
  API_BASE : string;
  CUSTOMER_ID : val;
  SLOT_MIN_TIME : Z;
  SLOT_MAX_TIME : Z;
  SLOT_DURATION_MIN : Z;
  RESPECT_SERVER_REGISTERED : bool;
  UPDATE_ENDPOINT : string
}.

Definition CONFIG : config := {|
  API_BASE := "http://66.94.119.235/Masterfit_Api/api";
  CUSTOMER_ID := VNum 1;
  SLOT_MIN_TIME := 8;
  SLOT_MAX_TIME := 17;
  SLOT_DURATION_MIN := 30;
  RESPECT_SERVER_REGISTERED := false;
  UPDATE_ENDPOINT := "/Masterfit_Calender_Nutation_Update"
|}.

Definition object (l : list (string * val)) : obj := list_to_map l.

Definition MOCK_resources : list obj := [
  object [("ID", VStr "1"); ("Name_En", VStr "Conference Rooms")];
  object [("ID", VStr "2"); ("Name_En", VStr "Board Room A")];
  object [("ID", VStr "3"); ("Name_En", VStr "Meeting Room B")];
  object [("ID", VStr "4"); ("Name_En", VStr "Personnel")]
].

Definition mock_slot (id : Z) (from to : string) (status : Z) : obj :=
  object [("Appoitment_Id", VNum id); ("Date", VStr "2025-11-03");
          ("TimeFrom", VStr from); ("TimeTo", VStr to);
          ("Status", VNum status); ("Description_En", VStr "Available")].

(** [MOCK.slots], keyed by [customerId|date|resourceId] *)
Definition MOCK_slots (cfg : config) : gmap string (list obj) :=
  <["1|2025-11-03|1" := [
      mock_slot 7909 "2025-11-03T09:00:00" "2025-11-03T09:30:00" 1;
      mock_slot 7910 "2025-11-03T10:00:00" "2025-11-03T10:30:00" 2 ]]>
  (<["1|2025-11-03|2" := [
      mock_slot 7920 "2025-11-03T09:00:00" "2025-11-03T09:30:00" 1;
      <["Register_Id" := CUSTOMER_ID cfg]>
        (mock_slot 7921 "2025-11-03T11:00:00" "2025-11-03T11:30:00" 1) ]]> ∅).

(** ** The browser around the script *)

(** What a [fetch] can come to: the promise rejects (network unreachable,
    CORS), or a response arrives with a status, a body text, and what the
    body parses to as JSON, if it does. *)
Inductive net_result :=
| NetError
| NetResponse (status : Z) (text : string) (parsed : option json).

Definition response_ok (status : Z) : bool := (200 <=? status) && (status <=? 299).

(** The environment of one event: the server as seen through [fetch], the
    clock, and the runtime's one-argument [Date] constructor. *)
Record runtime := {
  fetch_get : string -> net_result;
  fetch_post : string -> obj -> net_result;
  Date_now : Z;
  new_Date_now : Date;
  Date_of : val -> Date
}.

Inductive exn :=
| Error (msg : string)
| NetworkError
| SyntaxError
| TypeError.

Inductive outcome (A : Type) :=
| Ok (a : A)
| Throw (e : exn).
Arguments Ok {A} a.
Arguments Throw {A} e.

(** ** State *)

Abbreviation loc := nat.

(** The registration object [{ Appoitment_Id, Resource_Id, TimeFrom, TimeTo }] *)
Record Registration := {
  Appoitment_Id : val;
  Resource_Id : val;
  TimeFrom : val;
  TimeTo : val
}.

(** The context a modal is opened with: [{ old, slot, resource, customerId }] *)
Record modal_ctx := {
  old : option Registration;
  slot : loc;
  resource : obj;
  customerId : val
}.

(** One slot element of the drawn grid, with the slot and resource its
    click listener closes over. *)
Record slotEl := {
  className : string;
  appId : string;
  el_slot : loc;
  el_resource : obj
}.

Abbreviation grid := (list (Date * list (option slotEl))).

(** What the user (or the network) gets to see. *)
Inductive event :=
| EAlert (msg : string)
| EStatus (msg : string) (isError : bool)
| ERender (g : grid)
| ENoData
| EFetch (method url : string) (body : option obj)
| EStore (key value : string)
| EConsole (e : exn)
| EOpenModal (mode : string)
| ECloseModal
| ECloseView
| EReloadPending (dateStr : string) (custId : val).

Record state := {
  MODE : string;
  resources : json;
  slotsMap : gmap string (list loc);
  registeredSlot : option Registration;
  modalContext : option (string * modal_ctx);
  heap : list obj;
  datePicker : string;
  customerInput : string;
  log : list event
}.

Definition set_MODE (m : string) (st : state) : state :=
  {| MODE := m; resources := resources st; slotsMap := slotsMap st;
     registeredSlot := registeredSlot st; modalContext := modalContext st;
     heap := heap st; datePicker := datePicker st;
     customerInput := customerInput st; log := log st |}.

Definition set_resources (r : json) (st : state) : state :=
  {| MODE := MODE st; resources := r; slotsMap := slotsMap st;
     registeredSlot := registeredSlot st; modalContext := modalContext st;
     heap := heap st; datePicker := datePicker st;
     customerInput := customerInput st; log := log st |}.

Definition set_slotsMap (m : gmap string (list loc)) (st : state) : state :=
  {| MODE := MODE st; resources := resources st; slotsMap := m;
     registeredSlot := registeredSlot st; modalContext := modalContext st;
     heap := heap st; datePicker := datePicker st;
     customerInput := customerInput st; log := log st |}.

Definition set_registeredSlot (r : option Registration) (st : state) : state :=
  {| MODE := MODE st; resources := resources st; slotsMap := slotsMap st;
     registeredSlot := r; modalContext := modalContext st;
     heap := heap st; datePicker := datePicker st;
     customerInput := customerInput st; log := log st |}.

Definition set_modalContext (c : option (string * modal_ctx)) (st : state) : state :=
  {| MODE := MODE st; resources := resources st; slotsMap := slotsMap st;
     registeredSlot := registeredSlot st; modalContext := c;
     heap := heap st; datePicker := datePicker st;
     customerInput := customerInput st; log := log st |}.

Definition set_heap (h : list obj) (st : state) : state :=
  {| MODE := MODE st; resources := resources st; slotsMap := slotsMap st;
     registeredSlot := registeredSlot st; modalContext := modalContext st;
     heap := h; datePicker := datePicker st;
     customerInput := customerInput st; log := log st |}.

Definition emit (e : event) (st : state) : state :=
  {| MODE := MODE st; resources := resources st; slotsMap := slotsMap st;
     registeredSlot := registeredSlot st; modalContext := modalContext st;
     heap := heap st; datePicker := datePicker st;
     customerInput := customerInput st; log := log st ++ [e] |}.

(** Reading and writing a property of the object at a location. *)
Definition deref (st : state) (l : loc) : obj := default ∅ (heap st !! l).

Definition prop (st : state) (l : loc) (k : string) : val := get (deref st l) k.

Definition set_prop (l : loc) (k : string) (v : val) (st : state) : state :=
  set_heap (alter (insert k v) l (heap st)) st.

Definition delete_prop (l : loc) (k : string) (st : state) : state :=
  set_heap (alter (delete k) l (heap st)) st.

Definition setStatus (msg : string) (isError : bool) : state -> state :=
  emit (EStatus msg isError).

(** ** The script *)

Section Script.

Variable cfg : config.
Variable rev : revision.
Variable rt : runtime.

(** [isoDateString(d)] *)
Definition pad2 (v : val) : string :=
  let s := to_string v in
  match String.length s with
  | O => "00"
  | 1%nat => "0" ++ s
  | _ => s
  end.

Definition add1 (v : val) : val :=
  match to_number v with
  | VNum n => VNum (n + 1)
  | _ => VNaN
  end.

Definition sub1 (v : val) : val :=
  match to_number v with
  | VNum n => VNum (n - 1)
  | _ => VNaN
  end.

Definition isoDateString (d : Date) : string :=
  to_string (getFullYear d) ++ "-" ++ pad2 (add1 (getMonth d)) ++ "-" ++ pad2 (getDate d).

(** [$('#datePicker').value || isoDateString(new Date())] *)
Definition picked_date (st : state) : string :=
  if String.eqb (datePicker st) "" then isoDateString (new_Date_now rt)
  else datePicker st.

(** The session customer id: [Number($('#customerInput').value ||
    CONFIG.CUSTOMER_ID)] in [main.js], [Number(CONFIG.CUSTOMER_ID)] in the
    revision without the input box. *)
Definition custId (st : state) : val :=
  match rev with
  | MainJs => to_number (or_else (VStr (customerInput st)) (CUSTOMER_ID cfg))
  | WithUpdate => to_number (CUSTOMER_ID cfg)
  end.

(** *** generateRowTimes *)

(** The inner loop [for (mins = 0; mins < 60; mins += step)].  It does not
    end when [step <= 0]; the fuel runs out then and the result is [None]. *)
Fixpoint minute_loop (fuel : nat) (y m d : val) (h mins : Z) (rows : list Date)
  : option (list Date) :=
  match fuel with
  | O => None
  | S fuel =>
      if mins <? 60 then
        let dt := new_Date y (sub1 m) d (VNum h) (VNum mins) (VNum 0) in
        minute_loop fuel y m d h (mins + SLOT_DURATION_MIN cfg) (rows ++ [dt])
      else Some rows
  end.

(** The outer loop [for (h = SLOT_MIN_TIME; h <= SLOT_MAX_TIME; h++)] *)
Fixpoint hour_loop (fuel : nat) (y m d : val) (h : Z) (rows : list Date)
  : option (list Date) :=
  match fuel with
  | O => None
  | S fuel =>
      if h <=? SLOT_MAX_TIME cfg then
        match minute_loop 61 y m d h 0 rows with
        | Some rows => hour_loop fuel y m d (h + 1) rows
        | None => None
        end
      else Some rows
  end.

Definition generateRowTimes (dateStr : string) : option (list Date) :=
  let parts := map parseInt (split "-" dateStr) in
  let y := nth 0 parts VUndef in
  let m := nth 1 parts VUndef in
  let d := nth 2 parts VUndef in
  hour_loop (Z.to_nat (SLOT_MAX_TIME cfg - SLOT_MIN_TIME cfg + 1) + 1)
            y m d (SLOT_MIN_TIME cfg) [].

(** *** API wrappers *)

(** [apiGet(path)].  The later revision forces [MODE = 'live'] before the
    mock-mode test, so there the test never fires. *)
Definition apiGet (path : string) (st : state) : outcome json * state :=
  let url := API_BASE cfg ++ path in
  let st := match rev with MainJs => st | WithUpdate => set_MODE "live" st end in
  if String.eqb (MODE st) "mock" then (Throw (Error "mock-mode"), st)
  else
    let st := emit (EFetch "GET" url None) st in
    match fetch_get rt url with
    | NetError => (Throw NetworkError, st)
    | NetResponse status _ parsed =>
        if negb (response_ok status) then (Throw (Error ("HTTP " ++ pretty status)), st)
        else match parsed with
             | Some j => (Ok j, st)
             | None => (Throw SyntaxError, st)
             end
    end.

(** [apiPostJson(path, bodyObj)] *)
Definition apiPostJson (path : string) (bodyObj : obj) (st : state)
  : outcome json * state :=
  let url := API_BASE cfg ++ path in
  let st := set_MODE "live" st in
  if String.eqb (MODE st) "mock" then (Throw (Error "mock-mode"), st)
  else
    let st := emit (EFetch "POST" url (Some bodyObj)) st in
    match fetch_post rt url bodyObj with
    | NetError => (Throw NetworkError, st)
    | NetResponse status txt parsed =>
        if negb (response_ok status)
        then (Throw (Error ("HTTP " ++ pretty status ++ " " ++ txt)), st)
        else match parsed with
             | Some j => (Ok j, st)
             | None => (Throw SyntaxError, st)
             end
    end.

(** The [catch] block shared by the two read wrappers. *)
Definition fall_back_to_mock (e : exn) (st : state) : state :=
  emit (EStore "mode" "mock") (set_MODE "mock" (emit (EConsole e) st)).

(** [fetchResources(customerId)] *)
Definition fetchResources (customerId : val) (st : state) : json * state :=
  let path := "/MasterFit_Calender_Get_Appt_Resource_Nutration?Customer_Id="
              ++ to_string customerId in
  match apiGet path st with
  | (Ok data, st) => (data, st)
  | (Throw e, st) => (JArr MOCK_resources, fall_back_to_mock e st)
  end.

Definition slots_path (customerId : val) (dateStr : string) (resourceId : val) : string :=
  "/MasterFit_APP_GetAppointment/Calender?Customer_Id=" ++ to_string customerId
  ++ "&Date=" ++ dateStr ++ "&Resource_Id=" ++ to_string resourceId.

Definition mock_key (customerId : val) (dateStr : string) (resourceId : val) : string :=
  to_string customerId ++ "|" ++ dateStr ++ "|" ++ to_string resourceId.

(** The [result === 'failed'] test on what [apiGet] settled with *)
Definition checked (r : outcome json) : outcome json :=
  match r with
  | Ok data =>
      if json_truthy data && strict_eq (json_get data "result") (VStr "failed")
      then Throw (Error (to_string (or_else (json_get data "msg_en")
                                            (VStr "Invalid Data"))))
      else Ok data
  | Throw e => Throw e
  end.

(** The list the wrapper hands back: the data, or the fixture under
    [customerId|date|resourceId] (none: the empty list) from the [catch]. *)
Definition settled_data (customerId : val) (dateStr : string) (resourceId : val)
    (r : outcome json) : json :=
  match checked r with
  | Ok data => data
  | Throw _ => JArr (default [] (MOCK_slots cfg !! mock_key customerId dateStr resourceId))
  end.

(** What [fetchSlotsForResource] does once [apiGet] has settled. *)
Definition slots_settled (customerId : val) (dateStr : string) (resourceId : val)
    (r : outcome json) (st : state) : json * state :=
  (settled_data customerId dateStr resourceId r,
   match checked r with
   | Ok _ => st
   | Throw e => fall_back_to_mock e st
   end).

(** [fetchSlotsForResource(customerId, dateStr, resourceId)] *)
Definition fetchSlotsForResource (customerId : val) (dateStr : string)
    (resourceId : val) (st : state) : json * state :=
  let '(r, st) := apiGet (slots_path customerId dateStr resourceId) st in
  slots_settled customerId dateStr resourceId r st.

(** The request body [{ Appointment_Id, Notes, Status }] *)
Definition update_request (appointmentId statusValue notesValue : val) : obj :=
  object [
    ("Appointment_Id", VStr (to_string appointmentId));
    ("Notes", nullish notesValue (VStr ""));
    ("Status", VStr (to_string (nullish statusValue (VStr "")))) ].

(** [updateAppointmentAPI(appointmentId, statusValue, notesValue)] *)
Definition updateAppointmentAPI (appointmentId statusValue notesValue : val)
    (st : state) : outcome json * state :=
  if negb (truthy appointmentId) then (Throw (Error "Missing Appointment_Id"), st)
  else
    apiPostJson (UPDATE_ENDPOINT cfg)
                (update_request appointmentId statusValue notesValue) st.

(** *** Rendering *)

(** The test of [slots.find] in [renderGrid]: the slot starts in the
    minute of the row. *)
Definition starts_at (st : state) (dt : Date) (l : loc) : bool :=
  let sDT := Date_of rt (prop st l "TimeFrom") in
  strict_eq (getFullYear sDT) (getFullYear dt)
  && strict_eq (getMonth sDT) (getMonth dt)
  && strict_eq (getDate sDT) (getDate dt)
  && strict_eq (getHours sDT) (getHours dt)
  && strict_eq (getMinutes sDT) (getMinutes dt).

(** [s.Register_Id && Number(s.Register_Id) === custId] *)
Definition serverRegistered (o : obj) (cust : val) : bool :=
  truthy (get o "Register_Id") && strict_eq (to_number (get o "Register_Id")) cust.

(** [isRegistered] as [renderGrid] computes it *)
Definition isRegistered_render (st : state) (matched : obj) : bool :=
  match registeredSlot st with
  | Some r => truthy (Appoitment_Id r)
              && strict_eq (Appoitment_Id r) (get matched "Appoitment_Id")
  | None => false
  end
  || (RESPECT_SERVER_REGISTERED cfg && serverRegistered matched (custId st)).

Definition slot_class (st : state) (matched : obj) : string :=
  if isRegistered_render st matched then "slot registered"
  else if strict_eq (get matched "Status") (VNum 1)
          || test_i "available" (to_string (or_else (get matched "Description_En") (VStr "")))
  then "slot available"
  else "slot booked".

Definition render_cell (st : state) (dt : Date) (r : obj) : option slotEl :=
  let slots := default [] (slotsMap st !! to_string (get r "ID")) in
  match List.find (starts_at st dt) slots with
  | Some l =>
      let matched := deref st l in
      Some {| className := slot_class st matched;
              appId := to_string (or_else (get matched "Appoitment_Id") (VStr ""));
              el_slot := l;
              el_resource := r |}
  | None => None
  end.

Inductive drawn :=
| DrawGrid (g : grid) (n : nat)
| DrawNoData
| DrawThrow.

(** What [renderGrid(dateStr)] draws in a state; [None] when the row
    generator does not return.  A [resources] value that is not an array
    makes [resources.forEach] a type error unless its [length] is 0. *)
Definition draw (dateStr : string) (st : state) : option drawn :=
  match resources st with
  | JArr [] => Some DrawNoData
  | JArr rs =>
      rows ← generateRowTimes dateStr;
      Some (DrawGrid (map (fun dt => (dt, map (render_cell st dt) rs)) rows) (length rs))
  | JPrim v => Some (if truthy v then DrawThrow else DrawNoData)
  | JObj o => Some (if strict_eq (get o "length") (VNum 0) then DrawNoData else DrawThrow)
  end.

(** [renderGrid(dateStr)] *)
Definition renderGrid (dateStr : string) (st : state) : option (outcome unit * state) :=
  d ← draw dateStr st;
  Some match d with
       | DrawNoData =>
           (Ok (), setStatus "No resources available" true (emit ENoData st))
       | DrawGrid g n =>
           (Ok (), setStatus ("Grid loaded — " ++ pretty (Z.of_nat n) ++ " resources") false
                     (emit (ERender g) st))
       | DrawThrow => (Throw TypeError, st)
       end.

(** *** Slot click and the register/update modal *)

Definition openModal (mode : string) (ctx : modal_ctx) (st : state) : state :=
  emit (EOpenModal mode) (set_modalContext (Some (mode, ctx)) st).

Definition closeModal (st : state) : state :=
  emit ECloseModal (set_modalContext None st).

(** [isRegistered] as [onSlotClick] computes it *)
Definition isRegistered_click (st : state) (slotObj : obj) : bool :=
  match registeredSlot st with
  | Some r => strict_eq (Appoitment_Id r) (get slotObj "Appoitment_Id")
  | None => false
  end
  || (RESPECT_SERVER_REGISTERED cfg && serverRegistered slotObj (custId st)).

(** [onSlotClick(slotObj, resource)] *)
Definition onSlotClick (slotObj : loc) (res : obj) (st : state) : state :=
  if isRegistered_click st (deref st slotObj) then
    emit (EAlert "This slot is already registered for you.") st
  else
    match registeredSlot st with
    | None =>
        openModal "register"
          {| old := None; slot := slotObj; resource := res; customerId := custId st |} st
    | Some r =>
        openModal "update"
          {| old := Some r; slot := slotObj; resource := res; customerId := custId st |} st
    end.

(** The [catch] block of [handleModalConfirm] *)
Definition confirm_failed (e : exn) (st : state) : state :=
  emit (EAlert "Failed to register/update (see console).")
    (setStatus "Failed to register/update (mock)" true (emit (EConsole e) st)).

(** [old && old.Appoitment_Id], then [delete prevObj.Register_Id] on the
    slot [slotsMap[String(old.Resource_Id)]] holds under that id. *)
Definition find_prev (st : state) (o : Registration) : option loc :=
  List.find (fun s => strict_eq (prop st s "Appoitment_Id") (Appoitment_Id o))
            (default [] (slotsMap st !! to_string (Resource_Id o))).

Definition unregister_previous (o : option Registration) (st : state) : state :=
  match o with
  | Some o =>
      if truthy (Appoitment_Id o) then
        match find_prev st o with
        | Some prevObj => delete_prop prevObj "Register_Id" st
        | None => st
        end
      else st
  | None => st
  end.

(** [handleModalConfirm(mode, ctx)] *)
Definition handleModalConfirm (mode : string) (ctx : modal_ctx) (st : state)
  : option state :=
  if String.eqb mode "register" then
    let newId := VNum (Date_now rt) in
    let st := set_registeredSlot
                (Some {| Appoitment_Id := newId;
                         Resource_Id := get (resource ctx) "ID";
                         TimeFrom := prop st (slot ctx) "TimeFrom";
                         TimeTo := prop st (slot ctx) "TimeTo" |}) st in
    let st := set_prop (slot ctx) "Register_Id" (customerId ctx) st in
    let st := set_prop (slot ctx) "Appoitment_Id" newId st in
    let st := setStatus "Registered (mock): slot marked as dark green" false st in
    let st := closeModal st in
    r ← renderGrid (picked_date st) st;
    Some match r with
         | (Ok _, st) => emit (EAlert "Appointment registered (mock).") st
         | (Throw e, st) => confirm_failed e st
         end
  else if String.eqb mode "update" then
    match rev with
    | WithUpdate => Some st
    | MainJs =>
        let st := unregister_previous (old ctx) st in
        let st := set_prop (slot ctx) "Register_Id" (customerId ctx) st in
        let st := set_registeredSlot
                    (Some {| Appoitment_Id := prop st (slot ctx) "Appoitment_Id";
                             Resource_Id := get (resource ctx) "ID";
                             TimeFrom := prop st (slot ctx) "TimeFrom";
                             TimeTo := prop st (slot ctx) "TimeTo" |}) st in
        let st := setStatus "Updated (mock): registration moved to new slot" false st in
        let st := closeModal st in
        r ← renderGrid (picked_date st) st;
        Some match r with
             | (Ok _, st) => emit (EAlert "Appointment updated (mock).") st
             | (Throw e, st) => confirm_failed e st
             end
    end
  else Some st.

(** *** Appointment details *)

(** What [fetchAppointmentDetails] resolves to: a slot object of the
    heap, an object out of a fetched list, or a primitive ([null] when
    nothing is there). *)
Inductive details :=
| DSlot (l : loc)
| DObj (o : obj)
| DVal (v : val).

Definition same_id_text (a b : val) : bool := String.eqb (to_string a) (to_string b).

(** The lookup in [slotsMap[String(resourceId)]] *)
Definition find_in_memory (st : state) (resourceId appId : val) : option loc :=
  match slotsMap st !! to_string resourceId with
  | Some arr =>
      List.find (fun s => truthy appId && truthy (prop st s "Appoitment_Id")
                          && same_id_text (prop st s "Appoitment_Id") appId) arr
  | None => None
  end.

(** The [try] block after the fetch: [arr] is whatever the wrapper handed
    back.  Calling [find] on something that is not an array is a type
    error, which the [catch] turns into [null]. *)
Definition pick_details (appId : val) (arr : json) (st : state) : details * state :=
  match arr with
  | JArr [] => (DVal VNull, st)
  | JArr ((first :: _) as items) =>
      if truthy appId then
        match List.find (fun s => same_id_text (get s "Appoitment_Id") appId) items with
        | Some f => (DObj f, st)
        | None => (DObj first, st)
        end
      else (DObj first, st)
  | JPrim v =>
      if negb (truthy v) then (DVal VNull, st)
      else if truthy appId then (DVal VNull, emit (EConsole TypeError) st)
      else match v with
           | VStr (String c _) => (DVal (VStr (String c "")), st)
           | _ => (DVal VNull, st)
           end
  | JObj o =>
      if strict_eq (get o "length") (VNum 0) then (DVal VNull, st)
      else if truthy appId then (DVal VNull, emit (EConsole TypeError) st)
      else (DVal (or_else (get o "0") VNull), st)
  end.

(** [fetchAppointmentDetails({ customerId, dateStr, resourceId, appId, slotObj })] *)
Definition fetchAppointmentDetails (customerId : val) (dateStr : string)
    (resourceId appId : val) (slotObj : option loc) (st : state) : details * state :=
  match slotObj with
  | Some l => (DSlot l, st)
  | None =>
      match find_in_memory st resourceId appId with
      | Some found => (DSlot found, st)
      | None =>
          let '(arr, st) := fetchSlotsForResource customerId dateStr resourceId st in
          pick_details appId arr st
      end
  end.

(** *** The editable view *)

(** [resp && String(resp.result).toLowerCase() === 'success'] *)
Definition says_success (resp : json) : bool :=
  json_truthy resp
  && String.eqb (toLowerCase (to_string (json_get resp "result"))) "success".

Definition status_label (statusVal : string) : string :=
  if String.eqb statusVal "2" then "Accepted"
  else if String.eqb statusVal "3" then "Rejected"
  else "Pending".

(** [slotsMap[String(slotObj.Resource_Id)] || slotsMap[String(slotObj.ResourceId)] || []] *)
Definition resArr (st : state) (slotObj : loc) : list loc :=
  match slotsMap st !! to_string (prop st slotObj "Resource_Id") with
  | Some a => a
  | None => default [] (slotsMap st !! to_string (prop st slotObj "ResourceId"))
  end.

Definition find_by_id (st : state) (slotObj : loc) : option loc :=
  List.find (fun s => same_id_text (prop st s "Appoitment_Id")
                                   (prop st slotObj "Appoitment_Id"))
            (resArr st slotObj).

(** The success branch up to the re-render: the slot object is updated and
    the change is copied to the slot found in [slotsMap]. *)
Definition apply_update (slotObj : loc) (statusVal notesVal : string) (st : state)
  : state :=
  let st := set_prop slotObj "Status" (to_number (VStr statusVal)) st in
  let st := set_prop slotObj "Notes" (VStr notesVal) st in
  let st := set_prop slotObj "Description_En" (VStr (status_label statusVal)) st in
  let st := set_prop slotObj "Description_Ar" (VStr notesVal) st in
  match find_by_id st slotObj with
  | Some found =>
      let st := set_prop found "Status" (prop st slotObj "Status") st in
      let st := set_prop found "Description_En" (prop st slotObj "Description_En") st in
      let st := set_prop found "Description_Ar" (prop st slotObj "Description_Ar") st in
      set_prop found "Notes" (prop st slotObj "Notes") st
  | None => st
  end.

(** [gridLoaderCaller()] is not awaited: what runs before it suspends at
    its first [fetch] is the status line, the forced live mode and the
    request; the rest of the reload is left pending. *)
Definition gridLoaderCaller_start (st : state) : state :=
  let dateStr := picked_date st in
  let c := to_number (CUSTOMER_ID cfg) in
  let st := setStatus "Loading resources..." false st in
  let st := set_MODE "live" st in
  let st := emit (EFetch "GET" (API_BASE cfg
                    ++ "/MasterFit_Calender_Get_Appt_Resource_Nutration?Customer_Id="
                    ++ to_string c) None) st in
  emit (EReloadPending dateStr c) st.

(** The [onUpdated] callback both update-flow buttons pass to the view *)
Definition onUpdated (ctx : modal_ctx) (updatedSlot : loc) (st : state)
  : option (outcome unit * state) :=
  let st := unregister_previous (old ctx) st in
  let st := set_prop updatedSlot "Register_Id" (customerId ctx) st in
  let st := set_registeredSlot
              (Some {| Appoitment_Id := prop st updatedSlot "Appoitment_Id";
                       Resource_Id := get (resource ctx) "ID";
                       TimeFrom := prop st updatedSlot "TimeFrom";
                       TimeTo := prop st updatedSlot "TimeTo" |}) st in
  renderGrid (picked_date st) st.

(** The [catch] block of the update button *)
Definition update_failed (e : exn) (st : state) : state :=
  emit (EAlert "Failed to send update. See console for details (CORS/SSL issues possible).")
    (setStatus "Update API error" true (emit (EConsole e) st)).

(** The click listener of the view's "Update (send)" button, for the slot
    [slotObj] the view shows, the callback context it was opened with, and
    the values of the status select and the notes box. *)
Definition updateBtn_click (slotObj : loc) (cb : option modal_ctx)
    (statusVal notesVal : string) (st : state) : option state :=
  let appId := prop st slotObj "Appoitment_Id" in
  if negb (truthy appId) then
    Some (emit (EAlert "Appointment_Id is missing — cannot update.") st)
  else
    let st := setStatus "Sending update to server..." false st in
    match updateAppointmentAPI appId (VStr statusVal) (VStr notesVal) st with
    | (Throw e, st) => Some (update_failed e st)
    | (Ok resp, st) =>
        if says_success resp then
          let st := apply_update slotObj statusVal notesVal st in
          let st := setStatus "Update saved — server responded success." false st in
          let st := emit ECloseView st in
          r ← renderGrid (picked_date st) st;
          match r with
          | (Throw e, st) => Some (update_failed e st)
          | (Ok _, st) =>
              let st := emit (EAlert "Update successful.") st in
              let st := gridLoaderCaller_start st in
              match cb with
              | None => Some st
              | Some ctx =>
                  r ← onUpdated ctx slotObj st;
                  Some match r with
                       | (Ok _, st) => st
                       | (Throw e, st) => update_failed e st
                       end
              end
          end
        else
          let msg := if truthy (json_get resp "msg_en")
                     then to_string (json_get resp "msg_en")
                     else "Unknown response from server" in
          let st := setStatus "Update failed" true st in
          Some (emit (EAlert ("Update failed: " ++ msg)) st)
    end.

(** *** Loading *)

(** [{ ...r, ID: String(r.ID) }] *)
Definition normalize_resource (r : obj) : obj :=
  <["ID" := VStr (to_string (get r "ID"))]> r.

(** The copy of a fetched slot that goes into [slotsMap]: [{ ...s }] in
    [main.js], [{ ...s, ResourceName: r.Name_En || r.Name }] later. *)
Definition copy_slot (r s : obj) : obj :=
  match rev with
  | MainJs => s
  | WithUpdate => <["ResourceName" := or_else (get r "Name_En") (get r "Name")]> s
  end.

(** [{ Appoitment_Id: s.Appoitment_Id, Resource_Id: r.ID, TimeFrom: s.TimeFrom,
    TimeTo: s.TimeTo }] *)
Definition registration_of (r s : obj) : Registration :=
  {| Appoitment_Id := get s "Appoitment_Id";
     Resource_Id := get r "ID";
     TimeFrom := get s "TimeFrom";
     TimeTo := get s "TimeTo" |}.

(** One step of the [forEach] that seeds [registeredSlot] from the server's
    [Register_Id]: every matching slot overwrites the variable. *)
Definition seed (r : obj) (customerId : val) (reg : option Registration) (s : obj)
  : option Registration :=
  if serverRegistered s (to_number customerId) then Some (registration_of r s)
  else reg.

(** The array a callback maps over: [(arr || [])], which has to have a
    [map] method. *)
Definition slot_items (arr : json) : option (list obj) :=
  match arr with
  | JArr items => Some items
  | JPrim v => if truthy v then None else Some []
  | JObj _ => None
  end.

(** The body of the per-resource callback after its fetch has settled
    with [arr]: the copies are allocated, stored under the resource id,
    and scanned for the customer's registration when the flag is on. *)
Definition store_slots (customerId : val) (r : obj) (arr : json) (st : state)
  : outcome unit * state :=
  match slot_items arr with
  | None => (Throw TypeError, st)
  | Some items =>
      let copies := map (copy_slot r) items in
      let base := length (heap st) in
      let st := set_heap (heap st ++ copies) st in
      let st := set_slotsMap (<[to_string (get r "ID") := seq base (length copies)]>
                                (slotsMap st)) st in
      let st := if RESPECT_SERVER_REGISTERED cfg
                then set_registeredSlot
                       (fold_left (seed r customerId) copies (registeredSlot st)) st
                else st in
      (Ok (), st)
  end.

(** The requests go out one after the other while [resources.map] runs;
    each callback is suspended at its [fetch]. *)
Fixpoint issue_all (customerId : val) (dateStr : string) (rs : list obj) (st : state)
  : list (obj * outcome json) * state :=
  match rs with
  | [] => ([], st)
  | r :: rs =>
      let '(o, st) := apiGet (slots_path customerId dateStr (get r "ID")) st in
      let '(os, st) := issue_all customerId dateStr rs st in
      ((r, o) :: os, st)
  end.

(** The callbacks resume in the order [order] in which their requests
    settle (indices into the resource list).  [failed] records whether one
    of them threw, which is what [Promise.all] rejects with. *)
Fixpoint settle_all (customerId : val) (dateStr : string)
    (pending : list (obj * outcome json)) (order : list nat)
    (failed : option exn) (st : state) : option exn * state :=
  match order with
  | [] => (failed, st)
  | i :: order =>
      match pending !! i with
      | Some (r, o) =>
          let '(arr, st) := slots_settled customerId dateStr (get r "ID") o st in
          match store_slots customerId r arr st with
          | (Ok _, st) => settle_all customerId dateStr pending order failed st
          | (Throw e, st) =>
              settle_all customerId dateStr pending order
                         (match failed with Some e0 => Some e0 | None => Some e end) st
          end
      | None => settle_all customerId dateStr pending order failed st
      end
  end.

(** The [catch] block of [loadAndRender] *)
Definition load_failed (e : exn) (st : state) : state :=
  emit ENoData (setStatus "Failed to load grid" true (emit (EConsole e) st)).

(** The head of [loadAndRender]: the resources are fetched and their ids
    normalised; a value that is not an array has no [map]. *)
Definition begin_load (customerId : val) (st : state) : outcome (list obj) * state :=
  let st := setStatus "Loading resources..." false st in
  let '(data, st) := fetchResources customerId st in
  let st := set_resources data st in
  match data with
  | JArr items =>
      (Ok (map normalize_resource items),
       set_resources (JArr (map normalize_resource items)) st)
  | JPrim v =>
      if truthy v then (Throw TypeError, st)
      else (Ok [], set_resources (JArr []) st)
  | JObj _ => (Throw TypeError, st)
  end.

(** The tracker and the repository are cleared before the slots are
    asked for. *)
Definition clear_session (st : state) : state :=
  set_slotsMap ∅
    (setStatus "Loading slots for all resources..." false
       (set_registeredSlot None st)).

(** [loadAndRender(dateStr, customerId)], with the order in which the slot
    requests of this load settle. *)
Definition loadAndRender (dateStr : string) (customerId : val) (order : list nat)
    (st : state) : option state :=
  match begin_load customerId st with
  | (Throw e, st) => Some (load_failed e st)
  | (Ok [], st) => Some (emit ENoData (setStatus "No resources returned" true st))
  | (Ok rs, st) =>
      let '(pending, st) := issue_all customerId dateStr rs (clear_session st) in
      match settle_all customerId dateStr pending order None st with
      | (Some e, st) => Some (load_failed e st)
      | (None, st) =>
          r ← renderGrid dateStr st;
          Some match r with
               | (Ok _, st) => st
               | (Throw e, st) => load_failed e st
               end
      end
  end.

(** The slot requests a load has pending once they are all issued, each
    with its resource and what it settles with; [None] when the load stops
    before it asks for slots. *)
Definition load_pending (dateStr : string) (customerId : val) (st : state)
  : option (list (obj * outcome json)) :=
  match begin_load customerId st with
  | (Ok (r :: rs), st) =>
      Some (fst (issue_all customerId dateStr (r :: rs) (clear_session st)))
  | _ => None
  end.


End Script.

(** ** Vocabulary of the statements *)



(** The date [generateRowTimes] builds for the row at [h]:[mins]. *)
Definition row_date (y m d : val) (h mins : Z) : Date :=
  new_Date y (sub1 m) d (VNum h) (VNum mins) (VNum 0).

(** The day number [new Date(y, m - 1, d)] falls on: years 0 to 99 are
    read as 1900 + y, and a month or day out of range carries over. *)
Definition civil_day (y m d : Z) : Z :=
  MakeDay (if (0 <=? y) && (y <=? 99) then 1900 + y else y) (m - 1) d.

(** The date is valid and falls on day number [D]. *)
Definition on_day (D : Z) (dt : Date) : Prop :=
  exists t, dt = Some t /\ Day t = D.

(** Ten characters [dddd-dd-dd], each [d] a decimal digit. *)
Definition well_formed_date (s : string) : bool :=
  match s with
  | String a (String b (String c (String d (String s1
      (String e (String f (String s2 (String g (String h EmptyString))))))))) =>
      is_digit a && is_digit b && is_digit c && is_digit d && Ascii.eqb s1 "-"
      && is_digit e && is_digit f && Ascii.eqb s2 "-" && is_digit g && is_digit h
  | _ => false
  end.

(** [n] dates from time value [t] on, [s] milliseconds apart. *)
Definition progression (s t : Z) (n : nat) : list Date :=
  map (fun k => Some (t + s * Z.of_nat k)) (seq 0 n).

(** A read that does not deliver: the request fails in transport, the
    status is not 2xx, the body does not parse, or it parses to an object
    whose [result] is ['failed']. *)
Definition read_fails (r : net_result) : Prop :=
  match r with
  | NetError => True
  | NetResponse status _ parsed =>
      response_ok status = false
      \/ match parsed with
         | None => True
         | Some data => json_get data "result" = VStr "failed"
         end
  end.

(** A state in which nothing but the mode flag and the log differ. *)
Definition same_data (st st' : state) : Prop :=
  resources st' = resources st /\ slotsMap st' = slotsMap st
  /\ registeredSlot st' = registeredSlot st /\ heap st' = heap st
  /\ modalContext st' = modalContext st.

(** The tracker holds a registration whose appointment id is [id]
    (the comparison [onSlotClick] makes). *)
Definition tracker_holds (st : state) (id : val) : Prop :=
  exists r, registeredSlot st = Some r /\ strict_eq (Appoitment_Id r) id = true.

(** The tracker's appointment id matches [id] (the comparison [renderGrid]
    makes: there has to be an id, and it has to be this one). *)
Definition tracker_matches (st : state) (id : val) : Prop :=
  exists r, registeredSlot st = Some r
            /\ truthy (Appoitment_Id r) = true
            /\ strict_eq (Appoitment_Id r) id = true.



(** *** Sample runs *)

(** A browser without network whose [Date] reads local ISO date-times. *)
Definition offline : runtime := {|
  fetch_get := fun _ => NetError;
  fetch_post := fun _ _ => NetError;
  Date_now := 1762160000000;
  new_Date_now := Some 1762160000000;
  Date_of := fun v => match v with
                      | VStr s => parse_iso_local s
                      | VNum n => TimeClip n
                      | _ => None
                      end
|}.

(** The page before its first load, with the fixture date picked. *)
Definition blank : state := {|
  MODE := "live"; resources := JArr []; slotsMap := ∅;
  registeredSlot := None; modalContext := None; heap := [];
  datePicker := "2025-11-03"; customerInput := "1"; log := []
|}.

(** A write that does not go through: the request fails in transport, the
    status is not 2xx, the body does not parse, or the response does not
    say success. *)
Definition write_fails (r : net_result) : Prop :=
  match r with
  | NetError => True
  | NetResponse status _ parsed =>
      response_ok status = false
      \/ match parsed with
         | None => True
         | Some resp => says_success resp = false
         end
  end.

(** The notice the specification asks for after a failed write: the server's
    [msg_en] when the server answered and sent one, a generic text when it
    sent none, and the generic send-failure text when the call threw. *)
Definition failure_notice (r : net_result) (notice : string) : Prop :=
  match r with
  | NetResponse status _ (Some resp) =>
      if response_ok status then
        (truthy (json_get resp "msg_en") = true ->
           notice = "Update failed: " ++ to_string (json_get resp "msg_en"))
        /\ (truthy (json_get resp "msg_en") = false ->
            notice = "Update failed: Unknown response from server")
      else notice = "Failed to send update. See console for details (CORS/SSL issues possible)."
  | _ => notice = "Failed to send update. See console for details (CORS/SSL issues possible)."
  end.





Definition room : obj := object [("ID", VNum 1); ("Name_En", VStr "Room")].

Definition owned_slot (id : Z) (from to : string) : obj :=
  object [("Appoitment_Id", VNum id); ("TimeFrom", VStr from); ("TimeTo", VStr to);
          ("Status", VNum 2); ("Description_En", VStr "Booked");
          ("Register_Id", VNum 1)].

(** A server with one resource and two slots, both held by customer 1. *)
Definition double_booked : runtime := {|
  fetch_get := fun url =>
    if includes "Get_Appt_Resource" url
    then NetResponse 200 "" (Some (JArr [room]))
    else NetResponse 200 "" (Some (JArr [
           owned_slot 10 "2025-11-03T09:00:00" "2025-11-03T09:30:00";
           owned_slot 11 "2025-11-03T10:00:00" "2025-11-03T10:30:00" ]));
  fetch_post := fun _ _ => NetError;
  Date_now := Date_now offline;
  new_Date_now := new_Date_now offline;
  Date_of := Date_of offline
|}.


(** From [st] to [st'] the repository lists and the allocated objects are
    the same, and so is every property outside [ks]. *)
Definition frame (ks : list string) (st st' : state) : Prop :=
  slotsMap st' = slotsMap st
  /\ (forall l, is_Some (heap st' !! l) <-> is_Some (heap st !! l))
  /\ (forall l k, ~ In k ks -> prop st' l k = prop st l k).


(** The page after its first load without network: the fixtures of
    resources 1 and 2 are in the repository. *)
Definition loaded : state :=
  default blank
    (loadAndRender CONFIG WithUpdate offline "2025-11-03" (VNum 1)
                   [0; 1; 2; 3]%nat blank).

Definition conference : obj :=
  object [("ID", VStr "1"); ("Name_En", VStr "Conference Rooms")].

Definition board_room : obj :=
  object [("ID", VStr "2"); ("Name_En", VStr "Board Room A")].

(** The 09:00 slot of resource 1 is clicked and the register modal
    confirmed. *)
Definition register_ctx : modal_ctx :=
  {| old := None; slot := 0%nat; resource := conference; customerId := VNum 1 |}.

Definition registered : state :=
  default loaded (handleModalConfirm CONFIG WithUpdate offline "register" register_ctx loaded).

(** Then the 09:00 slot of resource 2 is clicked: the update modal opens
    with this context. *)
Definition move_ctx : modal_ctx :=
  {| old := Some {| Appoitment_Id := VNum (Date_now offline);
                    Resource_Id := VStr "1";
                    TimeFrom := VStr "2025-11-03T09:00:00";
                    TimeTo := VStr "2025-11-03T09:30:00" |};
     slot := 2%nat; resource := board_room; customerId := VNum 1 |}.

(** A server that accepts every update, and one that refuses with a
    message. *)
Definition accepting : runtime := {|
  fetch_get := fetch_get offline;
  fetch_post := fun _ _ =>
    NetResponse 200 "" (Some (JObj (object [("result", VStr "success")])));
  Date_now := Date_now offline;
  new_Date_now := new_Date_now offline;
  Date_of := Date_of offline
|}.

Definition refusing : runtime := {|
  fetch_get := fetch_get offline;
  fetch_post := fun _ _ =>
    NetResponse 200 "" (Some (JObj (object [("result", VStr "failed");
                                            ("msg_en", VStr "slot taken")])));
  Date_now := Date_now offline;
  new_Date_now := new_Date_now offline;
  Date_of := Date_of offline
|}.

(** A slot the tracker points at while the server gives it to customer 99. *)
Definition contested : state := {|
  MODE := "live";
  resources := JArr [conference];
  slotsMap := {[ "1" := [0%nat] ]};
  registeredSlot := Some {| Appoitment_Id := VNum 7909; Resource_Id := VStr "1";
                            TimeFrom := VStr "2025-11-03T09:00:00";
                            TimeTo := VStr "2025-11-03T09:30:00" |};
  modalContext := None;
  heap := [ <["Register_Id" := VNum 99]>
              (<["Description_En" := VStr "Booked"]>
                 (mock_slot 7909 "2025-11-03T09:00:00" "2025-11-03T09:30:00" 2)) ];
  datePicker := "2025-11-03"; customerInput := "1"; log := []
|}.

(** ** The rest of the page

    The helpers and listeners around the grid: the markup escape of the
    editable view, the date line, the previous/next day buttons, the mode
    select of [main.js] and the "View Current" button of the update
    dialog. *)

(** [s.replace(/c/g, text)] for a pattern of one plain character and a
    replacement text without [$]. *)
Fixpoint replace_all (c : ascii) (text : string) (s : string) : string :=
  match s with
  | EmptyString => EmptyString
  | String a r =>
      if Ascii.eqb a c then text ++ replace_all c text r
      else String a (replace_all c text r)
  end.

(** [escapeHtml(s)] *)
Definition escapeHtml (s : val) : string :=
  if negb (truthy s) && negb (strict_eq s (VNum 0)) then ""
  else replace_all ">" "&gt;"
         (replace_all "<" "&lt;"
            (replace_all "&" "&amp;" (to_string s))).

(** The pattern [/, (\d{4})$/] at the head of [s]: a comma, a blank, four
    digits and the end of the text.  The result is the group. *)
Definition year_suffix (s : string) : option string :=
  match s with
  | String c1 (String c2 (String a (String b (String c (String d EmptyString))))) =>
      if Ascii.eqb c1 "," && Ascii.eqb c2 " "
         && is_digit a && is_digit b && is_digit c && is_digit d
      then Some (String a (String b (String c (String d EmptyString))))
      else None
  | _ => None
  end.

(** [s.replace(/, (\d{4})$/, ' $1')]: the pattern is tried at every
    position from the left, and the first match is replaced. *)
Fixpoint drop_year_comma (s : string) : string :=
  match year_suffix s with
  | Some y => String " " y
  | None =>
      match s with
      | EmptyString => EmptyString
      | String c r => String c (drop_year_comma r)
      end
  end.

(** [d.setDate(n)]: the day of the month is replaced and carries over into
    the neighbouring months; the time of day stays. *)
Definition setDate (d : Date) (n : val) : Date :=
  match d, num n with
  | Some t, Some n =>
      TimeClip (MakeDate (MakeDay (YearFromDay (Day t)) (MonthFromDay (Day t)) n)
                         (t mod msPerDay))
  | _, _ => None
  end.

(** What the page asks of [Intl]:
    [d.toLocaleDateString('en-US', { weekday: 'long', month: 'long',
    day: '2-digit', year: 'numeric' })]. *)
Record locale := {
  toLocaleDateString : Date -> string
}.

(** The later revision shows the picked date in words beside the grid. *)
Record page := {
  session : state;
  displayDate : string
}.

Definition set_datePicker (v : string) (st : state) : state :=
  {| MODE := MODE st; resources := resources st; slotsMap := slotsMap st;
     registeredSlot := registeredSlot st; modalContext := modalContext st;
     heap := heap st; datePicker := v;
     customerInput := customerInput st; log := log st |}.

(** What a view button hands to [openViewModal]: nothing (the button gave
    up), or the details it resolved. *)
Inductive shown :=
| NoView
| View (d : details).

Section Page.

Variable cfg : config.
Variable rev : revision.
Variable rt : runtime.
Variable lc : locale.

(** [formatDisplayDateStr(dateStr)] *)
Definition formatDisplayDateStr (dateStr : string) : string :=
  match Date_of rt (VStr dateStr) with
  | None => dateStr
  | Some t => drop_year_comma (toLocaleDateString lc (Some t))
  end.

(** The click listener of [#prevDateBtn].  The new text is taken by the
    picker as a text box takes it (a date input takes a valid date text
    the same way); the reload it starts is not awaited. *)
Definition prevBtn_click (pg : page) : page :=
  let st := session pg in
  let cur := Date_of rt (VStr (picked_date rt st)) in
  let cur := setDate cur (sub1 (getDate cur)) in
  let newIso := isoDateString cur in
  let st := set_datePicker newIso st in
  {| session := gridLoaderCaller_start cfg rt st;
     displayDate := formatDisplayDateStr newIso |}.

(** The click listener of [#nextDateBtn] *)
Definition nextBtn_click (pg : page) : page :=
  let st := session pg in
  let cur := Date_of rt (VStr (picked_date rt st)) in
  let cur := setDate cur (add1 (getDate cur)) in
  let newIso := isoDateString cur in
  let st := set_datePicker newIso st in
  {| session := gridLoaderCaller_start cfg rt st;
     displayDate := formatDisplayDateStr newIso |}.

(** The [change] listener of [#modeSelect] in [main.js] *)
Definition modeSelect_change (value : string) (st : state) : state :=
  let st := set_MODE value st in
  let st := emit (EStore "mode" value) st in
  setStatus ("Mode: " ++ value) (String.eqb value "mock") st.

(** The click listener of "View Current" in the update dialog *)
Definition viewCurrent_click (ctx : modal_ctx) (st : state) : shown * state :=
  let current := match old ctx with
                 | Some o => if truthy (Appoitment_Id o) then Some o else registeredSlot st
                 | None => registeredSlot st
                 end in
  match current with
  | None => (NoView, emit (EAlert "No current registration available.") st)
  | Some current =>
      let '(d, st) :=
        fetchAppointmentDetails cfg rev rt (customerId ctx) (datePicker st)
          (or_else (Resource_Id current) (get (resource ctx) "ID"))
          (Appoitment_Id current) None st in
      (View d, st)
  end.

End Page.

(** *** More vocabulary *)

(** One character as [escapeHtml] writes it. *)
Definition escaped (a : ascii) : string :=
  if Ascii.eqb a "&" then "&amp;"
  else if Ascii.eqb a "<" then "&lt;"
  else if Ascii.eqb a ">" then "&gt;"
  else String a EmptyString.

(** A text written out character by character. *)
Fixpoint escape_each (s : string) : string :=
  match s with
  | EmptyString => EmptyString
  | String a r => escaped a ++ escape_each r
  end.

Fixpoint occurs (c : ascii) (s : string) : bool :=
  match s with
  | EmptyString => false
  | String a r => Ascii.eqb a c || occurs c r
  end.

(** The network requests among a list of events, in order. *)
Definition is_request (e : event) : bool :=
  match e with
  | EFetch _ _ _ => true
  | _ => false
  end.

Definition requests (l : list event) : list event := List.filter is_request l.

(** A well-formed date text that names a day of the calendar in a year
    from 1000 on (the texts a date input holds and [isoDateString] writes
    for four-digit years). *)
Definition valid_date_string (s : string) : bool :=
  well_formed_date s
  && match map parseInt (split "-" s) with
     | [VNum y; VNum m; VNum d] => valid_civil y m d && (1000 <=? y)
     | _ => false
     end.

(** The day number a valid date text names, and the text of a day number. *)
Definition day_of_text (s : string) : option Z :=
  if valid_date_string s then
    match map parseInt (split "-" s) with
    | [VNum y; VNum m; VNum d] => Some (MakeDay y (m - 1) d)
    | _ => None
    end
  else None.

Definition date_text (D : Z) : string := isoDateString (Some (D * msPerDay)).

(** How engines read a date-only text: as midnight UTC of that day.  With
    local time [off] milliseconds ahead of UTC (behind, when negative),
    that instant is [off] into the local day. *)
Definition parse_date_only (off : Z) (s : string) : Date :=
  match day_of_text s with
  | Some D => Some (D * msPerDay + off)
  | None => None
  end.

(** Four decimal digits. *)
Definition is_year (y : string) : bool :=
  match y with
  | String a (String b (String c (String d EmptyString))) =>
      is_digit a && is_digit b && is_digit c && is_digit d
  | _ => false
  end.

(** *** More sample runs *)

(** A browser without network in a zone [off] milliseconds ahead of UTC:
    date-only texts are midnight UTC, date-times are local. *)
Definition zoned (off : Z) : runtime := {|
  fetch_get := fetch_get offline;
  fetch_post := fetch_post offline;
  Date_now := Date_now offline;
  new_Date_now := new_Date_now offline;
  Date_of := fun v =>
    match v with
    | VStr s => match parse_date_only off s with
                | Some t => Some t
                | None => Date_of offline v
                end
    | _ => Date_of offline v
    end
|}.

Definition weekday_name (D : Z) : string :=
  nth (Z.to_nat ((D + 4) mod 7))
      ["Sunday"; "Monday"; "Tuesday"; "Wednesday"; "Thursday"; "Friday"; "Saturday"] "".

Definition month_name (m : Z) : string :=
  nth (Z.to_nat m)
      ["January"; "February"; "March"; "April"; "May"; "June"; "July"; "August";
       "September"; "October"; "November"; "December"] "".

(** The long en-US date: [Monday, November 03, 2025]. *)
Definition en_US : locale := {|
  toLocaleDateString := fun d =>
    match d with
    | Some t =>
        weekday_name (Day t) ++ ", " ++ month_name (MonthFromDay (Day t)) ++ " "
        ++ pad2 (getDate d) ++ ", " ++ to_string (getFullYear d)
    | None => "Invalid Date"
    end
|}.

(** The page of the later revision with the fixture date picked. *)
Definition front : page := {| session := blank; displayDate := "" |}.

(** What [apiGet] settles with once its request has gone out. *)
Definition delivered (r : net_result) : outcome json :=
  match r with
  | NetError => Throw NetworkError
  | NetResponse status _ parsed =>
      if response_ok status then
        match parsed with
        | Some j => Ok j
        | None => Throw SyntaxError
        end
      else Throw (Error ("HTTP " ++ pretty status))
  end.

(** [apiGet] sends its request: always in the later revision, and unless
    the mode is ['mock'] in [main.js]. *)
Definition goes_out (rev : revision) (st : state) : Prop :=
  rev = WithUpdate \/ MODE st <> "mock".

(** No body comes back: the request fails in transport, the status is not
    2xx, or the body does not parse. *)
Definition transport_fails (r : net_result) : Prop :=
  match r with
  | NetError => True
  | NetResponse status _ parsed => response_ok status = false \/ parsed = None
  end.

Definition resources_url (cfg : config) (customerId : val) : string :=
  API_BASE cfg ++ "/MasterFit_Calender_Get_Appt_Resource_Nutration?Customer_Id="
  ++ to_string customerId.

Definition slots_url (cfg : config) (customerId : val) (dateStr : string) (r : obj)
  : string :=
  API_BASE cfg ++ slots_path customerId dateStr (get r "ID").

(** An answer that is neither a list nor empty-handed ([null], [false],
    0, the empty text): there is no [map] to call on it. *)
Definition no_list (j : json) : bool :=
  match j with
  | JPrim v => truthy v
  | JArr _ => false
  | JObj _ => true
  end.

(** What the repository holds while the slot requests [seen] of a load
    have settled, [h0] being the size of the heap before: every list is a
    run of locations allocated by this load and holds the copies of what
    one of the settled requests came to; lists under different keys share
    no location; and every settled request that came to a list has its
    entry. *)
Definition stored (cfg : config) (rev : revision) (customerId : val) (dateStr : string)
    (pending : list (obj * outcome json)) (h0 : nat) (seen : list nat) (st : state)
  : Prop :=
  (h0 <= length (heap st))%nat
  /\ (forall k arr, slotsMap st !! k = Some arr ->
        exists b i r o items,
          arr = seq b (length arr) /\ (h0 <= b)%nat
          /\ (b + length arr <= length (heap st))%nat
          /\ In i seen /\ pending !! i = Some (r, o)
          /\ k = to_string (get r "ID")
          /\ slot_items (settled_data cfg customerId dateStr (get r "ID") o) = Some items
          /\ map (deref st) arr = map (copy_slot rev r) items)
  /\ (forall k1 k2 a1 a2 l,
        k1 <> k2 -> slotsMap st !! k1 = Some a1 -> slotsMap st !! k2 = Some a2 ->
        In l a1 -> In l a2 -> False)
  /\ (forall i r o items,
        In i seen -> pending !! i = Some (r, o) ->
        slot_items (settled_data cfg customerId dateStr (get r "ID") o) = Some items ->
        is_Some (slotsMap st !! to_string (get r "ID"))).

(** What the double-booked server answers to the one slot request. *)
Definition double_pending : list (obj * outcome json) :=
  [(normalize_resource room,
    Ok (JArr [owned_slot 10 "2025-11-03T09:00:00" "2025-11-03T09:30:00";
              owned_slot 11 "2025-11-03T10:00:00" "2025-11-03T10:30:00"]))].

(** A server that answers every read with an error object. *)
Definition complaining : runtime := {|
  fetch_get := fun _ =>
    NetResponse 200 "" (Some (JObj (object [("result", VStr "failed");
                                            ("msg_en", VStr "Invalid Data")])));
  fetch_post := fetch_post offline;
  Date_now := Date_now offline;
  new_Date_now := new_Date_now offline;
  Date_of := Date_of offline
|}.

(** The grid of a drawing (none when nothing was drawn). *)
Definition grid_of (d : option drawn) : grid :=
  match d with
  | Some (DrawGrid g _) => g
  | _ => []
  end.

(** One resource with two slots at 09:00. *)
Definition crowded : state := {|
  MODE := "live";
  resources := JArr [conference];
  slotsMap := {[ "1" := [0; 1]%nat ]};
  registeredSlot := None;
  modalContext := None;
  heap := [ mock_slot 7909 "2025-11-03T09:00:00" "2025-11-03T09:30:00" 1;
            mock_slot 7910 "2025-11-03T09:00:00" "2025-11-03T09:45:00" 1 ];
  datePicker := "2025-11-03"; customerInput := "1"; log := []
|}.

(** The page after the complaining server has answered a reload: the
    error object is what [resources] holds. *)
Definition stranded : state :=
  default registered
    (loadAndRender CONFIG WithUpdate complaining "2025-11-03" (VNum 1) [] registered).

(** The register dialog on the 09:00 slot of resource 2. *)
Definition second_ctx : modal_ctx :=
  {| old := None; slot := 2%nat; resource := board_room; customerId := VNum 1 |}.

(** * Properties *)

(** ** Calendar arithmetic *)

Lemma DayFromYear_step y : DayFromYear (y + 1) = DayFromYear y + DaysInYear y.
Proof.
  unfold DayFromYear, DaysInYear, InLeapYear.
  destruct (y mod 4 =? 0) eqn:E4; destruct (y mod 100 =? 0) eqn:E100;
    destruct (y mod 400 =? 0) eqn:E400; simpl;
    rewrite ?Z.eqb_eq, ?Z.eqb_neq in *;
    Z.div_mod_to_equations; lia.
Qed.

Lemma YearFromDay_spec y d :
  DayFromYear y <= d < DayFromYear (y + 1) -> YearFromDay d = y.
Proof.
  unfold YearFromDay, DayFromYear. intros H.
  repeat match goal with |- context [?a <=? ?b] => destruct (Z.leb_spec a b) end;
    Z.div_mod_to_equations; lia.
Qed.

Lemma valid_civil_range y m d :
  valid_civil y m d = true ->
  1 <= m <= 12 /\ 1 <= d <= days_in_month y m.
Proof. unfold valid_civil. rewrite !andb_true_iff, !Z.leb_le. lia. Qed.

Lemma month_cases m : 1 <= m <= 12 ->
  m = 1 \/ m = 2 \/ m = 3 \/ m = 4 \/ m = 5 \/ m = 6 \/
  m = 7 \/ m = 8 \/ m = 9 \/ m = 10 \/ m = 11 \/ m = 12.
Proof. lia. Qed.

(** The day number of a valid civil date lies inside its year. *)
Lemma MakeDay_in_year y m d :
  valid_civil y m d = true ->
  MakeDay y (m - 1) d = DayFromYear y + month_start (InLeapYear y) (m - 1) + d - 1
  /\ DayFromYear y <= MakeDay y (m - 1) d < DayFromYear (y + 1).
Proof.
  intros Hv. apply valid_civil_range in Hv as [Hm Hd].
  assert (E : MakeDay y (m - 1) d
              = DayFromYear y + month_start (InLeapYear y) (m - 1) + d - 1).
  { unfold MakeDay. replace ((m - 1) / 12) with 0 by (Z.div_mod_to_equations; lia).
    replace ((m - 1) mod 12) with (m - 1) by (Z.div_mod_to_equations; lia).
    by rewrite Z.add_0_r. }
  split; [exact E|]. rewrite E, DayFromYear_step. unfold DaysInYear.
  destruct (month_cases m Hm) as [->|[->|[->|[->|[->|[->|[->|[->|[->|[->|[->| ->]]]]]]]]]]];
    revert Hd; unfold days_in_month, month_start; destruct (InLeapYear y); simpl; lia.
Qed.

(** Reading the fields back from the day number of a valid civil date. *)
Lemma civil_of_MakeDay y m d :
  valid_civil y m d = true ->
  YearFromDay (MakeDay y (m - 1) d) = y
  /\ MonthFromDay (MakeDay y (m - 1) d) = m - 1
  /\ DateFromDay (MakeDay y (m - 1) d) = d.
Proof.
  intros Hv. destruct (MakeDay_in_year y m d Hv) as [E Hin].
  pose proof (YearFromDay_spec _ _ Hin) as Hy.
  apply valid_civil_range in Hv as [Hm Hd].
  assert (Hmo : MonthFromDay (MakeDay y (m - 1) d) = m - 1).
  { unfold MonthFromDay. rewrite Hy, E.
    destruct (month_cases m Hm) as [->|[->|[->|[->|[->|[->|[->|[->|[->|[->|[->| ->]]]]]]]]]]];
      revert Hd; unfold days_in_month, month_start; destruct (InLeapYear y); simpl; intros Hd;
      repeat match goal with
             | |- context [?a <? ?b] => destruct (Z.ltb_spec a b); try lia
             end. }
  split; [exact Hy|]. split; [exact Hmo|].
  unfold DateFromDay. rewrite Hy, Hmo, E. lia.
Qed.

Lemma civil_day_bounds y m d :
  0 <= y <= 9999 -> 0 <= m <= 99 -> 0 <= d <= 99 ->
  -800000 <= civil_day y m d <= 3000000.
Proof.
  intros Hy Hm Hd. unfold civil_day, MakeDay.
  set (yr := if (0 <=? y) && (y <=? 99) then 1900 + y else y).
  assert (Hyr : 100 <= yr <= 9999).
  { unfold yr. destruct (Z.leb_spec 0 y), (Z.leb_spec y 99); cbn; lia. }
  set (ym := yr + (m - 1) / 12).
  assert (Hym : 99 <= ym <= 10007) by (unfold ym; Z.div_mod_to_equations; lia).
  assert (Hms : 0 <= month_start (InLeapYear ym) ((m - 1) mod 12) <= 335).
  { unfold month_start. destruct (InLeapYear ym);
      repeat match goal with
             | |- context [if ?b then _ else _] => destruct b
             end; lia. }
  assert (Hdy : -700000 <= DayFromYear ym <= 2940000)
    by (unfold DayFromYear; Z.div_mod_to_equations; lia).
  lia.
Qed.


(** ** The row generator *)

Lemma lookup_map {A B} (f : A -> B) (l : list A) (i : nat) :
  map f l !! i = f <$> (l !! i).
Proof.
  revert i. induction l as [|x l IH]; intros [|i]; simpl; try done.
Qed.

Lemma map_seq_shift {A} (f : nat -> A) a n :
  map f (seq a n) = map (fun k => f (a + k)%nat) (seq 0 n).
Proof.
  revert a. induction n as [|n IH]; intros a; simpl; [done|].
  f_equal; [f_equal; lia|].
  rewrite (IH (S a)), <- seq_shift, map_map.
  apply map_ext. intros k. f_equal. lia.
Qed.

Section Rows.

Variable cfg : config.

Local Abbreviation step := (SLOT_DURATION_MIN cfg).

Lemma progression_app s t a b :
  progression s t (a + b) = (progression s t a ++ progression s (t + s * Z.of_nat a) b)%list.
Proof.
  unfold progression. rewrite seq_app, map_app. f_equal. simpl.
  rewrite map_seq_shift. apply map_ext. intros k. f_equal. lia.
Qed.

Lemma minute_loop_run y m d h n :
  0 < step ->
  forall fuel mins rows,
    (n < fuel)%nat ->
    60 <= mins + step * Z.of_nat n ->
    (n = 0%nat \/ mins + step * (Z.of_nat n - 1) < 60) ->
    minute_loop cfg fuel y m d h mins rows
    = Some (rows ++ map (fun k => row_date y m d h (mins + step * Z.of_nat k)) (seq 0 n))%list.
Proof.
  intros Hs. induction n as [|n IH]; intros fuel mins rows Hf Hge Hlt.
  - destruct fuel; [lia|]. cbn [minute_loop].
    destruct (Z.ltb_spec mins 60); [lia|]. by rewrite app_nil_r.
  - destruct fuel; [lia|]. cbn [minute_loop].
    destruct Hlt as [|Hlt]; [lia|].
    destruct (Z.ltb_spec mins 60); [|nia].
    rewrite IH; [|lia|lia|lia].
    rewrite <- app_assoc. apply (f_equal Some), (f_equal (app rows)).
    cbn [seq map app]. rewrite <- seq_shift, map_map.
    apply f_equal2.
    + apply (f_equal (row_date y m d h)). lia.
    + apply map_ext. intros k. apply (f_equal (row_date y m d h)). lia.
Qed.

(** The row at [h]:[mins] is the first millisecond of the day plus the
    time of day. *)
Lemma row_date_value y m d h mins :
  0 <= y <= 9999 -> 0 <= m <= 99 -> 0 <= d <= 99 ->
  0 <= h <= 23 -> 0 <= mins < 60 ->
  row_date (VNum y) (VNum m) (VNum d) h mins
  = Some (civil_day y m d * msPerDay + h * msPerHour + mins * msPerMinute).
Proof.
  intros Hy Hmo Hd Hh Hm. unfold row_date, new_Date, sub1, num. cbn [to_number].
  fold (civil_day y m d). unfold MakeDate, MakeTime, TimeClip.
  pose proof (civil_day_bounds y m d Hy Hmo Hd).
  unfold msPerDay, msPerHour, msPerMinute, msPerSecond in *.
  destruct (Z.leb_spec (Z.abs (civil_day y m d * 86400000
                               + (h * 3600000 + mins * 60000 + 0 * 1000 + 0)))
                       8640000000000000); [f_equal; lia|lia].
Qed.

Lemma hour_loop_run y m d c :
  0 <= y <= 9999 -> 0 <= m <= 99 -> 0 <= d <= 99 ->
  0 < step -> (step | 60) ->
  forall fuel h rows,
    (c < fuel)%nat ->
    0 <= h -> h + Z.of_nat c = SLOT_MAX_TIME cfg + 1 -> SLOT_MAX_TIME cfg <= 23 ->
    hour_loop cfg fuel (VNum y) (VNum m) (VNum d) h rows
    = Some (rows ++ progression (step * msPerMinute)
                      (civil_day y m d * msPerDay + h * msPerHour)
                      (Z.to_nat (60 / step) * c))%list.
Proof.
  intros Hy Hmo Hd Hs [q Hq].
  assert (Hdiv : 60 / step = q) by (rewrite Hq; apply Z.div_mul; lia).
  assert (Hq0 : 0 < q <= 60) by nia.
  induction c as [|c IH]; intros fuel h rows Hf Hh Hc Hmax.
  - destruct fuel; [lia|]. cbn [hour_loop].
    destruct (Z.leb_spec h (SLOT_MAX_TIME cfg)); [lia|].
    rewrite Nat.mul_0_r. unfold progression. cbn. by rewrite app_nil_r.
  - destruct fuel; [lia|]. cbn [hour_loop].
    destruct (Z.leb_spec h (SLOT_MAX_TIME cfg)); [|lia].
    rewrite (minute_loop_run _ _ _ _ (Z.to_nat q)); [|lia|lia|nia|right; nia].
    rewrite IH; [|lia|lia|lia|lia].
    rewrite <- app_assoc. apply (f_equal Some), (f_equal (app rows)).
    rewrite Hdiv, Nat.mul_succ_r, Nat.add_comm, progression_app.
    apply f_equal2.
    + unfold progression. apply map_ext_in. intros k Hk%in_seq.
      rewrite Z.add_0_l, row_date_value; [|done|done|done|lia|nia].
      f_equal. unfold msPerMinute. lia.
    + f_equal. unfold msPerHour, msPerMinute. nia.
Qed.

Lemma generateRowTimes_progression dateStr y m d :
  map parseInt (split "-" dateStr) = [VNum y; VNum m; VNum d] ->
  0 <= y <= 9999 -> 0 <= m <= 99 -> 0 <= d <= 99 ->
  0 <= SLOT_MIN_TIME cfg <= SLOT_MAX_TIME cfg -> SLOT_MAX_TIME cfg <= 23 ->
  0 < step -> (step | 60) ->
  generateRowTimes cfg dateStr
  = Some (progression (step * msPerMinute)
            (civil_day y m d * msPerDay + SLOT_MIN_TIME cfg * msPerHour)
            (Z.to_nat (60 / step)
             * Z.to_nat (SLOT_MAX_TIME cfg - SLOT_MIN_TIME cfg + 1))).
Proof.
  intros Hp Hy Hmo Hda Hmin Hmax Hs Hd. unfold generateRowTimes. rewrite Hp. cbn [nth].
  rewrite (hour_loop_run y m d (Z.to_nat (SLOT_MAX_TIME cfg - SLOT_MIN_TIME cfg + 1)));
    [done|done|done|done|done|done|lia|lia|lia|done].
Qed.




Lemma progression_elem s t n dt :
  In dt (progression s t n) -> exists k, (k < n)%nat /\ dt = Some (t + s * Z.of_nat k).
Proof.
  unfold progression. intros [k [<- Hk%in_seq]]%in_map_iff. exists k. split; [lia|done].
Qed.

End Rows.

(** The fields of a time value [r] milliseconds into day number [D]. *)
Lemma fields_within_day D r :
  0 <= r < msPerDay ->
  Day (D * msPerDay + r) = D
  /\ ((D * msPerDay + r) / msPerHour) mod 24 = r / msPerHour
  /\ ((D * msPerDay + r) / msPerMinute) mod 60 = (r / msPerMinute) mod 60.
Proof.
  unfold Day, msPerDay, msPerHour, msPerMinute. intros Hr.
  repeat split; Z.div_mod_to_equations; lia.
Qed.


(** ** The generator returns, and so does the renderer *)

Lemma minute_loop_returns cfg y m d h rows :
  0 < SLOT_DURATION_MIN cfg ->
  is_Some (minute_loop cfg 61 y m d h 0 rows).
Proof.
  intros Hs.
  set (q := (60 + SLOT_DURATION_MIN cfg - 1) / SLOT_DURATION_MIN cfg).
  assert (Hq : 1 <= q <= 60 /\ 60 <= SLOT_DURATION_MIN cfg * q
               /\ SLOT_DURATION_MIN cfg * (q - 1) < 60).
  { unfold q. pose proof (Z.div_mod (60 + SLOT_DURATION_MIN cfg - 1)
                            (SLOT_DURATION_MIN cfg) ltac:(lia)) as E.
    pose proof (Z.mod_pos_bound (60 + SLOT_DURATION_MIN cfg - 1)
                  (SLOT_DURATION_MIN cfg) Hs).
    split; [|nia]. split; [nia|].
    apply Z.div_le_upper_bound; nia. }
  rewrite (minute_loop_run cfg y m d h (Z.to_nat q)); [done|done|lia|lia|right; lia].
Qed.

Lemma hour_loop_returns cfg y m d :
  0 < SLOT_DURATION_MIN cfg ->
  forall c fuel h rows,
    (c < fuel)%nat -> SLOT_MAX_TIME cfg - h < Z.of_nat c ->
    is_Some (hour_loop cfg fuel y m d h rows).
Proof.
  intros Hs. induction c as [|c IH]; intros fuel h rows Hf Hc;
    (destruct fuel; [lia|]); cbn [hour_loop];
    destruct (Z.leb_spec h (SLOT_MAX_TIME cfg)); try done; try lia.
  destruct (minute_loop_returns cfg y m d h rows Hs) as [rows' ->].
  apply IH; lia.
Qed.

Lemma generateRowTimes_returns cfg dateStr :
  0 < SLOT_DURATION_MIN cfg -> is_Some (generateRowTimes cfg dateStr).
Proof.
  intros Hs. unfold generateRowTimes.
  apply (hour_loop_returns cfg _ _ _ Hs
           (Z.to_nat (SLOT_MAX_TIME cfg - SLOT_MIN_TIME cfg + 1))); lia.
Qed.

(** With resources on display, [renderGrid] draws a grid and changes
    nothing but the log. *)
Lemma renderGrid_draws cfg rev rt dateStr st r rs :
  0 < SLOT_DURATION_MIN cfg ->
  resources st = JArr (r :: rs) ->
  exists g,
    draw cfg rev rt dateStr st = Some (DrawGrid g (S (length rs)))
    /\ renderGrid cfg rev rt dateStr st
       = Some (Ok (), setStatus ("Grid loaded — " ++ pretty (Z.of_nat (S (length rs)))
                                 ++ " resources") false (emit (ERender g) st)).
Proof.
  intros Hs Hr. unfold renderGrid, draw. rewrite Hr.
  destruct (generateRowTimes_returns cfg dateStr Hs) as [rows ->].
  cbn [mbind option_bind]. eexists. split; reflexivity.
Qed.

(** Whatever [resources] holds, [renderGrid] returns when the step is
    positive, and touches nothing but the log. *)
Lemma renderGrid_returns cfg rev rt dateStr st :
  0 < SLOT_DURATION_MIN cfg ->
  exists r st', renderGrid cfg rev rt dateStr st = Some (r, st')
                /\ same_data st st' /\ MODE st' = MODE st
                /\ datePicker st' = datePicker st
                /\ customerInput st' = customerInput st.
Proof.
  intros Hs. unfold renderGrid, draw.
  destruct (resources st) as [v|[|r rs]|o].
  - cbn. destruct (truthy v); do 2 eexists; (split; [reflexivity|]); by repeat split.
  - cbn. do 2 eexists. split; [reflexivity|]. by repeat split.
  - destruct (generateRowTimes_returns cfg dateStr Hs) as [rows ->].
    cbn. do 2 eexists. split; [reflexivity|]. by repeat split.
  - cbn. destruct (strict_eq _ _); do 2 eexists; (split; [reflexivity|]); by repeat split.
Qed.

(** *** Reading a well-formed date string *)

Lemma digit_char c :
  is_digit c = true ->
  is_space c = false /\ Ascii.eqb c "-" = false
  /\ 0 <= digit_val c <= 9
  /\ forall r, read_sign (String c r) = (1, String c r).
Proof.
  destruct c as [[] [] [] [] [] [] [] []]; vm_compute; try discriminate;
    intros _; repeat split; try discriminate; reflexivity.
Qed.

Lemma parseInt_digits2 a b :
  is_digit a = true -> is_digit b = true ->
  parseInt (String a (String b "")) = VNum (10 * digit_val a + digit_val b).
Proof.
  intros Ha Hb. destruct (digit_char a Ha) as (Sa & _ & _ & Ra).
  unfold parseInt. cbn [skip_spaces]. rewrite Sa, Ra.
  cbn [read_digits]. rewrite Ha, Hb. f_equal. lia.
Qed.

Lemma parseInt_digits4 a b c d :
  is_digit a = true -> is_digit b = true -> is_digit c = true -> is_digit d = true ->
  parseInt (String a (String b (String c (String d ""))))
  = VNum (1000 * digit_val a + 100 * digit_val b + 10 * digit_val c + digit_val d).
Proof.
  intros Ha Hb Hc Hd. destruct (digit_char a Ha) as (Sa & _ & _ & Ra).
  unfold parseInt. cbn [skip_spaces]. rewrite Sa, Ra.
  cbn [read_digits]. rewrite Ha, Hb, Hc, Hd. f_equal. lia.
Qed.




Example generateRowTimes_fixture_date :
  option_map (fun rows => (length rows,
                           map (fun dt => (getFullYear dt, getMonth dt, getDate dt,
                                           getHours dt, getMinutes dt)) (take 3 rows)))
    (generateRowTimes CONFIG "2025-11-03")
  = Some (20%nat, [(VNum 2025, VNum 10, VNum 3, VNum 8, VNum 0);
                   (VNum 2025, VNum 10, VNum 3, VNum 8, VNum 30);
                   (VNum 2025, VNum 10, VNum 3, VNum 9, VNum 0)]).
Proof. vm_compute. reflexivity. Qed.

(** ** The read wrapper *)

(** C8. Whatever the customer, date and resource: when the slot request
    fails in transport, comes back with a status outside 2xx or a body that
    does not parse, or parses to a response whose [result] is ['failed'],
    [fetchSlotsForResource] hands back a list and does not throw; the list
    is the fixture stored under [customerId|date|resourceId], or the empty
    list when there is none; the mode is ['mock'] afterwards and has been
    written to local storage. *)
Theorem fetchSlotsForResource_falls_back
    (cfg : config) (rev : revision) (rt : runtime)
    (customerId : val) (dateStr : string) (resourceId : val) (st : state) :
  read_fails (fetch_get rt (API_BASE cfg ++ slots_path customerId dateStr resourceId)) ->
  exists st',
    fetchSlotsForResource cfg rev rt customerId dateStr resourceId st
    = (JArr (default [] (MOCK_slots cfg
               !! (to_string customerId ++ "|" ++ dateStr ++ "|" ++ to_string resourceId))),
       st')
    /\ MODE st' = "mock"
    /\ last (log st') = Some (EStore "mode" "mock")
    /\ same_data st st'.
Proof.
  intros Hf. unfold fetchSlotsForResource, apiGet.
  set (st1 := match rev with MainJs => st | WithUpdate => set_MODE "live" st end).
  assert (Hd : same_data st st1) by (unfold st1; destruct rev; repeat split).
  assert (Hfb : forall e s, same_data st s ->
            exists st',
              slots_settled cfg customerId dateStr resourceId (Throw e) s
              = (JArr (default [] (MOCK_slots cfg
                        !! (to_string customerId ++ "|" ++ dateStr ++ "|"
                            ++ to_string resourceId))), st')
              /\ MODE st' = "mock"
              /\ last (log st') = Some (EStore "mode" "mock")
              /\ same_data st st').
  { intros e s Hs. eexists. split; [reflexivity|]. split; [reflexivity|].
    split; [cbn; by rewrite last_snoc|exact Hs]. }
  destruct (String.eqb (MODE st1) "mock"); [by apply Hfb|].
  destruct (fetch_get rt _) as [|status txt parsed]; [by apply Hfb|].
  destruct (response_ok status) eqn:Hok; cbn [negb]; [|by apply Hfb].
  destruct Hf as [Hf|Hf]; [congruence|].
  destruct parsed as [data|]; [|by apply Hfb].
  destruct (Hfb (Error (to_string (or_else (json_get data "msg_en") (VStr "Invalid Data"))))
                (emit (EFetch "GET" (API_BASE cfg ++ slots_path customerId dateStr resourceId)
                             None) st1) Hd) as (st' & Hst' & Hrest).
  exists st'. split; [|exact Hrest]. rewrite <- Hst'.
  unfold slots_settled, settled_data, checked. rewrite Hf.
  destruct data as [v|items|o]; try discriminate Hf.
  cbn [json_truthy andb strict_eq]. by rewrite bool_decide_eq_true_2.
Qed.

(** The server is unreachable and the fixture of resource 1 comes back. *)
Lemma fetchSlotsForResource_falls_back_witness :
  exists st',
    fetchSlotsForResource CONFIG MainJs
      {| fetch_get := fun _ => NetError; fetch_post := fun _ _ => NetError;
         Date_now := 0; new_Date_now := None; Date_of := fun _ => None |}
      (VNum 1) "2025-11-03" (VStr "1")
      {| MODE := "live"; resources := JArr []; slotsMap := ∅;
         registeredSlot := None; modalContext := None; heap := [];
         datePicker := ""; customerInput := ""; log := [] |}
    = (JArr (default [] (MOCK_slots CONFIG
               !! (to_string (VNum 1) ++ "|" ++ "2025-11-03" ++ "|" ++ to_string (VStr "1")))),
       st')
    /\ MODE st' = "mock"
    /\ last (log st') = Some (EStore "mode" "mock")
    /\ same_data
         {| MODE := "live"; resources := JArr []; slotsMap := ∅;
            registeredSlot := None; modalContext := None; heap := [];
            datePicker := ""; customerInput := ""; log := [] |} st'.
Proof.
  apply (fetchSlotsForResource_falls_back CONFIG MainJs
           {| fetch_get := fun _ => NetError; fetch_post := fun _ _ => NetError;
              Date_now := 0; new_Date_now := None; Date_of := fun _ => None |}).
  simpl. exact I.
Defined.

(** ** The write wrapper *)

(** C7. Called with an id that is null, empty or otherwise falsy,
    [updateAppointmentAPI] throws 'Missing Appointment_Id' and leaves the
    state, and so the request log, as it was.  Called with any other id it
    sends exactly one POST to the update endpoint, whatever the mode flag
    says; it throws when the request fails in transport or the status is
    outside 2xx, and whatever it returns is the body the server sent. *)
Theorem updateAppointmentAPI_real_call
    (cfg : config) (rt : runtime) (appointmentId statusValue notesValue : val)
    (st : state) :
  let url := API_BASE cfg ++ UPDATE_ENDPOINT cfg in
  let r := updateAppointmentAPI cfg rt appointmentId statusValue notesValue st in
  (truthy appointmentId = false ->
     r = (Throw (Error "Missing Appointment_Id"), st))
  /\ (truthy appointmentId = true ->
      exists body,
        body = update_request appointmentId statusValue notesValue
        /\ log (snd r) = (log st ++ [EFetch "POST" url (Some body)])%list
        /\ get body "Appointment_Id" = VStr (to_string appointmentId)
        /\ (fetch_post rt url body = NetError -> exists e, fst r = Throw e)
        /\ (forall status txt parsed,
              fetch_post rt url body = NetResponse status txt parsed ->
              response_ok status = false -> exists e, fst r = Throw e)
        /\ (forall j, fst r = Ok j ->
              exists status txt,
                fetch_post rt url body = NetResponse status txt (Some j)
                /\ response_ok status = true)).
Proof.
  cbv zeta. unfold updateAppointmentAPI. split; intros Hid; rewrite Hid; cbn [negb].
  - reflexivity.
  - eexists. unfold apiPostJson. cbn [MODE set_MODE].
    change (String.eqb "live" "mock") with false. cbv iota.
    split; [reflexivity|]. split.
    { destruct (fetch_post rt _ _) as [|status txt parsed]; [reflexivity|].
      destruct (response_ok status); [destruct parsed|]; reflexivity. }
    split; [reflexivity|].
    split; [intros ->; by eexists|].
    split.
    + intros status txt parsed -> ->. by eexists.
    + intros j. destruct (fetch_post rt _ _) as [|status txt parsed]; [done|].
      destruct (response_ok status) eqn:Hok; [|done].
      destruct parsed as [j'|]; [|done].
      cbn. intros [= ->]. by exists status, txt.
Qed.

(** A missing id is refused locally; id 7909 goes to a server that is down. *)
Lemma updateAppointmentAPI_real_call_witness :
  let rt := {| fetch_get := fun _ => NetError; fetch_post := fun _ _ => NetError;
               Date_now := 0; new_Date_now := None; Date_of := fun _ => None |} in
  let st := {| MODE := "mock"; resources := JArr []; slotsMap := ∅;
               registeredSlot := None; modalContext := None; heap := [];
               datePicker := ""; customerInput := ""; log := [] |} in
  updateAppointmentAPI CONFIG rt VNull (VStr "2") (VStr "ok") st
  = (Throw (Error "Missing Appointment_Id"), st)
  /\ exists body,
       log (snd (updateAppointmentAPI CONFIG rt (VNum 7909) (VStr "2") (VStr "ok") st))
       = [EFetch "POST" (API_BASE CONFIG ++ UPDATE_ENDPOINT CONFIG) (Some body)]
       /\ exists e,
            fst (updateAppointmentAPI CONFIG rt (VNum 7909) (VStr "2") (VStr "ok") st)
            = Throw e.
Proof.
  cbv zeta. split.
  - apply (updateAppointmentAPI_real_call CONFIG _ VNull (VStr "2") (VStr "ok")).
    reflexivity.
  - destruct (proj2 (updateAppointmentAPI_real_call CONFIG
                {| fetch_get := fun _ => NetError; fetch_post := fun _ _ => NetError;
                   Date_now := 0; new_Date_now := None; Date_of := fun _ => None |}
                (VNum 7909) (VStr "2") (VStr "ok")
                {| MODE := "mock"; resources := JArr []; slotsMap := ∅;
                   registeredSlot := None; modalContext := None; heap := [];
                   datePicker := ""; customerInput := ""; log := [] |}) eq_refl)
      as (body & _ & Hlog & _ & Herr & _).
    exists body. split; [exact Hlog|]. apply Herr. reflexivity.
Defined.

(** ** Click and classification *)



(** Where the tracker carries an id, the click and the renderer agree on
    what "mine" means. *)
Lemma tracker_matches_holds st id :
  (forall r, registeredSlot st = Some r -> truthy (Appoitment_Id r) = true) ->
  tracker_matches st id <-> tracker_holds st id.
Proof.
  intros Hid. split.
  - intros (r & Hr & _ & He). by exists r.
  - intros (r & Hr & He). exists r. by rewrite (Hid r Hr).
Qed.

(** With a customer id other than 0, the server names the customer as the
    owner exactly when [Number(Register_Id)] is the customer id. *)
Lemma serverRegistered_number o c :
  c <> 0 ->
  serverRegistered o (VNum c) = true <-> to_number (get o "Register_Id") = VNum c.
Proof.
  (* every falsy value has [Number] 0 or NaN *)
  intros Hc. unfold serverRegistered. rewrite andb_true_iff. split.
  - intros [_ H]. unfold strict_eq in H.
    destruct (to_number (get o "Register_Id")); try done;
      by apply bool_decide_eq_true in H.
  - intros H. split; [|rewrite H; by apply bool_decide_eq_true].
    revert H. destruct (get o "Register_Id") as [| |[]|n| |s]; simpl; intros H;
      try congruence.
    + apply negb_true_iff, Z.eqb_neq. by injection H as ->.
    + destruct s; [|done]. cbn in H. by injection H as <-.
Qed.


Lemma strict_eq_num v n : strict_eq v (VNum n) = true <-> v = VNum n.
Proof.
  unfold strict_eq. destruct v; rewrite ?bool_decide_eq_true; try done.
Qed.



(** ** The editable view *)

(** Closes a goal [exists st' notice, handler = Some st' /\ ...] whose
    handler has been reduced to [Some] of a chain of setters ending in the
    alert [notice]; what is left, if anything, is the last conjunct. *)
Ltac exists_notice n :=
  eexists _, n; split; [reflexivity|];
  repeat (split; [first [reflexivity | cbn; by rewrite last_snoc]|]);
  try reflexivity.

(** C1. When the view's submit has an appointment id to send and the write
    does not go through (transport failure, status outside 2xx, unparsable
    body, or a response that does not say success), the handler returns
    with [slotsMap], [registeredSlot] and every slot object, the displayed
    one included, exactly as before, and its last act is an alert carrying
    the failure notice: the server's [msg_en] when it sent one, a generic
    text otherwise. *)
Theorem updateBtn_click_failure (cfg : config) (rev : revision) (rt : runtime)
    (slotObj : loc) (cb : option modal_ctx) (statusVal notesVal : string)
    (st : state) :
  let answer := fetch_post rt (API_BASE cfg ++ UPDATE_ENDPOINT cfg)
                  (update_request (prop st slotObj "Appoitment_Id")
                                  (VStr statusVal) (VStr notesVal)) in
  truthy (prop st slotObj "Appoitment_Id") = true ->
  write_fails answer ->
  exists st' notice,
    updateBtn_click cfg rev rt slotObj cb statusVal notesVal st = Some st'
    /\ slotsMap st' = slotsMap st
    /\ registeredSlot st' = registeredSlot st
    /\ heap st' = heap st
    /\ deref st' slotObj = deref st slotObj
    /\ last (log st') = Some (EAlert notice)
    /\ failure_notice answer notice.
Proof.
  cbv zeta. intros Hid Hfail.
  unfold updateBtn_click, updateAppointmentAPI, apiPostJson.
  rewrite Hid. cbn [negb MODE set_MODE setStatus emit].
  change (String.eqb "live" "mock") with false. cbv iota.
  revert Hfail. unfold write_fails, failure_notice.
  set (generic := "Failed to send update. See console for details (CORS/SSL issues possible).").
  destruct (fetch_post rt _ _) as [|status txt parsed].
  - intros _. exists_notice generic.
  - destruct (response_ok status) eqn:Hok; cbn [negb].
    + intros [?|Hfail]; [done|]. destruct parsed as [resp|].
      * rewrite Hfail.
        exists_notice ("Update failed: "
                       ++ (if truthy (json_get resp "msg_en")
                           then to_string (json_get resp "msg_en")
                           else "Unknown response from server")).
        split; by intros ->.
      * exists_notice generic.
    + intros _. exists_notice generic. by destruct parsed.
Qed.

(** ** Appointment details *)

Lemma find_in_memory_found st resourceId appId f :
  find_in_memory st resourceId appId = Some f ->
  exists arr, slotsMap st !! to_string resourceId = Some arr /\ In f arr
              /\ truthy appId = true
              /\ to_string (prop st f "Appoitment_Id") = to_string appId.
Proof.
  unfold find_in_memory. destruct (slotsMap st !! _) as [arr|]; [|done].
  intros [Hin Hp]%find_some. exists arr. split; [done|]. split; [done|].
  apply andb_true_iff in Hp as [[Ha _]%andb_true_iff He].
  split; [done|]. by apply String.eqb_eq.
Qed.




(** ** Loading *)

Lemma issue_all_data cfg rev rt customerId dateStr rs st :
  same_data st (snd (issue_all cfg rev rt customerId dateStr rs st)).
Proof.
  revert st. induction rs as [|r rs IH]; intros st; cbn [issue_all]; [done|].
  destruct (apiGet cfg rev rt _ st) as [o st1] eqn:Ha.
  assert (H1 : same_data st st1).
  { revert Ha. unfold apiGet. destruct rev; cbn [MODE set_MODE];
      repeat match goal with
             | |- context [if ?b then _ else _] => destruct b
             | |- context [match ?x with _ => _ end] => destruct x
             end; intros [= <- <-]; by repeat split. }
  specialize (IH st1). destruct (issue_all cfg rev rt customerId dateStr rs st1) as [os st2].
  cbn [snd] in *. destruct H1 as (? & ? & ? & ? & ?), IH as (? & ? & ? & ? & ?).
  repeat split; congruence.
Qed.




(** With the flag off, settling the requests leaves the tracker alone. *)
Lemma settle_all_tracker_off cfg rev customerId dateStr pending order :
  RESPECT_SERVER_REGISTERED cfg = false ->
  forall failed st,
    registeredSlot (snd (settle_all cfg rev customerId dateStr pending order failed st))
    = registeredSlot st.
Proof.
  intros Hflag. induction order as [|i order IH]; intros failed st; [done|].
  cbn [settle_all]. destruct (pending !! i) as [[r o]|]; [|by rewrite IH].
  unfold slots_settled, store_slots.
  set (st1 := match checked o with Ok _ => st | Throw e => fall_back_to_mock e st end).
  assert (H1 : registeredSlot st1 = registeredSlot st) by (unfold st1; by destruct (checked o)).
  destruct (slot_items _) as [items|]; rewrite ?Hflag, IH; done.
Qed.

Lemma settle_all_resources cfg rev customerId dateStr pending order :
  forall failed st,
    resources (snd (settle_all cfg rev customerId dateStr pending order failed st))
    = resources st.
Proof.
  induction order as [|i order IH]; intros failed st; [done|].
  cbn [settle_all]. destruct (pending !! i) as [[r o]|]; [|by rewrite IH].
  unfold slots_settled, store_slots.
  set (st1 := match checked o with Ok _ => st | Throw e => fall_back_to_mock e st end).
  assert (H1 : resources st1 = resources st) by (unfold st1; by destruct (checked o)).
  destruct (slot_items _) as [items|]; rewrite IH; [|done].
  by destruct (RESPECT_SERVER_REGISTERED cfg).
Qed.





(** ** Register, render, reload *)

Lemma prop_set_prop st l k v l' k' :
  prop (set_prop l k v st) l' k'
  = if decide (l = l' /\ k = k' /\ is_Some (heap st !! l)) then v else prop st l' k'.
Proof.
  unfold prop, set_prop, deref, get. cbn [heap set_heap].
  destruct (decide (l = l')) as [<-|Hl].
  - rewrite list_lookup_alter_eq. destruct (heap st !! l) as [o|] eqn:Ho; cbn.
    + destruct (decide (k = k')) as [<-|Hk].
      * rewrite decide_True by (split; [done|split; [done|by eexists]]).
        by rewrite lookup_insert_eq.
      * rewrite decide_False by (by intros (_ & ? & _)). by rewrite lookup_insert_ne.
    + rewrite decide_False; [done|]. intros (_ & _ & [? ?]). done.
  - rewrite list_lookup_alter_ne by done. rewrite decide_False by (by intros (? & _)). done.
Qed.

Lemma prop_delete_prop st l k l' k' :
  prop (delete_prop l k st) l' k'
  = if decide (l = l' /\ k = k' /\ is_Some (heap st !! l)) then VUndef else prop st l' k'.
Proof.
  unfold prop, delete_prop, deref, get. cbn [heap set_heap].
  destruct (decide (l = l')) as [<-|Hl].
  - rewrite list_lookup_alter_eq. destruct (heap st !! l) as [o|] eqn:Ho; cbn.
    + destruct (decide (k = k')) as [<-|Hk].
      * rewrite decide_True by (split; [done|split; [done|by eexists]]).
        by rewrite lookup_delete_eq.
      * rewrite decide_False by (by intros (_ & ? & _)). by rewrite lookup_delete_ne.
    + rewrite decide_False; [done|]. intros (_ & _ & [? ?]). done.
  - rewrite list_lookup_alter_ne by done. rewrite decide_False by (by intros (? & _)). done.
Qed.



Lemma begin_load_resources cfg rev rt customerId st res st1 :
  begin_load cfg rev rt customerId st = (res, st1) ->
  match res with
  | Ok rs => resources st1 = JArr rs
  | Throw _ => forall l, resources st1 <> JArr l
  end.
Proof.
  unfold begin_load. destruct (fetchResources _ _ _ _ _) as [data st0].
  destruct data as [v|items|o]; [destruct (truthy v)| |]; intros [= <- <-]; done.
Qed.



Lemma set_prop_allocated l k v st l' :
  is_Some (heap st !! l') -> is_Some (heap (set_prop l k v st) !! l').
Proof.
  unfold set_prop. cbn [heap set_heap]. intros [o Ho].
  destruct (decide (l = l')) as [->|Hne].
  - rewrite list_lookup_alter_eq, Ho. by eexists.
  - rewrite list_lookup_alter_ne, Ho by done. by eexists.
Qed.


(** ** A successful submit *)

Lemma frame_refl ks st : frame ks st st.
Proof. by repeat split. Qed.

Lemma frame_trans ks st1 st2 st3 :
  frame ks st1 st2 -> frame ks st2 st3 -> frame ks st1 st3.
Proof.
  intros (Hm1 & Ha1 & Hp1) (Hm2 & Ha2 & Hp2). split; [congruence|]. split.
  - intros l. by rewrite Ha2, Ha1.
  - intros l k Hk. by rewrite Hp2, Hp1.
Qed.


Lemma frame_set_prop ks l k v st : In k ks -> frame ks st (set_prop l k v st).
Proof.
  intros Hk. split; [done|]. split.
  - intros l'. split.
    + unfold set_prop. cbn [heap set_heap]. destruct (decide (l = l')) as [->|Hne].
      * rewrite list_lookup_alter_eq. intros [o Ho].
        destruct (heap st !! l'); [by eexists|done].
      * by rewrite list_lookup_alter_ne.
    + apply set_prop_allocated.
  - intros l' k' Hk'. rewrite prop_set_prop, decide_False; [done|].
    intros (_ & <- & _). done.
Qed.

Lemma frame_delete_prop ks l k st : In k ks -> frame ks st (delete_prop l k st).
Proof.
  intros Hk. split; [done|]. split.
  - intros l'. unfold delete_prop. cbn [heap set_heap].
    destruct (decide (l = l')) as [->|Hne].
    + rewrite list_lookup_alter_eq. destruct (heap st !! l'); cbn; split; intros [? ?];
        by eexists.
    + by rewrite list_lookup_alter_ne.
  - intros l' k' Hk'. rewrite prop_delete_prop, decide_False; [done|].
    intros (_ & <- & _). done.
Qed.





Lemma strict_eq_sym a b : strict_eq a b = strict_eq b a.
Proof.
  unfold strict_eq. destruct a, b; try done;
    apply bool_decide_ext; split; congruence.
Qed.


(** What a grid shows depends on the data of the state, not on its log. *)
Lemma draw_same_data cfg rev rt dateStr st st' :
  same_data st st' -> customerInput st' = customerInput st ->
  draw cfg rev rt dateStr st' = draw cfg rev rt dateStr st.
Proof.
  destruct st, st'. unfold same_data. cbn. intros (-> & -> & -> & -> & ->) ->.
  reflexivity.
Qed.

Lemma unregister_previous_frame o st :
  frame ["Register_Id"] st (unregister_previous o st)
  /\ resources (unregister_previous o st) = resources st
  /\ log (unregister_previous o st) = log st
  /\ datePicker (unregister_previous o st) = datePicker st.
Proof.
  unfold unregister_previous. destruct o as [o|]; [|split; [apply frame_refl|done]].
  destruct (truthy (Appoitment_Id o)); [|split; [apply frame_refl|done]].
  destruct (find_prev st o) as [p|]; [|split; [apply frame_refl|done]].
  split; [apply frame_delete_prop; by left|done].
Qed.


Lemma onSlotClick_update_inv cfg rev slotObj res st ctx :
  onSlotClick cfg rev slotObj res st = openModal "update" ctx st ->
  exists o, registeredSlot st = Some o /\ old ctx = Some o
            /\ strict_eq (Appoitment_Id o) (prop st slotObj "Appoitment_Id") = false.
Proof.
  unfold onSlotClick. destruct (isRegistered_click cfg rev st (deref st slotObj)) eqn:Hreg.
  - intros H. apply (f_equal log) in H. cbn in H.
    apply app_inv_head in H. discriminate.
  - destruct (registeredSlot st) as [o|] eqn:Htr.
    + intros H. apply (f_equal modalContext) in H. cbn in H. injection H as <-.
      exists o. split; [done|]. split; [done|].
      unfold isRegistered_click in Hreg. rewrite Htr in Hreg.
      apply orb_false_iff in Hreg as [Hreg _]. exact Hreg.
    + intros H. apply (f_equal modalContext) in H. cbn in H. discriminate.
Qed.


(** ** Sample runs *)


Example loaded_repository :
  map_to_list (slotsMap loaded)
  = [("3", []); ("1", [0; 1]%nat); ("2", [2; 3]%nat); ("4", [])]
  /\ registeredSlot loaded = None /\ MODE loaded = "mock".
Proof. vm_compute. done. Qed.

(** Scenario B: clicking an available slot with an empty tracker opens the
    register modal; confirming stamps the slot and the next grid shows it as
    registered. *)
Example scenario_B :
  modalContext (onSlotClick CONFIG WithUpdate 0%nat conference loaded)
  = Some ("register", register_ctx)
  /\ registeredSlot registered = old move_ctx
  /\ prop registered 0%nat "Appoitment_Id" = VNum (Date_now offline)
  /\ slot_class CONFIG WithUpdate registered (deref registered 0%nat) = "slot registered"
  /\ slot_class CONFIG WithUpdate registered (deref registered 2%nat) = "slot available".
Proof. vm_compute. done. Qed.

(** Scenario D: the server answers [{ result: "failed", msg_en: "slot taken" }]. *)
Lemma updateBtn_click_failure_witness :
  exists st' notice,
    updateBtn_click CONFIG WithUpdate refusing 2%nat (Some move_ctx) "2" "confirmed"
                    registered = Some st'
    /\ slotsMap st' = slotsMap registered
    /\ registeredSlot st' = registeredSlot registered
    /\ heap st' = heap registered
    /\ deref st' 2%nat = deref registered 2%nat
    /\ last (log st') = Some (EAlert notice)
    /\ failure_notice
         (fetch_post refusing (API_BASE CONFIG ++ UPDATE_ENDPOINT CONFIG)
            (update_request (prop registered 2%nat "Appoitment_Id")
                            (VStr "2") (VStr "confirmed")))
         notice.
Proof.
  apply (updateBtn_click_failure CONFIG WithUpdate refusing 2%nat (Some move_ctx)
           "2" "confirmed" registered).
  - vm_compute. reflexivity.
  - right. vm_compute. reflexivity.
Defined.

Example scenario_D :
  option_map (fun st' => last (log st'))
    (updateBtn_click CONFIG WithUpdate refusing 2%nat (Some move_ctx) "2" "confirmed"
                     registered)
  = Some (Some (EAlert "Update failed: slot taken")).
Proof. vm_compute. reflexivity. Qed.


Example scenario_C_flow :
  onSlotClick CONFIG WithUpdate 2%nat board_room registered
  = openModal "update" move_ctx registered
  /\ registeredSlot registered = old move_ctx
  /\ find_prev registered
       {| Appoitment_Id := VNum (Date_now offline); Resource_Id := VStr "1";
          TimeFrom := VStr "2025-11-03T09:00:00";
          TimeTo := VStr "2025-11-03T09:30:00" |} = Some 0%nat.
Proof. vm_compute. done. Qed.

Example scenario_C :
  option_map (fun st' => (registeredSlot st',
                          prop st' 2%nat "Status", prop st' 2%nat "Notes",
                          prop st' 0%nat "Register_Id",
                          slot_class CONFIG WithUpdate st' (deref st' 0%nat),
                          slot_class CONFIG WithUpdate st' (deref st' 2%nat)))
    (updateBtn_click CONFIG WithUpdate accepting 2%nat (Some move_ctx) "2" "confirmed"
                     registered)
  = Some (Some {| Appoitment_Id := VNum 7920; Resource_Id := VStr "2";
                  TimeFrom := VStr "2025-11-03T09:00:00";
                  TimeTo := VStr "2025-11-03T09:30:00" |},
          VNum 2, VStr "confirmed", VUndef, "slot available", "slot registered").
Proof. vm_compute. reflexivity. Qed.



Example ownership_precedence :
  prop contested 0%nat "Register_Id" = VNum 99
  /\ custId CONFIG MainJs contested = VNum 1
  /\ match draw CONFIG MainJs offline "2025-11-03" contested with
     | Some (DrawGrid g _) =>
         map (fun row => map (option_map className) (snd row)) g
     | _ => []
     end
     = [[None]; [None]; [Some "slot registered"]; [None]; [None]; [None]; [None];
        [None]; [None]; [None]; [None]; [None]; [None]; [None]; [None]; [None];
        [None]; [None]; [None]; [None]].
Proof. vm_compute. done. Qed.


(** Scenario A and the round trip on the fixtures: the grid after the load
    has the two slots of resource 1 at 09:00 and 10:00; after the register
    the 09:00 cell is registered, and after another load it is available
    again. *)
Example round_trip :
  let column (st : state) :=
    match draw CONFIG WithUpdate offline "2025-11-03" st with
    | Some (DrawGrid g _) => map (fun row => option_map className (hd None (snd row))) g
    | _ => []
    end in
  let reloaded :=
    default registered
      (loadAndRender CONFIG WithUpdate offline "2025-11-03" (VNum 1)
                     [0; 1; 2; 3]%nat registered) in
  take 5 (column loaded)
  = [None; None; Some "slot available"; None; Some "slot available"]
  /\ take 5 (column registered)
     = [None; None; Some "slot registered"; None; Some "slot available"]
  /\ take 5 (column reloaded)
     = [None; None; Some "slot available"; None; Some "slot available"]
  /\ registeredSlot reloaded = None.
Proof. vm_compute. done. Qed.

(** ** The markup escape *)

Lemma append_cons a (x y : string) : String a x ++ y = String a (x ++ y).
Proof. reflexivity. Qed.

Lemma append_assoc (x y z : string) : (x ++ y) ++ z = x ++ (y ++ z).
Proof. induction x as [|a x IH]; [done|]. by rewrite !append_cons, IH. Qed.

Lemma replace_all_app c text a b :
  replace_all c text (a ++ b) = replace_all c text a ++ replace_all c text b.
Proof.
  induction a as [|x a IH]; [done|]. rewrite append_cons. cbn [replace_all].
  destruct (Ascii.eqb x c); rewrite IH; [|done].
  by rewrite append_assoc.
Qed.

Lemma occurs_app c a b : occurs c (a ++ b) = occurs c a || occurs c b.
Proof.
  induction a as [|x a IH]; [done|]. rewrite append_cons. cbn [occurs].
  by rewrite IH, orb_assoc.
Qed.

(** The three replacements, one after the other, come to one pass that
    writes each character on its own: the ampersands the first one puts in
    are not touched by the next two. *)
Lemma replace_all_each s :
  replace_all ">" "&gt;" (replace_all "<" "&lt;" (replace_all "&" "&amp;" s))
  = escape_each s.
Proof.
  induction s as [|a s IH]; [done|].
  cbn [replace_all escape_each]. unfold escaped.
  destruct (Ascii.eqb a "&") eqn:E1.
  { rewrite !replace_all_app, IH. reflexivity. }
  cbn [replace_all]. destruct (Ascii.eqb a "<") eqn:E2.
  { rewrite !replace_all_app, IH. reflexivity. }
  cbn [replace_all]. destruct (Ascii.eqb a ">") eqn:E3.
  { by rewrite IH. }
  by rewrite IH.
Qed.

Lemma escapeHtml_each s : escapeHtml (VStr s) = escape_each s.
Proof.
  unfold escapeHtml. destruct s as [|a s]; [reflexivity|].
  change (negb (truthy (VStr (String a s)))) with false. cbv iota beta.
  cbn [andb to_string]. apply replace_all_each.
Qed.

Lemma escaped_plain a : occurs "<" (escaped a) = false /\ occurs ">" (escaped a) = false.
Proof.
  unfold escaped.
  destruct (Ascii.eqb a "&") eqn:E1; [done|].
  destruct (Ascii.eqb a "<") eqn:E2; [done|].
  destruct (Ascii.eqb a ">") eqn:E3; [done|].
  cbn. by rewrite E2, E3.
Qed.

Lemma escape_each_plain s :
  occurs "<" (escape_each s) = false /\ occurs ">" (escape_each s) = false.
Proof.
  induction s as [|a s [IH1 IH2]]; [done|]. cbn [escape_each].
  rewrite !occurs_app, IH1, IH2. destruct (escaped_plain a) as [-> ->]. done.
Qed.

(** X1. Whatever it is given, [escapeHtml] returns a text in which neither
    [<] nor [>] occurs. *)
Theorem escapeHtml_no_markup (v : val) :
  occurs "<" (escapeHtml v) = false /\ occurs ">" (escapeHtml v) = false.
Proof.
  assert (H : forall s, escapeHtml v = escapeHtml (VStr s) ->
                        occurs "<" (escapeHtml v) = false
                        /\ occurs ">" (escapeHtml v) = false).
  { intros s ->. rewrite escapeHtml_each. apply escape_each_plain. }
  destruct v as [| |[]|n| |s].
  - by apply (H "").
  - by apply (H "").
  - apply (H "true"). reflexivity.
  - by apply (H "").
  - apply (H (pretty n)). unfold escapeHtml. cbn [truthy strict_eq to_string].
    destruct (Z.eqb_spec n 0) as [->|Hn]; [reflexivity|].
    cbn [negb andb].
    destruct (pretty n) eqn:E; [|reflexivity].
    reflexivity.
  - by apply (H "").
  - by apply (H s).
Qed.

(** X2. Two different texts never escape to the same markup, so what was
    typed can be read back from the escaped form. *)
Theorem escapeHtml_injective (a b : string) :
  escapeHtml (VStr a) = escapeHtml (VStr b) -> a = b.
Proof.
  rewrite !escapeHtml_each. revert b.
  assert (Hne : forall x r, escaped x ++ r <> "").
  { intros x r. unfold escaped.
    destruct (Ascii.eqb x "&"); [done|]. destruct (Ascii.eqb x "<"); [done|].
    destruct (Ascii.eqb x ">"); done. }
  induction a as [|x a IH]; intros [|y b]; cbn [escape_each].
  - done.
  - intros H. symmetry in H. by apply Hne in H.
  - intros H. by apply Hne in H.
  - unfold escaped.
    destruct (Ascii.eqb_spec x "&") as [->|X1];
      [|destruct (Ascii.eqb_spec x "<") as [->|X2];
        [|destruct (Ascii.eqb_spec x ">") as [->|X3]]];
      (destruct (Ascii.eqb_spec y "&") as [->|Y1];
       [|destruct (Ascii.eqb_spec y "<") as [->|Y2];
         [|destruct (Ascii.eqb_spec y ">") as [->|Y3]]]);
      cbn [String.append]; intros H; try discriminate H;
      try (injection H as H; f_equal; by apply IH);
      try (injection H as -> H; f_equal; by apply IH);
      try (injection H as E H; congruence).
Qed.

Lemma escapeHtml_injective_witness : "a<b & c" = "a<b & c".
Proof.
  apply (escapeHtml_injective "a<b & c" "a<b & c"). reflexivity.
Defined.

Example escapeHtml_samples :
  escapeHtml (VStr "a<b & c>d") = "a&lt;b &amp; c&gt;d"
  /\ escapeHtml (VStr "&lt;") = "&amp;lt;"
  /\ escapeHtml (VNum 0) = "0" /\ escapeHtml VNull = "" /\ escapeHtml VUndef = ""
  /\ escapeHtml (VBool false) = "".
Proof. vm_compute. repeat split. Qed.

(** ** From a day number back to the calendar *)

Lemma YearFromDay_range d :
  DayFromYear (YearFromDay d) <= d < DayFromYear (YearFromDay d + 1).
Proof.
  unfold YearFromDay.
  set (e := 1970 + 400 * d / 146097).
  assert (He : DayFromYear (e - 1) <= d < DayFromYear (e + 2)).
  { unfold e, DayFromYear. Z.div_mod_to_equations. lia. }
  destruct (Z.leb_spec (DayFromYear (e + 1)) d).
  - replace (e + 1 + 1) with (e + 2) by lia. lia.
  - destruct (Z.leb_spec (DayFromYear e) d); [lia|].
    replace (e - 1 + 1) with e by lia. lia.
Qed.

(** The fields read off a day number name a day of the calendar, and that
    day is the day number. *)
Lemma month_of_day (lp : bool) (w : Z) :
  0 <= w < (if lp then 366 else 365) ->
  exists m,
    (if w <? month_start lp 1 then 0
     else if w <? month_start lp 2 then 1
     else if w <? month_start lp 3 then 2
     else if w <? month_start lp 4 then 3
     else if w <? month_start lp 5 then 4
     else if w <? month_start lp 6 then 5
     else if w <? month_start lp 7 then 6
     else if w <? month_start lp 8 then 7
     else if w <? month_start lp 9 then 8
     else if w <? month_start lp 10 then 9
     else if w <? month_start lp 11 then 10
     else 11) = m
    /\ 0 <= m <= 11
    /\ 1 <= w - month_start lp m + 1
         <= (if m + 1 =? 2 then (if lp then 29 else 28)
             else if (m + 1 =? 4) || (m + 1 =? 6) || (m + 1 =? 9) || (m + 1 =? 11) then 30
             else 31).
Proof.
  intros Hw.
  destruct lp;
    repeat match goal with
           | |- context [month_start ?b ?k] =>
               is_ground k;
               let v := eval vm_compute in (month_start b k) in
               change (month_start b k) with v
           end;
    repeat match goal with
           | |- context [?a <? ?b] => destruct (Z.ltb_spec a b)
           end;
    eexists; (split; [reflexivity|]);
    repeat match goal with
           | |- context [month_start ?b ?k] =>
               let v := eval vm_compute in (month_start b k) in
               change (month_start b k) with v
           end;
    repeat match goal with
           | |- context [if ?c then ?x else ?y] =>
               let v := eval vm_compute in (if c then x else y) in
               change (if c then x else y) with v
           end;
    lia.
Qed.

Lemma fields_of_day D :
  0 <= MonthFromDay D <= 11
  /\ valid_civil (YearFromDay D) (MonthFromDay D + 1) (DateFromDay D) = true
  /\ MakeDay (YearFromDay D) (MonthFromDay D) (DateFromDay D) = D.
Proof.
  pose proof (YearFromDay_range D) as Hr. rewrite DayFromYear_step in Hr.
  unfold DateFromDay, MonthFromDay, valid_civil, days_in_month, MakeDay, DaysInYear in *.
  set (y := YearFromDay D) in *. set (w := D - DayFromYear y).
  assert (Hw : 0 <= w < (if InLeapYear y then 366 else 365)) by (unfold w; lia).
  destruct (month_of_day (InLeapYear y) w Hw) as (m & -> & Hm & Hd).
  split; [exact Hm|].
  replace (m / 12) with 0 by (Z.div_mod_to_equations; lia).
  replace (m mod 12) with m by (Z.div_mod_to_equations; lia).
  rewrite Z.add_0_r. split; [|unfold w; lia].
  rewrite !andb_true_iff, !Z.leb_le. lia.
Qed.

(** ** Where the rows of a grid lie *)

(** Every row is a whole number of steps into one of the grid's hours, on
    the day the date text names. *)
Lemma generateRowTimes_rows cfg dateStr y m d :
  map parseInt (split "-" dateStr) = [VNum y; VNum m; VNum d] ->
  0 <= y <= 9999 -> 0 <= m <= 99 -> 0 <= d <= 99 ->
  0 <= SLOT_MIN_TIME cfg <= SLOT_MAX_TIME cfg -> SLOT_MAX_TIME cfg <= 23 ->
  0 < SLOT_DURATION_MIN cfg -> (SLOT_DURATION_MIN cfg | 60) ->
  exists rows,
    generateRowTimes cfg dateStr = Some rows /\ rows <> []
    /\ Forall (fun dt => exists h mi,
                 SLOT_MIN_TIME cfg <= h <= SLOT_MAX_TIME cfg /\ 0 <= mi < 60
                 /\ (SLOT_DURATION_MIN cfg | mi)
                 /\ dt = Some (civil_day y m d * msPerDay
                               + (h * msPerHour + mi * msPerMinute))) rows.
Proof.
  intros Hp Hy Hmo Hda Hmin Hmax Hs Hd.
  rewrite (generateRowTimes_progression cfg dateStr y m d) by done.
  destruct Hd as [q Hq].
  assert (Hdiv : 60 / SLOT_DURATION_MIN cfg = q) by (rewrite Hq; apply Z.div_mul; lia).
  assert (Hq0 : 0 < q <= 60) by nia.
  rewrite Hdiv.
  set (step := SLOT_DURATION_MIN cfg) in *.
  set (lo := SLOT_MIN_TIME cfg) in *. set (hi := SLOT_MAX_TIME cfg) in *.
  set (D := civil_day y m d).
  set (n := (Z.to_nat q * Z.to_nat (hi - lo + 1))%nat).
  assert (Hn : Z.of_nat n = q * (hi - lo + 1)) by (unfold n; lia).
  assert (Hn1 : (0 < n)%nat) by nia.
  eexists. split; [reflexivity|]. split.
  { destruct n; [lia|]. unfold progression. cbn. discriminate. }
  apply List.Forall_forall. intros dt [k [Hk ->]]%progression_elem.
  assert (Hk1 : 0 <= step * Z.of_nat k <= 60 * (hi - lo + 1) - step).
  { assert (Z.of_nat k <= q * (hi - lo + 1) - 1) by lia. nia. }
  set (u := step * Z.of_nat k) in *.
  exists (lo + u / 60), (u mod 60).
  split; [clear - Hk1 Hmin Hs; Z.div_mod_to_equations; lia|].
  split; [clear; Z.div_mod_to_equations; lia|].
  split.
  { exists (Z.of_nat k mod q). unfold u. rewrite Hq.
    rewrite (Z.mul_comm q step), Z.mul_mod_distr_l by lia. lia. }
  f_equal. subst u. clearbody D lo step. clear.
  unfold msPerDay, msPerHour, msPerMinute.
  Z.div_mod_to_equations. lia.
Qed.

(** ** Writing a date and reading it back *)

Lemma pretty_pos (k : Z) : 0 < k -> pretty k = pretty_N_go (Z.to_N k) "".
Proof. destruct k as [|p|p]; try lia. intros _. reflexivity. Qed.

Lemma pretty_N_char_digit (x : N) :
  (x < 10)%N ->
  is_digit (pretty_N_char x) = true /\ digit_val (pretty_N_char x) = Z.of_N x.
Proof.
  intros Hx.
  assert (x = 0 \/ x = 1 \/ x = 2 \/ x = 3 \/ x = 4 \/ x = 5 \/ x = 6 \/ x = 7
          \/ x = 8 \/ x = 9)%N as H by lia.
  destruct H as [->|[->|[->|[->|[->|[->|[->|[->|[->| ->]]]]]]]]]; by vm_compute.
Qed.

Lemma pretty_N_char_of_digit c :
  is_digit c = true -> pretty_N_char (Z.to_N (digit_val c)) = c.
Proof.
  destruct c as [[] [] [] [] [] [] [] []]; vm_compute; try discriminate; reflexivity.
Qed.

Lemma pretty_1 (k : Z) :
  0 <= k <= 9 -> pretty k = String (pretty_N_char (Z.to_N k)) "".
Proof.
  intros Hk. destruct (Z.eq_dec k 0) as [->|Hn]; [reflexivity|].
  rewrite pretty_pos by lia.
  rewrite pretty_N_go_step by lia.
  replace (Z.to_N k `div` 10)%N with 0%N by (symmetry; apply N.div_small; lia).
  rewrite pretty_N_go_0. rewrite N.mod_small by lia. reflexivity.
Qed.

Lemma pretty_2 (k : Z) :
  10 <= k <= 99 ->
  pretty k = String (pretty_N_char (Z.to_N (k / 10)))
               (String (pretty_N_char (Z.to_N (k mod 10))) "").
Proof.
  intros Hk. rewrite pretty_pos by lia.
  rewrite Z2N.inj_div, Z2N.inj_mod by lia. change (Z.to_N 10) with 10%N.
  set (x := Z.to_N k). assert (Hx : (10 <= x <= 99)%N) by lia.
  assert (H1 : (0 < x / 10 < 10)%N).
  { split; [apply N.div_str_pos; lia|apply N.Div0.div_lt_upper_bound; lia]. }
  rewrite pretty_N_go_step by lia.
  rewrite pretty_N_go_step by lia.
  replace ((x / 10) / 10)%N with 0%N by (symmetry; apply N.div_small; lia).
  rewrite pretty_N_go_0, (N.mod_small (x / 10)) by lia. reflexivity.
Qed.

Lemma pretty_4 (k : Z) :
  1000 <= k <= 9999 ->
  pretty k = String (pretty_N_char (Z.to_N (k / 1000)))
               (String (pretty_N_char (Z.to_N (k / 100 mod 10)))
                  (String (pretty_N_char (Z.to_N (k / 10 mod 10)))
                     (String (pretty_N_char (Z.to_N (k mod 10))) ""))).
Proof.
  intros Hk. rewrite pretty_pos by lia.
  assert (E1 : Z.to_N (k / 1000) = (((Z.to_N k / 10) / 10) / 10)%N).
  { rewrite <- !(Z2N.inj_div _ 10) by (Z.div_mod_to_equations; lia).
    f_equal. Z.div_mod_to_equations; lia. }
  assert (E2 : Z.to_N (k / 100 mod 10) = (((Z.to_N k / 10) / 10) mod 10)%N).
  { rewrite <- !(Z2N.inj_div _ 10) by (Z.div_mod_to_equations; lia).
    rewrite <- (Z2N.inj_mod _ 10) by (Z.div_mod_to_equations; lia).
    f_equal. Z.div_mod_to_equations; lia. }
  assert (E3 : Z.to_N (k / 10 mod 10) = ((Z.to_N k / 10) mod 10)%N).
  { rewrite <- !(Z2N.inj_div _ 10) by (Z.div_mod_to_equations; lia).
    rewrite <- (Z2N.inj_mod _ 10) by (Z.div_mod_to_equations; lia). done. }
  assert (E4 : Z.to_N (k mod 10) = (Z.to_N k mod 10)%N).
  { by rewrite <- (Z2N.inj_mod _ 10) by lia. }
  rewrite E1, E2, E3, E4.
  set (x := Z.to_N k). assert (Hx : (1000 <= x <= 9999)%N) by lia.
  assert (H1 : (100 <= x / 10 <= 999)%N).
  { split; [apply N.div_le_lower_bound; lia|].
    apply N.lt_succ_r, N.Div0.div_lt_upper_bound; lia. }
  assert (H2 : (10 <= (x / 10) / 10 <= 99)%N).
  { split; [apply N.div_le_lower_bound; lia|].
    apply N.lt_succ_r, N.Div0.div_lt_upper_bound; lia. }
  assert (H3 : (1 <= ((x / 10) / 10) / 10 <= 9)%N).
  { split; [apply N.div_le_lower_bound; lia|].
    apply N.lt_succ_r, N.Div0.div_lt_upper_bound; lia. }
  rewrite pretty_N_go_step by lia.
  rewrite pretty_N_go_step by lia.
  rewrite pretty_N_go_step by lia.
  rewrite pretty_N_go_step by lia.
  replace ((((x / 10) / 10) / 10) / 10)%N with 0%N
    by (symmetry; apply N.div_small; lia).
  rewrite pretty_N_go_0, (N.mod_small (((x / 10) / 10) / 10)) by lia.
  reflexivity.
Qed.

Lemma pad2_digits (k : Z) :
  0 <= k <= 99 ->
  pad2 (VNum k) = String (pretty_N_char (Z.to_N (k / 10)))
                    (String (pretty_N_char (Z.to_N (k mod 10))) "").
Proof.
  intros Hk. unfold pad2. cbn [to_string].
  destruct (Z_lt_le_dec k 10) as [Hlt|Hge].
  - rewrite pretty_1 by lia. cbn [String.length].
    replace (k / 10) with 0 by (Z.div_mod_to_equations; lia).
    replace (k mod 10) with k by (Z.div_mod_to_equations; lia). reflexivity.
  - rewrite pretty_2 by lia. reflexivity.
Qed.

(** The text [abcd-ef-gh] of eight digits splits into the three numbers
    the digits spell. *)
Lemma date_text_parses a b c d e f g h :
  is_digit a = true -> is_digit b = true -> is_digit c = true -> is_digit d = true ->
  is_digit e = true -> is_digit f = true -> is_digit g = true -> is_digit h = true ->
  map parseInt
    (split "-" (String a (String b (String c (String d (String "-"
                 (String e (String f (String "-" (String g (String h "")))))))))))
  = [VNum (1000 * digit_val a + 100 * digit_val b + 10 * digit_val c + digit_val d);
     VNum (10 * digit_val e + digit_val f); VNum (10 * digit_val g + digit_val h)].
Proof.
  intros Ha Hb Hc Hd He Hf Hg Hh.
  destruct (digit_char a Ha) as (_ & Ea & _ & _), (digit_char b Hb) as (_ & Eb & _ & _),
    (digit_char c Hc) as (_ & Ec & _ & _), (digit_char d Hd) as (_ & Ed & _ & _),
    (digit_char e He) as (_ & Ee & _ & _), (digit_char f Hf) as (_ & Ef & _ & _),
    (digit_char g Hg) as (_ & Eg & _ & _), (digit_char h Hh) as (_ & Eh & _ & _).
  unfold split. cbn [split_go]. rewrite Ea. cbn [split_go]. rewrite Eb.
  cbn [split_go]. rewrite Ec. cbn [split_go]. rewrite Ed.
  cbn [split_go]. change (Ascii.eqb "-" "-") with true. cbv iota.
  cbn [split_go]. rewrite Ee. cbn [split_go]. rewrite Ef.
  cbn [split_go]. change (Ascii.eqb "-" "-") with true. cbv iota.
  cbn [split_go]. rewrite Eg. cbn [split_go]. rewrite Eh. cbn [split_go].
  unfold String.rev. cbn [map String.rev_app].
  by rewrite parseInt_digits4, !parseInt_digits2.
Qed.

(** What [isoDateString] writes for a date in a four-digit year. *)
Lemma isoDateString_text t :
  1000 <= YearFromDay (Day t) <= 9999 ->
  isoDateString (Some t)
  = String (pretty_N_char (Z.to_N (YearFromDay (Day t) / 1000)))
      (String (pretty_N_char (Z.to_N (YearFromDay (Day t) / 100 mod 10)))
         (String (pretty_N_char (Z.to_N (YearFromDay (Day t) / 10 mod 10)))
            (String (pretty_N_char (Z.to_N (YearFromDay (Day t) mod 10)))
               (String "-"
                  (String (pretty_N_char (Z.to_N ((MonthFromDay (Day t) + 1) / 10)))
                     (String (pretty_N_char (Z.to_N ((MonthFromDay (Day t) + 1) mod 10)))
                        (String "-"
                           (String (pretty_N_char (Z.to_N (DateFromDay (Day t) / 10)))
                              (String (pretty_N_char (Z.to_N (DateFromDay (Day t) mod 10)))
                                 ""))))))))).
Proof.
  intros Hy. destruct (fields_of_day (Day t)) as (Hm & Hv & _).
  apply valid_civil_range in Hv as [_ Hd].
  assert (Hd31 : days_in_month (YearFromDay (Day t)) (MonthFromDay (Day t) + 1) <= 31).
  { unfold days_in_month.
    repeat match goal with |- context [if ?b then _ else _] => destruct b end; lia. }
  unfold isoDateString, getFullYear, getMonth, getDate, field, add1.
  cbn [to_number to_string].
  rewrite pretty_4, !pad2_digits by lia. reflexivity.
Qed.

Lemma digit_bounds (x : Z) : 0 <= x <= 9 -> (Z.to_N x < 10)%N.
Proof. lia. Qed.

(** Read back the way [generateRowTimes] reads its argument, the text
    gives the year, the month and the day of the date. *)
Lemma isoDateString_parses t :
  1000 <= YearFromDay (Day t) <= 9999 ->
  well_formed_date (isoDateString (Some t)) = true
  /\ map parseInt (split "-" (isoDateString (Some t)))
     = [VNum (YearFromDay (Day t)); VNum (MonthFromDay (Day t) + 1);
        VNum (DateFromDay (Day t))].
Proof.
  intros Hy.
  destruct (fields_of_day (Day t)) as (Hm & Hv & HD).
  apply valid_civil_range in Hv as [_ Hdd].
  assert (Hd31 : days_in_month (YearFromDay (Day t)) (MonthFromDay (Day t) + 1) <= 31).
  { unfold days_in_month.
    repeat match goal with |- context [if ?b then _ else _] => destruct b end; lia. }
  set (Y := YearFromDay (Day t)) in *. set (M := MonthFromDay (Day t)) in *.
  set (DD := DateFromDay (Day t)) in *.
  assert (Htext := isoDateString_text t Hy). fold Y M DD in Htext.
  destruct (pretty_N_char_digit (Z.to_N (Y / 1000))) as [A1 V1];
    [clear - Hy; Z.div_mod_to_equations; lia|].
  destruct (pretty_N_char_digit (Z.to_N (Y / 100 mod 10))) as [A2 V2];
    [clear; Z.div_mod_to_equations; lia|].
  destruct (pretty_N_char_digit (Z.to_N (Y / 10 mod 10))) as [A3 V3];
    [clear; Z.div_mod_to_equations; lia|].
  destruct (pretty_N_char_digit (Z.to_N (Y mod 10))) as [A4 V4];
    [clear; Z.div_mod_to_equations; lia|].
  destruct (pretty_N_char_digit (Z.to_N ((M + 1) / 10))) as [A5 V5];
    [clear - Hm; Z.div_mod_to_equations; lia|].
  destruct (pretty_N_char_digit (Z.to_N ((M + 1) mod 10))) as [A6 V6];
    [clear; Z.div_mod_to_equations; lia|].
  destruct (pretty_N_char_digit (Z.to_N (DD / 10))) as [A7 V7];
    [clear - Hdd Hd31; Z.div_mod_to_equations; lia|].
  destruct (pretty_N_char_digit (Z.to_N (DD mod 10))) as [A8 V8];
    [clear; Z.div_mod_to_equations; lia|].
  split.
  { rewrite Htext. unfold well_formed_date.
    rewrite A1, A2, A3, A4, A5, A6, A7, A8. reflexivity. }
  rewrite Htext, date_text_parses by done.
  rewrite V1, V2, V3, V4, V5, V6, V7, V8.
  rewrite !Z2N.id by (clear - Hy Hm Hdd; Z.div_mod_to_equations; lia).
  f_equal; [|f_equal; [|f_equal]]; f_equal;
    clear - Hy Hm Hdd Hd31; Z.div_mod_to_equations; lia.
Qed.

(** X3. A date of a four-digit year, written by [isoDateString] and read
    back the way [generateRowTimes] reads its argument, gives its own
    year, month and day; the rows generated for that text all lie on the
    day of the date. *)
Theorem isoDateString_round_trip (cfg : config) (t : Z) :
  1000 <= YearFromDay (Day t) <= 9999 ->
  0 <= SLOT_MIN_TIME cfg <= SLOT_MAX_TIME cfg -> SLOT_MAX_TIME cfg <= 23 ->
  0 < SLOT_DURATION_MIN cfg -> (SLOT_DURATION_MIN cfg | 60) ->
  well_formed_date (isoDateString (Some t)) = true
  /\ map parseInt (split "-" (isoDateString (Some t)))
     = [getFullYear (Some t); add1 (getMonth (Some t)); getDate (Some t)]
  /\ exists rows,
       generateRowTimes cfg (isoDateString (Some t)) = Some rows /\ rows <> []
       /\ Forall (on_day (Day t)) rows.
Proof.
  intros Hy Hmin Hmax Hs Hd.
  destruct (isoDateString_parses t Hy) as [Hwf Hparse].
  destruct (fields_of_day (Day t)) as (Hm & Hv & HD).
  pose proof Hv as Hv'. apply valid_civil_range in Hv' as [_ Hdd].
  assert (Hd31 : days_in_month (YearFromDay (Day t)) (MonthFromDay (Day t) + 1) <= 31).
  { unfold days_in_month.
    repeat match goal with |- context [if ?b then _ else _] => destruct b end; lia. }
  split; [exact Hwf|]. split; [exact Hparse|].
  destruct (generateRowTimes_rows cfg _ _ _ _ Hparse) as (rows & Hr & Hne & Hall);
    [lia|lia|lia|done|done|done|done|].
  exists rows. split; [exact Hr|]. split; [exact Hne|].
  eapply List.Forall_impl; [|exact Hall].
  intros dt (h & mi & Hh & Hmi & _ & ->).
  assert (HDay : civil_day (YearFromDay (Day t)) (MonthFromDay (Day t) + 1)
                   (DateFromDay (Day t)) = Day t).
  { unfold civil_day. destruct (Z.leb_spec (YearFromDay (Day t)) 99); [lia|].
    rewrite andb_false_r.
    by replace (MonthFromDay (Day t) + 1 - 1) with (MonthFromDay (Day t)) by lia. }
  rewrite HDay. eexists. split; [reflexivity|].
  apply fields_within_day. unfold msPerDay, msPerHour, msPerMinute. lia.
Qed.

Lemma isoDateString_round_trip_witness :
  well_formed_date (isoDateString (Some 1762160000000)) = true
  /\ map parseInt (split "-" (isoDateString (Some 1762160000000)))
     = [getFullYear (Some 1762160000000); add1 (getMonth (Some 1762160000000));
        getDate (Some 1762160000000)]
  /\ exists rows,
       generateRowTimes CONFIG (isoDateString (Some 1762160000000)) = Some rows
       /\ rows <> []
       /\ Forall (on_day (Day 1762160000000)) rows.
Proof.
  apply (isoDateString_round_trip CONFIG 1762160000000).
  - vm_compute. split; discriminate.
  - simpl; lia.
  - simpl; lia.
  - simpl; lia.
  - exists 2. reflexivity.
Defined.

(** A valid date text holds the numbers of a day of the calendar, and
    [isoDateString] writes that very text for every instant of the day. *)
Lemma valid_date_string_inv s :
  valid_date_string s = true ->
  exists y m d,
    map parseInt (split "-" s) = [VNum y; VNum m; VNum d]
    /\ valid_civil y m d = true /\ 1000 <= y <= 9999
    /\ civil_day y m d = MakeDay y (m - 1) d
    /\ forall t, Day t = MakeDay y (m - 1) d -> isoDateString (Some t) = s.
Proof.
  unfold valid_date_string. intros [Hwf Hrest]%andb_true_iff.
  destruct s as [|a [|b [|c [|d [|s1 [|e [|f [|s2 [|g [|h [|? ?]]]]]]]]]]];
    try discriminate.
  revert Hwf. unfold well_formed_date. rewrite !andb_true_iff.
  intros [[[[[[[[[Ha Hb] Hc] Hd] ->%Ascii.eqb_eq] He] Hf] ->%Ascii.eqb_eq] Hg] Hh].
  rewrite date_text_parses in Hrest |- * by done.
  apply andb_true_iff in Hrest as [Hv Hy%Z.leb_le].
  destruct (digit_char a Ha) as (_ & _ & Va & _), (digit_char b Hb) as (_ & _ & Vb & _),
    (digit_char c Hc) as (_ & _ & Vc & _), (digit_char d Hd) as (_ & _ & Vd & _),
    (digit_char e He) as (_ & _ & Ve & _), (digit_char f Hf) as (_ & _ & Vf & _),
    (digit_char g Hg) as (_ & _ & Vg & _), (digit_char h Hh) as (_ & _ & Vh & _).
  set (y := 1000 * digit_val a + 100 * digit_val b + 10 * digit_val c + digit_val d) in *.
  set (m := 10 * digit_val e + digit_val f) in *.
  set (dd := 10 * digit_val g + digit_val h) in *.
  exists y, m, dd. split; [done|]. split; [done|]. split; [unfold y; lia|].
  split.
  { unfold civil_day. destruct (Z.leb_spec y 99); [lia|]. by rewrite andb_false_r. }
  intros t Ht. destruct (civil_of_MakeDay y m dd Hv) as (Ey & Em & Ed).
  rewrite <- Ht in Ey, Em, Ed.
  rewrite isoDateString_text by (rewrite Ey; unfold y; lia).
  rewrite Ey, Em, Ed. replace (m - 1 + 1) with m by lia.
  replace (y / 1000) with (digit_val a) by (unfold y; Z.div_mod_to_equations; lia).
  replace (y / 100 mod 10) with (digit_val b) by (unfold y; Z.div_mod_to_equations; lia).
  replace (y / 10 mod 10) with (digit_val c) by (unfold y; Z.div_mod_to_equations; lia).
  replace (y mod 10) with (digit_val d) by (unfold y; Z.div_mod_to_equations; lia).
  replace (m / 10) with (digit_val e) by (unfold m; Z.div_mod_to_equations; lia).
  replace (m mod 10) with (digit_val f) by (unfold m; Z.div_mod_to_equations; lia).
  replace (dd / 10) with (digit_val g) by (unfold dd; Z.div_mod_to_equations; lia).
  replace (dd mod 10) with (digit_val h) by (unfold dd; Z.div_mod_to_equations; lia).
  by rewrite !pretty_N_char_of_digit.
Qed.



(** ** The day buttons *)

Lemma Day_shift t k : Day (t + k * msPerDay) = Day t + k.
Proof. unfold Day, msPerDay. Z.div_mod_to_equations. lia. Qed.

Lemma Day_of_day D r : 0 <= r < msPerDay -> Day (D * msPerDay + r) = D.
Proof. unfold Day, msPerDay. intros Hr. Z.div_mod_to_equations. lia. Qed.

Lemma year_bounds D :
  1000 <= YearFromDay D <= 9999 -> -400000 <= D <= 3000000.
Proof.
  intros Hy. pose proof (YearFromDay_range D) as Hr.
  assert (-400000 <= DayFromYear (YearFromDay D))
    by (unfold DayFromYear; Z.div_mod_to_equations; lia).
  assert (DayFromYear (YearFromDay D + 1) <= 3000000)
    by (unfold DayFromYear; Z.div_mod_to_equations; lia).
  lia.
Qed.

(** [isoDateString] looks at the day of a date only. *)
Lemma isoDateString_day t : isoDateString (Some t) = date_text (Day t).
Proof.
  unfold date_text, isoDateString, getFullYear, getMonth, getDate, field.
  replace (Day (Day t * msPerDay)) with (Day t); [done|].
  symmetry. rewrite <- (Z.add_0_r (Day t * msPerDay)). apply Day_of_day.
  unfold msPerDay. lia.
Qed.

(** Moving the day of the month by [k] moves the date by [k] days. *)
Lemma setDate_shift t k :
  Z.abs (t + k * msPerDay) <= 8640000000000000 ->
  setDate (Some t) (VNum (DateFromDay (Day t) + k)) = Some (t + k * msPerDay).
Proof.
  intros Hb. unfold setDate, num. cbn [to_number].
  destruct (fields_of_day (Day t)) as (Hm & _ & HD).
  assert (E : MakeDay (YearFromDay (Day t)) (MonthFromDay (Day t))
                (DateFromDay (Day t) + k) = Day t + k).
  { revert HD. unfold MakeDay. lia. }
  rewrite E. unfold MakeDate, TimeClip.
  replace ((Day t + k) * msPerDay + t mod msPerDay) with (t + k * msPerDay)
    by (unfold Day, msPerDay; Z.div_mod_to_equations; lia).
  destruct (Z.leb_spec (Z.abs (t + k * msPerDay)) 8640000000000000); [done|lia].
Qed.

(** The text of a day of a four-digit year is a valid date text that
    names the day, and the other way round. *)
Lemma date_text_valid D :
  1000 <= YearFromDay D <= 9999 ->
  valid_date_string (date_text D) = true /\ day_of_text (date_text D) = Some D.
Proof.
  intros Hy. unfold day_of_text, valid_date_string, date_text.
  assert (HD : Day (D * msPerDay) = D).
  { rewrite <- (Z.add_0_r (D * msPerDay)). apply Day_of_day. unfold msPerDay. lia. }
  destruct (isoDateString_parses (D * msPerDay)) as [-> ->]; [by rewrite HD|].
  rewrite HD. destruct (fields_of_day D) as (Hm & -> & E).
  destruct (Z.leb_spec 1000 (YearFromDay D)); [|lia]. cbn [andb].
  split; [done|]. replace (MonthFromDay D + 1 - 1) with (MonthFromDay D) by lia.
  by rewrite E.
Qed.

Lemma day_of_text_back s D :
  day_of_text s = Some D ->
  valid_date_string s = true /\ date_text D = s /\ 1000 <= YearFromDay D <= 9999.
Proof.
  unfold day_of_text. destruct (valid_date_string s) eqn:Hs; [|discriminate].
  destruct (valid_date_string_inv s Hs) as (y & m & d & -> & Hv & Hy & _ & Hback).
  intros [= <-]. split; [done|]. split.
  - apply Hback. rewrite <- (Z.add_0_r (MakeDay y (m - 1) d * msPerDay)).
    apply Day_of_day. unfold msPerDay. lia.
  - by destruct (civil_of_MakeDay y m d Hv) as (-> & _).
Qed.

Lemma date_text_nonempty D : 1000 <= YearFromDay D <= 9999 -> date_text D <> "".
Proof.
  intros Hy. unfold date_text. rewrite isoDateString_text; [discriminate|].
  rewrite <- (Z.add_0_r (D * msPerDay)), Day_of_day; [done|unfold msPerDay; lia].
Qed.

Section Buttons.

Variable cfg : config.
Variable rt : runtime.
Variable lc : locale.

(** What both buttons do, given the day the picked text is read on and
    how many days they move. *)
Lemma shift_click (k : Z) (cur' : Date) (pg : page) t :
  Date_of rt (VStr (picked_date rt (session pg))) = Some t ->
  1000 <= YearFromDay (Day t + k) <= 9999 -> -1 <= k <= 1 ->
  cur' = setDate (Some t) (VNum (DateFromDay (Day t) + k)) ->
  let st' := gridLoaderCaller_start cfg rt
               (set_datePicker (isoDateString cur') (session pg)) in
  datePicker st' = date_text (Day t + k)
  /\ last (log st') = Some (EReloadPending (date_text (Day t + k))
                                           (to_number (CUSTOMER_ID cfg)))
  /\ same_data (session pg) st'
  /\ formatDisplayDateStr rt lc (isoDateString cur')
     = formatDisplayDateStr rt lc (date_text (Day t + k)).
Proof.
  intros Ht Hy Hk ->. cbv zeta.
  pose proof (year_bounds _ Hy) as Hb.
  assert (Hclip : Z.abs (t + k * msPerDay) <= 8640000000000000).
  { assert (HD : Day (t + k * msPerDay) = Day t + k) by apply Day_shift.
    revert HD Hb. unfold Day, msPerDay. intros. Z.div_mod_to_equations. lia. }
  rewrite setDate_shift by done.
  rewrite isoDateString_day, Day_shift.
  pose proof (date_text_nonempty _ Hy) as Hne.
  unfold gridLoaderCaller_start, picked_date. cbn [datePicker set_datePicker].
  destruct (String.eqb_spec (date_text (Day t + k)) ""); [done|].
  split; [reflexivity|]. split.
  { cbn. by rewrite last_snoc. }
  split; [by repeat split|reflexivity].
Qed.

End Buttons.

(** X5. When the runtime reads the picked date text as an instant of
    local day [D], the Next button sets the picker to the text of day
    [D + 1], shows that text in words, and starts a reload for it; the
    repository and the tracker are not touched by the click itself. *)
Theorem nextBtn_click_advances (cfg : config) (rt : runtime) (lc : locale)
    (pg : page) (t : Z) :
  Date_of rt (VStr (picked_date rt (session pg))) = Some t ->
  1000 <= YearFromDay (Day t + 1) <= 9999 ->
  let pg' := nextBtn_click cfg rt lc pg in
  datePicker (session pg') = date_text (Day t + 1)
  /\ day_of_text (datePicker (session pg')) = Some (Day t + 1)
  /\ displayDate pg' = formatDisplayDateStr rt lc (date_text (Day t + 1))
  /\ last (log (session pg'))
     = Some (EReloadPending (date_text (Day t + 1)) (to_number (CUSTOMER_ID cfg)))
  /\ same_data (session pg) (session pg').
Proof.
  intros Ht Hy. cbv zeta. unfold nextBtn_click. rewrite Ht.
  destruct (shift_click cfg rt lc 1 _ pg t Ht Hy ltac:(lia) eq_refl)
    as (Hp & Hl & Hs & Hf).
  cbn [session displayDate]. unfold getDate, field, add1. cbn [to_number].
  split; [exact Hp|]. split; [rewrite Hp; by apply date_text_valid|].
  split; [exact Hf|]. split; [exact Hl|exact Hs].
Qed.

Lemma nextBtn_click_advances_witness :
  let pg' := nextBtn_click CONFIG (zoned 0) en_US front in
  datePicker (session pg') = date_text (Day 1762128000000 + 1)
  /\ day_of_text (datePicker (session pg')) = Some (Day 1762128000000 + 1)
  /\ displayDate pg'
     = formatDisplayDateStr (zoned 0) en_US (date_text (Day 1762128000000 + 1))
  /\ last (log (session pg'))
     = Some (EReloadPending (date_text (Day 1762128000000 + 1))
                            (to_number (CUSTOMER_ID CONFIG)))
  /\ same_data (session front) (session pg').
Proof.
  apply (nextBtn_click_advances CONFIG (zoned 0) en_US front 1762128000000).
  - vm_compute. reflexivity.
  - vm_compute. split; discriminate.
Defined.

Example next_day_of_the_fixture :
  let pg' := nextBtn_click CONFIG (zoned 0) en_US front in
  datePicker (session pg') = "2025-11-04"
  /\ displayDate pg' = "Tuesday, November 04 2025".
Proof. vm_compute. split; reflexivity. Qed.

Lemma DayFromYear_mono a b : a <= b -> DayFromYear a <= DayFromYear b.
Proof. unfold DayFromYear. intros H. Z.div_mod_to_equations. lia. Qed.

Lemma YearFromDay_mono D1 D2 : D1 <= D2 -> YearFromDay D1 <= YearFromDay D2.
Proof.
  intros H. pose proof (YearFromDay_range D1) as H1.
  pose proof (YearFromDay_range D2) as H2.
  destruct (Z_le_gt_dec (YearFromDay D1) (YearFromDay D2)) as [|Hgt]; [done|].
  pose proof (DayFromYear_mono (YearFromDay D2 + 1) (YearFromDay D1) ltac:(lia)). lia.
Qed.

(** X6. West of UTC the runtime reads a date-only text as an instant of
    the evening before.  There the Next button leaves the picked date as
    it is, and the Previous button goes back two days. *)
Theorem nextBtn_click_west (cfg : config) (rt : runtime) (lc : locale)
    (pg : page) (s : string) (D off : Z) :
  picked_date rt (session pg) = s ->
  day_of_text s = Some D ->
  - msPerDay <= off < 0 ->
  Date_of rt (VStr s) = Some (D * msPerDay + off) ->
  1000 <= YearFromDay (D - 2) ->
  datePicker (session (nextBtn_click cfg rt lc pg)) = s
  /\ datePicker (session (prevBtn_click cfg rt lc pg)) = date_text (D - 2)
  /\ day_of_text (date_text (D - 2)) = Some (D - 2).
Proof.
  intros Hs HD Hoff Hread Hy2.
  destruct (day_of_text_back s D HD) as (Hv & Hback & Hy).
  set (t := D * msPerDay + off) in *.
  assert (Ht : Day t = D - 1).
  { unfold t. replace (D * msPerDay + off) with ((D - 1) * msPerDay + (off + msPerDay)) by lia.
    apply Day_of_day. lia. }
  assert (Hy2' : 1000 <= YearFromDay (D - 2) <= 9999).
  { split; [done|]. pose proof (YearFromDay_mono (D - 2) D ltac:(lia)). lia. }
  rewrite <- Hs in Hread.
  assert (Hn : 1000 <= YearFromDay (Day t + 1) <= 9999)
    by (rewrite Ht; by replace (D - 1 + 1) with D by lia).
  assert (Hp : 1000 <= YearFromDay (Day t + -1) <= 9999)
    by (rewrite Ht; by replace (D - 1 + -1) with (D - 2) by lia).
  split; [|split].
  - unfold nextBtn_click. rewrite Hread.
    destruct (shift_click cfg rt lc 1 _ pg t Hread Hn ltac:(lia) eq_refl) as (E & _).
    cbn [session]. unfold getDate, field, add1. cbn [to_number].
    rewrite E, Ht. by replace (D - 1 + 1) with D by lia.
  - unfold prevBtn_click. rewrite Hread.
    destruct (shift_click cfg rt lc (-1) _ pg t Hread Hp ltac:(lia) eq_refl) as (E & _).
    cbn [session]. unfold getDate, field, sub1. cbn [to_number].
    replace (DateFromDay (Day t) - 1) with (DateFromDay (Day t) + -1) by lia.
    rewrite E, Ht. by replace (D - 1 + -1) with (D - 2) by lia.
  - by apply date_text_valid.
Qed.

Lemma nextBtn_click_west_witness :
  datePicker (session (nextBtn_click CONFIG (zoned (-18000000)) en_US front))
  = "2025-11-03"
  /\ datePicker (session (prevBtn_click CONFIG (zoned (-18000000)) en_US front))
     = date_text (20395 - 2)
  /\ day_of_text (date_text (20395 - 2)) = Some (20395 - 2).
Proof.
  apply (nextBtn_click_west CONFIG (zoned (-18000000)) en_US front
           "2025-11-03" 20395 (-18000000)).
  - reflexivity.
  - reflexivity.
  - unfold msPerDay. lia.
  - reflexivity.
  - vm_compute. discriminate.
Defined.

Example previous_day_in_new_york :
  datePicker (session (prevBtn_click CONFIG (zoned (-18000000)) en_US front))
  = "2025-11-01".
Proof. vm_compute. reflexivity. Qed.

(** X7. East of UTC (and at UTC) a date-only text is read as an instant
    of its own day: there Next followed by Previous comes back to the
    picked date. *)
Theorem prev_after_next (cfg : config) (rt : runtime) (lc : locale)
    (pg : page) (s : string) (D off : Z) :
  (forall s' D', day_of_text s' = Some D' ->
                 Date_of rt (VStr s') = Some (D' * msPerDay + off)) ->
  0 <= off < msPerDay ->
  picked_date rt (session pg) = s ->
  day_of_text s = Some D ->
  YearFromDay (D + 1) <= 9999 ->
  datePicker (session (nextBtn_click cfg rt lc pg)) = date_text (D + 1)
  /\ datePicker (session (prevBtn_click cfg rt lc (nextBtn_click cfg rt lc pg))) = s.
Proof.
  intros Hread Hoff Hs HD Hy1.
  destruct (day_of_text_back s D HD) as (Hv & Hback & Hy).
  assert (Hy1' : 1000 <= YearFromDay (D + 1) <= 9999).
  { split; [|done]. pose proof (YearFromDay_mono D (D + 1) ltac:(lia)). lia. }
  assert (Hr1 : Date_of rt (VStr (picked_date rt (session pg)))
                = Some (D * msPerDay + off)) by (rewrite Hs; by apply Hread).
  assert (Ht : Day (D * msPerDay + off) = D) by by apply Day_of_day.
  assert (Hn : 1000 <= YearFromDay (Day (D * msPerDay + off) + 1) <= 9999)
    by by rewrite Ht.
  destruct (shift_click cfg rt lc 1 _ pg _ Hr1 Hn ltac:(lia) eq_refl) as (Hp & _).
  assert (Hnext : datePicker (session (nextBtn_click cfg rt lc pg)) = date_text (D + 1)).
  { unfold nextBtn_click. rewrite Hr1. cbn [session].
    unfold getDate, field, add1. cbn [to_number]. rewrite Hp. by rewrite Ht. }
  split; [exact Hnext|].
  set (pg1 := nextBtn_click cfg rt lc pg) in *.
  destruct (date_text_valid (D + 1) Hy1') as [_ HD1].
  assert (Hpick : picked_date rt (session pg1) = date_text (D + 1)).
  { unfold picked_date. rewrite Hnext.
    destruct (String.eqb_spec (date_text (D + 1)) "") as [E|]; [|done].
    by apply date_text_nonempty in E. }
  assert (Hr2 : Date_of rt (VStr (picked_date rt (session pg1)))
                = Some ((D + 1) * msPerDay + off)) by (rewrite Hpick; by apply Hread).
  assert (Ht2 : Day ((D + 1) * msPerDay + off) = D + 1) by by apply Day_of_day.
  assert (Hb : 1000 <= YearFromDay (Day ((D + 1) * msPerDay + off) + -1) <= 9999)
    by (rewrite Ht2; by replace (D + 1 + -1) with D by lia).
  destruct (shift_click cfg rt lc (-1) _ pg1 _ Hr2 Hb ltac:(lia) eq_refl) as (Hp2 & _).
  unfold prevBtn_click. rewrite Hr2. cbn [session].
  unfold getDate, field, sub1. cbn [to_number].
  replace (DateFromDay (Day ((D + 1) * msPerDay + off)) - 1)
    with (DateFromDay (Day ((D + 1) * msPerDay + off)) + -1) by lia.
  rewrite Hp2, Ht2. by replace (D + 1 + -1) with D by lia.
Qed.

Lemma prev_after_next_witness :
  datePicker (session (nextBtn_click CONFIG (zoned 10800000) en_US front))
  = date_text (20395 + 1)
  /\ datePicker (session (prevBtn_click CONFIG (zoned 10800000) en_US
                            (nextBtn_click CONFIG (zoned 10800000) en_US front)))
     = "2025-11-03".
Proof.
  apply (prev_after_next CONFIG (zoned 10800000) en_US front "2025-11-03" 20395 10800000).
  - intros s' D' E. cbn [Date_of zoned]. unfold parse_date_only. by rewrite E.
  - unfold msPerDay. lia.
  - reflexivity.
  - reflexivity.
  - vm_compute. discriminate.
Defined.

(** ** The date line *)

Lemma length_append (a b : string) :
  String.length (a ++ b) = (String.length a + String.length b)%nat.
Proof.
  induction a as [|c a IH]; [done|]. rewrite append_cons. cbn [String.length].
  by rewrite IH.
Qed.

Lemma year_suffix_inv s y :
  year_suffix s = Some y -> s = ", " ++ y /\ is_year y = true.
Proof.
  unfold year_suffix.
  destruct s as [|c1 [|c2 [|a [|b [|c [|d [|? ?]]]]]]]; try discriminate.
  destruct (Ascii.eqb_spec c1 ",") as [->|]; [|discriminate].
  destruct (Ascii.eqb_spec c2 " ") as [->|]; [|discriminate]. cbn [andb].
  destruct (is_digit a && is_digit b && is_digit c && is_digit d) eqn:E; [|discriminate].
  intros [= <-]. split; [reflexivity|exact E].
Qed.

Lemma year_suffix_here y : is_year y = true -> year_suffix (", " ++ y) = Some y.
Proof.
  destruct y as [|a [|b [|c [|d [|? ?]]]]]; try discriminate.
  cbn [is_year]. intros E. unfold year_suffix.
  change (", " ++ String a (String b (String c (String d ""))))
    with (String "," (String " " (String a (String b (String c (String d "")))))).
  cbv iota beta. change (Ascii.eqb "," ",") with true. change (Ascii.eqb " " " ") with true.
  cbn [andb]. by rewrite E.
Qed.

Lemma year_suffix_longer c pre y :
  is_year y = true -> year_suffix (String c (pre ++ ", " ++ y)) = None.
Proof.
  intros Hy. destruct (year_suffix _) as [y'|] eqn:E; [|done].
  apply year_suffix_inv in E as [E Hy'].
  apply (f_equal String.length) in E. revert E.
  destruct y as [|a [|b [|c' [|d [|? ?]]]]]; try discriminate.
  destruct y' as [|a' [|b' [|c'' [|d' [|? ?]]]]]; try discriminate.
  cbn [String.length]. rewrite !length_append. cbn [String.length]. lia.
Qed.

Lemma drop_year_comma_year pre y :
  is_year y = true -> drop_year_comma (pre ++ ", " ++ y) = pre ++ " " ++ y.
Proof.
  intros Hy. induction pre as [|c pre IH].
  - change ("" ++ ", " ++ y) with (", " ++ y).
    destruct y as [|a r]; [discriminate|].
    change (drop_year_comma (", " ++ String a r))
      with (match year_suffix (", " ++ String a r) with
            | Some y => String " " y
            | None => String "," (drop_year_comma (String " " (String a r)))
            end).
    by rewrite year_suffix_here.
  - change (String c pre ++ ", " ++ y) with (String c (pre ++ ", " ++ y)).
    change (drop_year_comma (String c (pre ++ ", " ++ y)))
      with (match year_suffix (String c (pre ++ ", " ++ y)) with
            | Some y => String " " y
            | None => String c (drop_year_comma (pre ++ ", " ++ y))
            end).
    rewrite year_suffix_longer by done. by rewrite IH.
Qed.

Lemma drop_year_comma_other s :
  (forall pre y, is_year y = true -> s <> pre ++ ", " ++ y) -> drop_year_comma s = s.
Proof.
  induction s as [|c s IH]; intros H; [reflexivity|].
  change (drop_year_comma (String c s))
    with (match year_suffix (String c s) with
          | Some y => String " " y
          | None => String c (drop_year_comma s)
          end).
  destruct (year_suffix (String c s)) as [y|] eqn:E.
  - apply year_suffix_inv in E as [E Hy]. by destruct (H "" y Hy).
  - f_equal. apply IH. intros pre y Hy ->. by apply (H (String c pre) y Hy).
Qed.

(** X8. For a text the runtime can read as a date, [formatDisplayDateStr]
    gives the long en-US date without the comma in front of a closing
    four-digit year and changes nothing else; a long date that does not
    close with such a year is given as it is. *)
Theorem formatDisplayDateStr_year (rt : runtime) (lc : locale)
    (dateStr : string) (t : Z) (s : string) :
  Date_of rt (VStr dateStr) = Some t ->
  toLocaleDateString lc (Some t) = s ->
  (forall pre y, s = pre ++ ", " ++ y -> is_year y = true ->
                 formatDisplayDateStr rt lc dateStr = pre ++ " " ++ y)
  /\ ((forall pre y, is_year y = true -> s <> pre ++ ", " ++ y) ->
      formatDisplayDateStr rt lc dateStr = s).
Proof.
  intros Ht Hs. unfold formatDisplayDateStr. rewrite Ht, Hs. split.
  - intros pre y -> Hy. by apply drop_year_comma_year.
  - apply drop_year_comma_other.
Qed.

Lemma formatDisplayDateStr_year_witness :
  (forall pre y, "Monday, November 03, 2025" = pre ++ ", " ++ y -> is_year y = true ->
                 formatDisplayDateStr (zoned 0) en_US "2025-11-03" = pre ++ " " ++ y)
  /\ ((forall pre y, is_year y = true -> "Monday, November 03, 2025" <> pre ++ ", " ++ y) ->
      formatDisplayDateStr (zoned 0) en_US "2025-11-03" = "Monday, November 03, 2025").
Proof.
  apply (formatDisplayDateStr_year (zoned 0) en_US "2025-11-03" 1762128000000).
  - reflexivity.
  - reflexivity.
Defined.

Example display_of_the_fixture_date :
  formatDisplayDateStr (zoned 0) en_US "2025-11-03" = "Monday, November 03 2025"
  /\ formatDisplayDateStr offline en_US "2025-11-03" = "2025-11-03".
Proof. vm_compute. split; reflexivity. Qed.

(** ** The phases of a load *)

Lemma requests_app l1 l2 : requests (l1 ++ l2) = (requests l1 ++ requests l2)%list.
Proof. apply List.filter_app. Qed.

Lemma apiGet_out cfg rev rt path st :
  goes_out rev st ->
  apiGet cfg rev rt path st
  = (delivered (fetch_get rt (API_BASE cfg ++ path)),
     emit (EFetch "GET" (API_BASE cfg ++ path) None)
       (match rev with MainJs => st | WithUpdate => set_MODE "live" st end)).
Proof.
  intros Hout. unfold apiGet, delivered.
  assert (Hm : String.eqb (MODE (match rev with
                                 | MainJs => st
                                 | WithUpdate => set_MODE "live" st
                                 end)) "mock" = false).
  { destruct rev; [|reflexivity]. destruct Hout as [|Hne]; [discriminate|].
    by apply String.eqb_neq. }
  rewrite Hm. destruct (fetch_get rt _) as [|status txt parsed]; [done|].
  destruct (response_ok status); cbn [negb]; [|done]. by destruct parsed.
Qed.

Lemma apiGet_mock cfg rt path st :
  MODE st = "mock" ->
  apiGet cfg MainJs rt path st = (Throw (Error "mock-mode"), st).
Proof. intros Hm. unfold apiGet. by rewrite Hm. Qed.

Lemma classic_mode rev st : goes_out rev st \/ (rev = MainJs /\ MODE st = "mock").
Proof.
  unfold goes_out. destruct rev; [|by left; left].
  destruct (String.eqb_spec (MODE st) "mock"); [by right|by left; right].
Qed.

Lemma transport_fails_delivered r :
  transport_fails r -> exists e, delivered r = Throw e.
Proof.
  destruct r as [|status txt parsed]; cbn; [by eexists|].
  intros [->| ->]; [by eexists|]. destruct (response_ok status); by eexists.
Qed.

(** X9. [fetchResources] does not throw.  When the request is not sent
    (mock mode in [main.js]) or no body comes back, it hands back the four
    fixture resources, the mode is ['mock'] afterwards and has been written
    to local storage; the data of the page is as before. *)
Theorem fetchResources_falls_back (cfg : config) (rev : revision) (rt : runtime)
    (customerId : val) (st : state) :
  (rev = MainJs /\ MODE st = "mock")
  \/ transport_fails (fetch_get rt (resources_url cfg customerId)) ->
  exists st',
    fetchResources cfg rev rt customerId st = (JArr MOCK_resources, st')
    /\ MODE st' = "mock"
    /\ last (log st') = Some (EStore "mode" "mock")
    /\ same_data st st'.
Proof.
  intros H. unfold fetchResources.
  assert (Hfb : forall e s, same_data st s ->
            exists st', (JArr MOCK_resources, fall_back_to_mock e s) = (JArr MOCK_resources, st')
                        /\ MODE st' = "mock"
                        /\ last (log st') = Some (EStore "mode" "mock")
                        /\ same_data st st').
  { intros e s Hs. eexists. split; [reflexivity|]. split; [reflexivity|].
    split; [cbn; by rewrite last_snoc|exact Hs]. }
  destruct (classic_mode rev st) as [Hout|[-> Hm]].
  - rewrite apiGet_out by done.
    destruct H as [[-> Hm]|Hf]; [destruct Hout as [|Hne]; [discriminate|done]|].
    destruct (transport_fails_delivered _ Hf) as [e He].
    unfold resources_url in He. rewrite He. apply Hfb.
    destruct rev; by repeat split.
  - rewrite apiGet_mock by done. by apply Hfb.
Qed.

Lemma fetchResources_falls_back_witness :
  exists st',
    fetchResources CONFIG WithUpdate offline (VNum 1) blank = (JArr MOCK_resources, st')
    /\ MODE st' = "mock"
    /\ last (log st') = Some (EStore "mode" "mock")
    /\ same_data blank st'.
Proof.
  apply (fetchResources_falls_back CONFIG WithUpdate offline (VNum 1) blank).
  right. exact I.
Defined.

(** The state in which [apiGet] leaves the mode. *)
Lemma issue_all_out cfg rev rt customerId dateStr rs st :
  goes_out rev st ->
  exists st',
    issue_all cfg rev rt customerId dateStr rs st
    = (map (fun r => (r, delivered (fetch_get rt (slots_url cfg customerId dateStr r)))) rs,
       st')
    /\ log st' = (log st
                  ++ map (fun r => EFetch "GET" (slots_url cfg customerId dateStr r) None) rs)%list
    /\ same_data st st'
    /\ datePicker st' = datePicker st /\ customerInput st' = customerInput st.
Proof.
  revert st. induction rs as [|r rs IH]; intros st Hout.
  - exists st. cbn. rewrite app_nil_r. by repeat split.
  - cbn [issue_all]. rewrite apiGet_out by done.
    set (st1 := emit _ _).
    assert (Hout1 : goes_out rev st1).
    { unfold goes_out, st1. destruct rev; [|by left].
      destruct Hout as [|Hne]; [discriminate|by right]. }
    destruct (IH st1 Hout1) as (st' & -> & Hlog & Hd & Hp & Hc).
    exists st'. split; [reflexivity|]. split.
    { rewrite Hlog. unfold st1. destruct rev; cbn; by rewrite <- app_assoc. }
    assert (H1 : same_data st st1 /\ datePicker st1 = datePicker st
                 /\ customerInput st1 = customerInput st)
      by (unfold st1; destruct rev; by repeat split).
    destruct H1 as ((? & ? & ? & ? & ?) & ? & ?), Hd as (? & ? & ? & ? & ?).
    repeat split; congruence.
Qed.

Lemma issue_all_mock cfg rt customerId dateStr rs st :
  MODE st = "mock" ->
  issue_all cfg MainJs rt customerId dateStr rs st
  = (map (fun r => (r, Throw (Error "mock-mode"))) rs, st).
Proof.
  intros Hm. induction rs as [|r rs IH]; [done|].
  cbn [issue_all]. rewrite apiGet_mock by done. by rewrite IH.
Qed.

(** Settling the requests sends nothing, keeps the resources, the picker
    and the input box, and can only move the mode to ['mock']. *)
Lemma settle_all_quiet cfg rev customerId dateStr pending order :
  forall failed st,
    let st' := snd (settle_all cfg rev customerId dateStr pending order failed st) in
    requests (log st') = requests (log st)
    /\ datePicker st' = datePicker st /\ customerInput st' = customerInput st
    /\ (MODE st' = MODE st \/ MODE st' = "mock").
Proof.
  induction order as [|i order IH]; intros failed st; cbv zeta; [by repeat split; left|].
  cbn [settle_all]. destruct (pending !! i) as [[r o]|]; [|apply IH].
  unfold slots_settled.
  set (st1 := match checked o with Ok _ => st | Throw e => fall_back_to_mock e st end).
  assert (H1 : requests (log st1) = requests (log st)
               /\ datePicker st1 = datePicker st /\ customerInput st1 = customerInput st
               /\ (MODE st1 = MODE st \/ MODE st1 = "mock")).
  { unfold st1. destruct (checked o); [by repeat split; left|].
    cbn. rewrite !requests_app. cbn. rewrite !app_nil_r. by repeat split; right. }
  destruct H1 as (Hr & Hp & Hc & Hm).
  destruct (store_slots cfg rev customerId r _ st1) as [[[]|e] st2] eqn:Hst.
  - assert (H2 : log st2 = log st1 /\ datePicker st2 = datePicker st1
                 /\ customerInput st2 = customerInput st1 /\ MODE st2 = MODE st1).
    { revert Hst. unfold store_slots. destruct (slot_items _); [|discriminate].
      intros [= <-]. by destruct (RESPECT_SERVER_REGISTERED cfg). }
    destruct H2 as (L2 & P2 & C2 & M2).
    destruct (IH failed st2) as (Hr3 & Hp3 & Hc3 & Hm3).
    rewrite Hr3, Hp3, Hc3, L2, P2, C2, Hr, Hp, Hc. repeat split.
    destruct Hm3 as [-> | ->]; [|by right]. rewrite M2. exact Hm.
  - assert (H2 : st2 = st1).
    { revert Hst. unfold store_slots. destruct (slot_items _); [discriminate|].
      by intros [= <-]. }
    subst st2.
    destruct (IH (match failed with Some e0 => Some e0 | None => Some e end) st1)
      as (Hr3 & Hp3 & Hc3 & Hm3).
    rewrite Hr3, Hp3, Hc3, Hr, Hp, Hc. repeat split.
    destruct Hm3 as [-> | ->]; [exact Hm|by right].
Qed.

Lemma settle_all_grows cfg rev customerId dateStr pending order :
  forall failed st,
    exists es, log (snd (settle_all cfg rev customerId dateStr pending order failed st))
               = (log st ++ es)%list.
Proof.
  induction order as [|i order IH]; intros failed st; [exists []; by rewrite app_nil_r|].
  cbn [settle_all]. destruct (pending !! i) as [[r o]|]; [|apply IH].
  unfold slots_settled.
  set (st1 := match checked o with Ok _ => st | Throw e => fall_back_to_mock e st end).
  assert (H1 : exists es1, log st1 = (log st ++ es1)%list).
  { unfold st1. destruct (checked o); [exists []; by rewrite app_nil_r|].
    eexists. cbn. by rewrite <- app_assoc. }
  destruct H1 as [es1 H1].
  destruct (store_slots cfg rev customerId r _ st1) as [[[]|e] st2] eqn:Hst.
  - assert (L2 : log st2 = log st1).
    { revert Hst. unfold store_slots. destruct (slot_items _); [|discriminate].
      intros [= <-]. by destruct (RESPECT_SERVER_REGISTERED cfg). }
    destruct (IH failed st2) as [es2 ->]. exists (es1 ++ es2)%list.
    by rewrite L2, H1, app_assoc.
  - assert (H2 : st2 = st1).
    { revert Hst. unfold store_slots. destruct (slot_items _); [discriminate|].
      by intros [= <-]. }
    subst st2.
    destruct (IH (match failed with Some e0 => Some e0 | None => Some e end) st1) as [es2 ->].
    exists (es1 ++ es2)%list. by rewrite H1, app_assoc.
Qed.

(** The callbacks throw only on an answer that is not a list. *)
Lemma settle_all_no_throw cfg rev customerId dateStr pending order :
  (forall i r o, In i order -> pending !! i = Some (r, o) ->
                 is_Some (slot_items (settled_data cfg customerId dateStr (get r "ID") o))) ->
  forall failed st,
    fst (settle_all cfg rev customerId dateStr pending order failed st) = failed.
Proof.
  induction order as [|i order IH]; intros H failed st; [done|].
  cbn [settle_all]. destruct (pending !! i) as [[r o]|] eqn:Hi;
    [|apply IH; intros; eapply H; [by right|done]].
  destruct (H i r o (or_introl eq_refl) Hi) as [items Hitems].
  unfold slots_settled, store_slots. rewrite Hitems.
  apply IH. intros; eapply H; [by right|done].
Qed.

(** [renderGrid] sends nothing either; with resources to show it draws a
    grid. *)
Lemma renderGrid_quiet cfg rev rt dateStr st :
  0 < SLOT_DURATION_MIN cfg ->
  exists res st' es,
    renderGrid cfg rev rt dateStr st = Some (res, st')
    /\ log st' = (log st ++ es)%list /\ requests es = []
    /\ same_data st st' /\ MODE st' = MODE st
    /\ datePicker st' = datePicker st /\ customerInput st' = customerInput st
    /\ (forall r rs, resources st = JArr (r :: rs) ->
          res = Ok () /\ exists g, In (ERender g) es).
Proof.
  intros Hs. unfold renderGrid, draw.
  destruct (resources st) as [v|[|r rs]|o].
  - cbn. destruct (truthy v); do 3 eexists;
      (split; [reflexivity|]); cbn [log emit setStatus];
      [split; [symmetry; apply app_nil_r|]|split; [by rewrite <- app_assoc|]];
      by repeat split.
  - cbn. do 3 eexists. split; [reflexivity|]. cbn [log emit setStatus].
    split; [by rewrite <- app_assoc|]. by repeat split.
  - destruct (generateRowTimes_returns cfg dateStr Hs) as [rows ->].
    cbn. do 3 eexists. split; [reflexivity|]. cbn [log emit setStatus].
    split; [by rewrite <- app_assoc|]. repeat split.
    eexists. by left.
  - cbn. destruct (strict_eq _ _); do 3 eexists;
      (split; [reflexivity|]); cbn [log emit setStatus];
      [split; [by rewrite <- app_assoc|]|split; [symmetry; apply app_nil_r|]];
      by repeat split.
Qed.

(** A load that has resources: what it leaves is what settling the slot
    requests left, plus the drawing (or the failure notice) in the log. *)
Lemma loadAndRender_run cfg rev rt dateStr customerId order st r rs st1
    pending st2 failed st3 :
  0 < SLOT_DURATION_MIN cfg ->
  begin_load cfg rev rt customerId st = (Ok (r :: rs), st1) ->
  issue_all cfg rev rt customerId dateStr (r :: rs) (clear_session st1) = (pending, st2) ->
  settle_all cfg rev customerId dateStr pending order None st2 = (failed, st3) ->
  exists st' es,
    loadAndRender cfg rev rt dateStr customerId order st = Some st'
    /\ log st' = (log st3 ++ es)%list /\ requests es = []
    /\ same_data st3 st' /\ MODE st' = MODE st3
    /\ resources st3 = JArr (r :: rs)
    /\ (failed = None -> exists g, In (ERender g) es)
    /\ (forall e, failed = Some e -> In (EStatus "Failed to load grid" true) es).
Proof.
  intros Hs Hb Hi Hse. unfold loadAndRender. rewrite Hb, Hi, Hse.
  assert (Hres : resources st3 = JArr (r :: rs)).
  { pose proof (settle_all_resources cfg rev customerId dateStr pending order None st2) as H3.
    rewrite Hse in H3. cbn [snd] in H3. rewrite H3.
    pose proof (issue_all_data cfg rev rt customerId dateStr (r :: rs) (clear_session st1))
      as (H2 & _).
    rewrite Hi in H2. cbn [snd] in H2. rewrite H2.
    apply begin_load_resources in Hb. exact Hb. }
  destruct failed as [e|].
  - do 2 eexists. split; [reflexivity|]. cbn [log load_failed emit setStatus].
    split; [by rewrite <- !app_assoc|]. split; [reflexivity|].
    split; [by repeat split|]. split; [reflexivity|]. split; [exact Hres|].
    split; [discriminate|]. intros _ _. cbn. tauto.
  - destruct (renderGrid_quiet cfg rev rt dateStr st3 Hs)
      as (res & st4 & es & -> & Hl & Hq & Hd & Hm & _ & _ & Hdraw).
    destruct (Hdraw r rs Hres) as (-> & g & Hg).
    cbn [mbind option_bind]. exists st4, es. split; [reflexivity|].
    split; [exact Hl|]. split; [exact Hq|]. split; [exact Hd|]. split; [exact Hm|].
    split; [exact Hres|]. split; [by eauto|discriminate].
Qed.

Lemma normalize_fixtures : map normalize_resource MOCK_resources = MOCK_resources.
Proof.
  unfold MOCK_resources. cbn [map]. unfold normalize_resource.
  repeat f_equal; apply insert_id; by vm_compute.
Qed.

(** X10. [main.js] in mock mode loads without the network: no request is
    sent, the four fixture resources are shown, a grid is drawn, and the
    mode is still ['mock'] afterwards. *)
Theorem loadAndRender_mock_mode (cfg : config) (rt : runtime) (dateStr : string)
    (customerId : val) (order : list nat) (st : state) :
  MODE st = "mock" ->
  0 < SLOT_DURATION_MIN cfg ->
  exists st',
    loadAndRender cfg MainJs rt dateStr customerId order st = Some st'
    /\ requests (log st') = requests (log st)
    /\ resources st' = JArr MOCK_resources
    /\ MODE st' = "mock"
    /\ (exists g, In (ERender g) (log st'))
    /\ (RESPECT_SERVER_REGISTERED cfg = false -> registeredSlot st' = None).
Proof.
  intros Hm Hs.
  assert (Hb : exists st1,
             begin_load cfg MainJs rt customerId st
             = (Ok (map normalize_resource MOCK_resources), st1)
             /\ MODE st1 = "mock" /\ requests (log st1) = requests (log st)).
  { unfold begin_load, fetchResources. rewrite apiGet_mock by done.
    eexists. split; [reflexivity|]. split; [reflexivity|].
    cbn. rewrite !requests_app. cbn. by rewrite !app_nil_r. }
  destruct Hb as (st1 & Hb & Hm1 & Hr1). rewrite normalize_fixtures in Hb.
  pose proof (issue_all_mock cfg rt customerId dateStr MOCK_resources
                (clear_session st1) Hm1) as Hi.
  set (pending := map (fun r => (r, Throw (Error "mock-mode"))) MOCK_resources) in *.
  destruct (settle_all cfg MainJs customerId dateStr pending order None (clear_session st1))
    as [failed st3] eqn:Hse.
  assert (Hf : failed = None).
  { assert (Hitems : forall i r o, In i order -> pending !! i = Some (r, o) ->
               is_Some (slot_items (settled_data cfg customerId dateStr (get r "ID") o))).
    { intros i r o _ Hp. unfold pending in Hp. rewrite lookup_map in Hp.
      destruct (MOCK_resources !! i); [|discriminate]. injection Hp as <- <-.
      by eexists. }
    pose proof (settle_all_no_throw cfg MainJs customerId dateStr pending order Hitems
                  None (clear_session st1)) as H.
    by rewrite Hse in H. }
  subst failed.
  destruct (loadAndRender_run cfg MainJs rt dateStr customerId order st _ _ st1
              pending (clear_session st1) None st3 Hs Hb Hi Hse)
    as (st' & es & Hload & Hl & Hq & Hd & Hm' & Hres & Hg & _).
  pose proof (settle_all_quiet cfg MainJs customerId dateStr pending order None
                (clear_session st1)) as Hq3.
  cbv zeta in Hq3. rewrite Hse in Hq3. cbn [snd] in Hq3.
  destruct Hq3 as (Hr3 & _ & _ & Hm3).
  exists st'. split; [exact Hload|].
  split.
  { rewrite Hl, requests_app, Hq, app_nil_r, Hr3. unfold clear_session.
    cbn [log set_slotsMap setStatus emit set_registeredSlot].
    rewrite requests_app, Hr1. cbn. by rewrite app_nil_r. }
  destruct Hd as (Hres' & _ & Htr & _).
  split; [by rewrite Hres', Hres|].
  split. { rewrite Hm'. destruct Hm3 as [-> | ->]; [exact Hm1|done]. }
  split. { destruct (Hg eq_refl) as [g Hin]. exists g. rewrite Hl. apply in_app_iff. by right. }
  intros Hflag. rewrite Htr.
  pose proof (settle_all_tracker_off cfg MainJs customerId dateStr pending order Hflag None
                (clear_session st1)) as H. by rewrite Hse in H.
Qed.

Lemma loadAndRender_mock_mode_witness :
  exists st',
    loadAndRender CONFIG MainJs offline "2025-11-03" (VNum 1) [0; 1; 2; 3]%nat
      (modeSelect_change "mock" blank) = Some st'
    /\ requests (log st') = requests (log (modeSelect_change "mock" blank))
    /\ resources st' = JArr MOCK_resources
    /\ MODE st' = "mock"
    /\ (exists g, In (ERender g) (log st'))
    /\ (RESPECT_SERVER_REGISTERED CONFIG = false -> registeredSlot st' = None).
Proof.
  apply (loadAndRender_mock_mode CONFIG offline "2025-11-03" (VNum 1) [0; 1; 2; 3]%nat
           (modeSelect_change "mock" blank)).
  - reflexivity.
  - simpl; lia.
Defined.

(** The head of a load whose resource request brings a list. *)
Lemma begin_load_list cfg rev rt customerId st items :
  goes_out rev st ->
  delivered (fetch_get rt (resources_url cfg customerId)) = Ok (JArr items) ->
  exists st1,
    begin_load cfg rev rt customerId st = (Ok (map normalize_resource items), st1)
    /\ log st1 = (log st ++ [EStatus "Loading resources..." false;
                             EFetch "GET" (resources_url cfg customerId) None])%list
    /\ slotsMap st1 = slotsMap st /\ registeredSlot st1 = registeredSlot st
    /\ heap st1 = heap st /\ goes_out rev st1
    /\ datePicker st1 = datePicker st /\ customerInput st1 = customerInput st.
Proof.
  intros Hout Hd. unfold begin_load, fetchResources.
  assert (Hout1 : goes_out rev (setStatus "Loading resources..." false st)).
  { destruct Hout as [|Hne]; [by left|by right]. }
  rewrite apiGet_out by done. unfold resources_url in Hd. rewrite Hd.
  eexists. split; [reflexivity|].
  split; [destruct rev; cbn; by rewrite <- app_assoc|].
  destruct rev; cbn; repeat split; try done; by left.
Qed.

(** X11. When the resource request brings a list that is not empty, a
    load sends one slot request for each resource, in the order of the
    list and each with the resource's id as a text, right after the
    resource request and before any answer is looked at; nothing else is
    sent. *)
Theorem loadAndRender_requests (cfg : config) (rev : revision) (rt : runtime)
    (dateStr : string) (customerId : val) (order : list nat) (st : state)
    (items : list obj) :
  goes_out rev st ->
  delivered (fetch_get rt (resources_url cfg customerId)) = Ok (JArr items) ->
  items <> [] ->
  0 < SLOT_DURATION_MIN cfg ->
  exists st',
    loadAndRender cfg rev rt dateStr customerId order st = Some st'
    /\ requests (log st')
       = (requests (log st)
          ++ EFetch "GET" (resources_url cfg customerId) None
             :: map (fun r => EFetch "GET"
                                (API_BASE cfg
                                 ++ "/MasterFit_APP_GetAppointment/Calender?Customer_Id="
                                 ++ to_string customerId ++ "&Date=" ++ dateStr
                                 ++ "&Resource_Id=" ++ to_string (get r "ID")) None)
                    items)%list.
Proof.
  intros Hout Hd Hne Hs.
  destruct (begin_load_list cfg rev rt customerId st items Hout Hd)
    as (st1 & Hb & Hl1 & _ & _ & _ & Hout1 & _).
  destruct items as [|r0 items0]; [done|].
  set (rs := map normalize_resource (r0 :: items0)) in *.
  assert (Hout2 : goes_out rev (clear_session st1)).
  { destruct Hout1 as [|H1]; [by left|by right]. }
  destruct (issue_all_out cfg rev rt customerId dateStr rs (clear_session st1) Hout2)
    as (st2 & Hi & Hl2 & _).
  set (pending := map (fun r => (r, delivered (fetch_get rt
                                    (slots_url cfg customerId dateStr r)))) rs) in *.
  destruct (settle_all cfg rev customerId dateStr pending order None st2)
    as [failed st3] eqn:Hse.
  destruct (loadAndRender_run cfg rev rt dateStr customerId order st
              (normalize_resource r0) (map normalize_resource items0) st1
              pending st2 failed st3 Hs Hb Hi Hse)
    as (st' & es & Hload & Hl & Hq & _).
  pose proof (settle_all_quiet cfg rev customerId dateStr pending order None st2) as Hq3.
  cbv zeta in Hq3. rewrite Hse in Hq3. cbn [snd] in Hq3. destruct Hq3 as (Hr3 & _).
  exists st'. split; [exact Hload|].
  rewrite Hl, requests_app, Hq, app_nil_r, Hr3, Hl2. unfold clear_session.
  cbn [log set_slotsMap setStatus emit set_registeredSlot].
  rewrite Hl1, !requests_app. cbn [requests List.filter is_request app].
  rewrite <- !app_assoc. cbn [app]. do 2 f_equal.
  unfold rs. rewrite map_map. clear.
  generalize (r0 :: items0). intros l. induction l as [|r l IH]; [done|].
  cbn [map List.filter requests]. cbn [is_request]. f_equal; [|exact IH].
  f_equal. unfold slots_url, slots_path, normalize_resource, get.
  by rewrite lookup_insert.
Qed.

Lemma loadAndRender_requests_witness :
  exists st',
    loadAndRender CONFIG MainJs double_booked "2025-11-03" (VNum 1) [0%nat] blank = Some st'
    /\ requests (log st')
       = (requests (log blank)
          ++ EFetch "GET" (resources_url CONFIG (VNum 1)) None
             :: map (fun r => EFetch "GET"
                                (API_BASE CONFIG
                                 ++ "/MasterFit_APP_GetAppointment/Calender?Customer_Id="
                                 ++ to_string (VNum 1) ++ "&Date=" ++ "2025-11-03"
                                 ++ "&Resource_Id=" ++ to_string (get r "ID")) None)
                    [room])%list.
Proof.
  apply (loadAndRender_requests CONFIG MainJs double_booked "2025-11-03" (VNum 1)
           [0%nat] blank [room]).
  - right. discriminate.
  - reflexivity.
  - discriminate.
  - simpl; lia.
Defined.

(** X12. When the resource request brings an answer without resources
    (an empty list, [null], or something that is not a list at all), the
    load stops there: no slot request is sent, and the repository, the
    tracker and the slot objects stay as they were.  An empty list or
    [null] is reported as "No resources returned"; anything else is a type
    error, reported as "Failed to load grid", and stays in [resources]. *)
Theorem loadAndRender_without_resources (cfg : config) (rev : revision) (rt : runtime)
    (dateStr : string) (customerId : val) (order : list nat) (st : state) (j : json) :
  goes_out rev st ->
  delivered (fetch_get rt (resources_url cfg customerId)) = Ok j ->
  (forall r rs, j <> JArr (r :: rs)) ->
  exists st',
    loadAndRender cfg rev rt dateStr customerId order st = Some st'
    /\ slotsMap st' = slotsMap st /\ registeredSlot st' = registeredSlot st
    /\ heap st' = heap st
    /\ requests (log st')
       = (requests (log st) ++ [EFetch "GET" (resources_url cfg customerId) None])%list
    /\ last (log st') = Some ENoData
    /\ (if no_list j
        then resources st' = j
             /\ In (EStatus "Failed to load grid" true) (log st')
             /\ In (EConsole TypeError) (log st')
        else resources st' = JArr []
             /\ In (EStatus "No resources returned" true) (log st')).
Proof.
  intros Hout Hd Hj. unfold loadAndRender, begin_load, fetchResources.
  assert (Hout1 : goes_out rev (setStatus "Loading resources..." false st)).
  { destruct Hout as [|Hne]; [by left|by right]. }
  rewrite apiGet_out by done. unfold resources_url in Hd |- *. rewrite Hd.
  destruct j as [v|[|r rs]|o].
  - cbn [no_list]. destruct (truthy v) eqn:Hv;
      (eexists; split; [reflexivity|]);
      destruct rev; cbn; rewrite !requests_app; cbn; rewrite ?app_nil_r, ?last_snoc;
      repeat split; rewrite ?in_app_iff; cbn; tauto.
  - cbn [no_list map].
    eexists. split; [reflexivity|].
    destruct rev; cbn; rewrite !requests_app; cbn; rewrite ?app_nil_r, ?last_snoc;
      repeat split; rewrite ?in_app_iff; cbn; tauto.
  - by destruct (Hj r rs).
  - cbn [no_list].
    eexists. split; [reflexivity|].
    destruct rev; cbn; rewrite !requests_app; cbn; rewrite ?app_nil_r, ?last_snoc;
      repeat split; rewrite ?in_app_iff; cbn; tauto.
Qed.

Lemma loadAndRender_without_resources_witness :
  exists st',
    loadAndRender CONFIG WithUpdate complaining "2025-11-03" (VNum 1) [] registered
    = Some st'
    /\ slotsMap st' = slotsMap registered /\ registeredSlot st' = registeredSlot registered
    /\ heap st' = heap registered
    /\ requests (log st')
       = (requests (log registered)
          ++ [EFetch "GET" (resources_url CONFIG (VNum 1)) None])%list
    /\ last (log st') = Some ENoData
    /\ (if no_list (JObj (object [("result", VStr "failed");
                                  ("msg_en", VStr "Invalid Data")]))
        then resources st' = JObj (object [("result", VStr "failed");
                                           ("msg_en", VStr "Invalid Data")])
             /\ In (EStatus "Failed to load grid" true) (log st')
             /\ In (EConsole TypeError) (log st')
        else resources st' = JArr []
             /\ In (EStatus "No resources returned" true) (log st')).
Proof.
  apply (loadAndRender_without_resources CONFIG WithUpdate complaining "2025-11-03"
           (VNum 1) [] registered).
  - by left.
  - reflexivity.
  - discriminate.
Defined.

(** X15. When the resource request gets no body, the load goes on with
    the four fixture resources.  In [main.js] the mode is ['mock'] from
    then on, no slot request is sent and the grid is drawn from the
    fixtures; the later revision forces the mode back to live and sends a
    slot request for each fixture resource. *)
Theorem loadAndRender_resource_failure (cfg : config) (rev : revision) (rt : runtime)
    (dateStr : string) (customerId : val) (order : list nat) (st : state) :
  goes_out rev st ->
  transport_fails (fetch_get rt (resources_url cfg customerId)) ->
  0 < SLOT_DURATION_MIN cfg ->
  exists st',
    loadAndRender cfg rev rt dateStr customerId order st = Some st'
    /\ resources st' = JArr MOCK_resources
    /\ In (EStore "mode" "mock") (log st')
    /\ requests (log st')
       = (requests (log st)
          ++ EFetch "GET" (resources_url cfg customerId) None
             :: match rev with
                | MainJs => []
                | WithUpdate =>
                    map (fun r => EFetch "GET" (slots_url cfg customerId dateStr r) None)
                        MOCK_resources
                end)%list
    /\ (rev = MainJs -> MODE st' = "mock" /\ exists g, In (ERender g) (log st')).
Proof.
  intros Hout Hf Hs.
  destruct (transport_fails_delivered _ Hf) as [e He].
  assert (Hout1 : goes_out rev (setStatus "Loading resources..." false st)).
  { destruct Hout as [|Hne]; [by left|by right]. }
  assert (Hb : exists st1,
             begin_load cfg rev rt customerId st
             = (Ok (map normalize_resource MOCK_resources), st1)
             /\ MODE st1 = "mock"
             /\ log st1 = (log st ++ [EStatus "Loading resources..." false;
                                      EFetch "GET" (resources_url cfg customerId) None;
                                      EConsole e; EStore "mode" "mock"])%list).
  { unfold begin_load, fetchResources. rewrite apiGet_out by done.
    unfold resources_url in He |- *. rewrite He.
    eexists. split; [reflexivity|]. split; [reflexivity|].
    destruct rev; cbn; by rewrite <- !app_assoc. }
  destruct Hb as (st1 & Hb & Hm1 & Hl1). rewrite normalize_fixtures in Hb.
  assert (Hi : exists pending st2,
             issue_all cfg rev rt customerId dateStr MOCK_resources (clear_session st1)
             = (pending, st2)
             /\ log st2
                = (log (clear_session st1)
                   ++ match rev with
                      | MainJs => []
                      | WithUpdate =>
                          map (fun r => EFetch "GET" (slots_url cfg customerId dateStr r) None)
                              MOCK_resources
                      end)%list
             /\ (rev = MainJs ->
                 MODE st2 = "mock"
                 /\ pending = map (fun r => (r, Throw (Error "mock-mode"))) MOCK_resources)).
  { destruct rev.
    - rewrite issue_all_mock by done. do 2 eexists. split; [reflexivity|].
      split; [by rewrite app_nil_r|done].
    - destruct (issue_all_out cfg WithUpdate rt customerId dateStr MOCK_resources
                  (clear_session st1) ltac:(by left)) as (st2 & -> & Hl2 & _).
      do 2 eexists. split; [reflexivity|]. split; [exact Hl2|discriminate]. }
  destruct Hi as (pending & st2 & Hi & Hl2 & Hmain).
  destruct (settle_all cfg rev customerId dateStr pending order None st2)
    as [failed st3] eqn:Hse.
  pose proof Hb as Hb'. pose proof Hi as Hi'. unfold MOCK_resources in Hb', Hi'.
  destruct (loadAndRender_run cfg rev rt dateStr customerId order st _ _ st1
              pending st2 failed st3 Hs Hb' Hi' Hse)
    as (st' & es & Hload & Hl & Hq & (Hres' & _) & Hm' & Hres & Hg & _).
  clear Hb' Hi'.
  pose proof (settle_all_quiet cfg rev customerId dateStr pending order None st2) as Hq3.
  cbv zeta in Hq3. rewrite Hse in Hq3. cbn [snd] in Hq3.
  destruct Hq3 as (Hr3 & _ & _ & Hm3).
  assert (Hmono : forall ev, In ev (log st2) -> In ev (log st')).
  { intros ev Hev. rewrite Hl. apply in_app_iff. left.
    pose proof (settle_all_grows cfg rev customerId dateStr pending order None st2) as Hgr.
    rewrite Hse in Hgr. cbn [snd] in Hgr. destruct Hgr as [es3 ->].
    apply in_app_iff. by left. }
  exists st'. split; [exact Hload|]. split; [by rewrite Hres', Hres|].
  split.
  { apply Hmono. rewrite Hl2. apply in_app_iff. left. unfold clear_session.
    cbn [log set_slotsMap setStatus emit set_registeredSlot]. rewrite Hl1.
    rewrite !in_app_iff. cbn. tauto. }
  split.
  { rewrite Hl, requests_app, Hq, app_nil_r, Hr3, Hl2. unfold clear_session.
    cbn [log set_slotsMap setStatus emit set_registeredSlot].
    rewrite Hl1, !requests_app. cbn [requests List.filter is_request app].
    rewrite <- !app_assoc. cbn [app]. do 2 f_equal.
    destruct rev; [done|]. clear. by vm_compute. }
  intros ->. destruct (Hmain eq_refl) as [Hm2 ->].
  split.
  { rewrite Hm'. destruct Hm3 as [-> | ->]; done. }
  assert (Hfl : failed = None).
  { assert (Hitems : forall i r o, In i order ->
               map (fun r => (r, Throw (Error "mock-mode"))) MOCK_resources !! i
               = Some (r, o) ->
               is_Some (slot_items (settled_data cfg customerId dateStr (get r "ID") o))).
    { intros i r o _ Hp. rewrite lookup_map in Hp.
      destruct (MOCK_resources !! i); [|discriminate]. injection Hp as <- <-.
      by eexists. }
    pose proof (settle_all_no_throw cfg MainJs customerId dateStr _ order Hitems
                  None st2) as H.
    by rewrite Hse in H. }
  destruct (Hg Hfl) as [g Hin]. exists g. rewrite Hl. apply in_app_iff. by right.
Qed.

Lemma loadAndRender_resource_failure_witness :
  exists st',
    loadAndRender CONFIG WithUpdate offline "2025-11-03" (VNum 1) [0; 1; 2; 3]%nat blank
    = Some st'
    /\ resources st' = JArr MOCK_resources
    /\ In (EStore "mode" "mock") (log st')
    /\ requests (log st')
       = (requests (log blank)
          ++ EFetch "GET" (resources_url CONFIG (VNum 1)) None
             :: match WithUpdate with
                | MainJs => []
                | WithUpdate =>
                    map (fun r => EFetch "GET" (slots_url CONFIG (VNum 1) "2025-11-03" r) None)
                        MOCK_resources
                end)%list
    /\ (WithUpdate = MainJs -> MODE st' = "mock" /\ exists g, In (ERender g) (log st')).
Proof.
  apply (loadAndRender_resource_failure CONFIG WithUpdate offline "2025-11-03" (VNum 1)
           [0; 1; 2; 3]%nat blank).
  - by left.
  - exact I.
  - simpl; lia.
Defined.

(** ** What a load leaves in the repository *)

Lemma deref_fresh (h c : list obj) :
  map (fun l => default ∅ ((h ++ c)%list !! l)) (seq (length h) (length c)) = c.
Proof.
  revert h. induction c as [|x c IH]; intros h; [done|].
  cbn [length seq map]. f_equal.
  - by rewrite list_lookup_middle.
  - specialize (IH (h ++ [x])%list). rewrite <- app_assoc in IH. cbn [app] in IH.
    rewrite length_app in IH. cbn [length] in IH.
    by replace (length h + 1)%nat with (S (length h)) in IH by lia.
Qed.

Section Repository.

Variable cfg : config.
Variable rev : revision.
Variable customerId : val.
Variable dateStr : string.
Variable pending : list (obj * outcome json).

(** One request settles. *)
Lemma stored_step h0 seen st i r o :
  pending !! i = Some (r, o) ->
  stored cfg rev customerId dateStr pending h0 seen st ->
  let st1 := snd (slots_settled cfg customerId dateStr (get r "ID") o st) in
  let st2 := snd (store_slots cfg rev customerId r
                    (settled_data cfg customerId dateStr (get r "ID") o) st1) in
  stored cfg rev customerId dateStr pending h0 (seen ++ [i]) st2
  /\ exists added, heap st2 = (heap st ++ added)%list.
Proof.
  intros Hi (Hh & Hall & Hdis & Hin). cbv zeta. unfold slots_settled. cbn [snd].
  set (st1 := match checked o with Ok _ => st | Throw e => fall_back_to_mock e st end).
  assert (H1 : heap st1 = heap st /\ slotsMap st1 = slotsMap st)
    by (unfold st1; by destruct (checked o)).
  destruct H1 as [Hh1 Hm1].
  unfold store_slots.
  destruct (slot_items (settled_data cfg customerId dateStr (get r "ID") o))
    as [items|] eqn:Hitems; cbn [snd].
  - set (copies := map (copy_slot rev r) items).
    set (k0 := to_string (get r "ID")).
    set (st2 := if RESPECT_SERVER_REGISTERED cfg then _ else _).
    assert (H2 : heap st2 = (heap st ++ copies)%list
                 /\ slotsMap st2 = <[k0 := seq (length (heap st)) (length copies)]>
                                     (slotsMap st)).
    { unfold st2. destruct (RESPECT_SERVER_REGISTERED cfg); cbn; by rewrite Hh1, Hm1. }
    destruct H2 as [Hh2 Hm2].
    assert (Hold : forall k arr, slotsMap st !! k = Some arr ->
              forall l, In l arr -> (l < length (heap st))%nat).
    { intros k arr Hk l Hl. destruct (Hall k arr Hk) as (b & _ & _ & _ & _ & E & _ & Hb & _).
      rewrite E in Hl. apply in_seq in Hl. lia. }
    split; [|by eexists].
    split; [rewrite Hh2, length_app; lia|]. split; [|split].
    + intros k arr. rewrite Hm2. destruct (decide (k = k0)) as [->|Hne].
      * rewrite lookup_insert_eq. intros [= <-].
        exists (length (heap st)), i, r, o, items. rewrite length_seq.
        split; [done|]. split; [lia|]. split; [rewrite Hh2, length_app; lia|].
        split; [apply in_app_iff; right; by left|]. split; [done|]. split; [done|].
        split; [done|]. unfold deref. rewrite Hh2. apply deref_fresh.
      * rewrite lookup_insert_ne by done. intros Hk.
        destruct (Hall k arr Hk) as (b & i' & r' & o' & items' & E & Hb0 & Hb & Hs & Hp & Hkk
                                     & Hit & Hmap).
        exists b, i', r', o', items'. split; [done|]. split; [done|].
        split; [rewrite Hh2, length_app; lia|].
        split; [apply in_app_iff; by left|]. split; [done|]. split; [done|].
        split; [done|]. rewrite <- Hmap. apply map_ext_in. intros l Hl.
        unfold deref. rewrite Hh2, lookup_app_l; [done|]. by eapply Hold.
    + intros k1 k2 a1 a2 l Hne. rewrite Hm2.
      destruct (decide (k1 = k0)) as [->|H1]; destruct (decide (k2 = k0)) as [->|H2];
        try done; rewrite ?lookup_insert_eq, ?lookup_insert_ne by done.
      * intros [= <-] Hk2 Hl1%in_seq Hl2. pose proof (Hold k2 a2 Hk2 l Hl2). lia.
      * intros Hk1 [= <-] Hl1 Hl2%in_seq. pose proof (Hold k1 a1 Hk1 l Hl1). lia.
      * apply Hdis. done.
    + intros i' r' o' items' [Hs|[<-|[]]]%in_app_iff Hp Hit; rewrite Hm2.
      * destruct (decide (to_string (get r' "ID") = k0)) as [->|Hne].
        -- rewrite lookup_insert_eq. by eexists.
        -- rewrite lookup_insert_ne by done. by eapply Hin.
      * rewrite Hi in Hp. injection Hp as <- <-. fold k0. rewrite lookup_insert_eq.
        by eexists.
  - split; [|exists []; by rewrite app_nil_r].
    split; [by rewrite Hh1|]. split; [|split].
    + intros k arr. rewrite Hm1. intros Hk.
      destruct (Hall k arr Hk) as (b & i' & r' & o' & items' & E & Hb0 & Hb & Hs & Hp & Hkk
                                   & Hit & Hmap).
      exists b, i', r', o', items'. rewrite Hh1. split; [done|]. split; [done|].
      split; [done|]. split; [apply in_app_iff; by left|].
      split; [done|]. split; [done|]. split; [done|].
      rewrite <- Hmap. unfold deref. by rewrite Hh1.
    + intros k1 k2 a1 a2 l. rewrite Hm1. apply Hdis.
    + intros i' r' o' items' [Hs|[<-|[]]]%in_app_iff Hp Hit; rewrite Hm1.
      * by eapply Hin.
      * rewrite Hi in Hp. injection Hp as <- <-. congruence.
Qed.

(** All of them settle. *)
Lemma stored_settle_all h0 order :
  forall seen failed st,
    stored cfg rev customerId dateStr pending h0 seen st ->
    let st' := snd (settle_all cfg rev customerId dateStr pending order failed st) in
    (exists seen', stored cfg rev customerId dateStr pending h0 seen' st'
                   /\ forall i, In i seen' <-> In i seen \/ (In i order /\ is_Some (pending !! i)))
    /\ exists added, heap st' = (heap st ++ added)%list.
Proof.
  induction order as [|i order IH]; intros seen failed st Hst; cbv zeta.
  - cbn. split; [|exists []; by rewrite app_nil_r].
    exists seen. split; [done|]. intros i. tauto.
  - cbn [settle_all]. destruct (pending !! i) as [[r o]|] eqn:Hi.
    + destruct (stored_step h0 seen st i r o Hi Hst) as [Hst2 [added2 Hh2]].
      cbv zeta in Hst2, Hh2. unfold slots_settled in *. cbn [snd] in *.
      set (st1 := match checked o with Ok _ => st | Throw e => fall_back_to_mock e st end) in *.
      destruct (store_slots cfg rev customerId r _ st1) as [[[]|e] st2]; cbn [snd] in *.
      * destruct (IH (seen ++ [i])%list failed st2 Hst2) as [(seen' & Hs' & Hiff) [added3 Hh3]].
        split.
        -- exists seen'. split; [done|]. intros j. rewrite Hiff, in_app_iff. cbn.
           split; [intros [[?|[<-|[]]]|[? ?]]|intros [?|[[<-|?] ?]]]; eauto 6.
        -- exists (added2 ++ added3)%list. by rewrite Hh3, Hh2, app_assoc.
      * destruct (IH (seen ++ [i])%list
                    (match failed with Some e0 => Some e0 | None => Some e end) st2 Hst2)
          as [(seen' & Hs' & Hiff) [added3 Hh3]].
        split.
        -- exists seen'. split; [done|]. intros j. rewrite Hiff, in_app_iff. cbn.
           split; [intros [[?|[<-|[]]]|[? ?]]|intros [?|[[<-|?] ?]]]; eauto 6.
        -- exists (added2 ++ added3)%list. by rewrite Hh3, Hh2, app_assoc.
    + destruct (IH seen failed st Hst) as [(seen' & Hs' & Hiff) Hadd].
      split; [|exact Hadd]. exists seen'. split; [done|]. intros j. rewrite Hiff. cbn.
      split; [intros [?|[? ?]]; eauto|intros [?|[[<-|?] Hsome]]; eauto].
      rewrite Hi in Hsome. by destruct Hsome.
Qed.

End Repository.

Lemma apiGet_data cfg rev rt path st :
  same_data st (snd (apiGet cfg rev rt path st)).
Proof.
  unfold apiGet. destruct rev; cbn [MODE set_MODE];
    repeat match goal with
           | |- context [if ?b then _ else _] => destruct b
           | |- context [match ?x with _ => _ end] => destruct x
           end; by repeat split.
Qed.

Lemma begin_load_store cfg rev rt customerId st res st1 :
  begin_load cfg rev rt customerId st = (res, st1) ->
  heap st1 = heap st /\ slotsMap st1 = slotsMap st /\ registeredSlot st1 = registeredSlot st.
Proof.
  unfold begin_load, fetchResources.
  pose proof (apiGet_data cfg rev rt
                ("/MasterFit_Calender_Get_Appt_Resource_Nutration?Customer_Id="
                 ++ to_string customerId)
                (setStatus "Loading resources..." false st)) as (_ & Hm & Ht & Hh & _).
  destruct (apiGet cfg rev rt _ _) as [[data|e] st0]; cbn [snd] in *.
  - destruct data as [v|items|o]; [destruct (truthy v)| |]; intros [= <- <-]; cbn;
      by rewrite Hm, Ht, Hh.
  - intros [= <- <-]. cbn. by rewrite Hm, Ht, Hh.
Qed.

Lemma load_pending_inv cfg rev rt dateStr customerId st pending :
  load_pending cfg rev rt dateStr customerId st = Some pending ->
  exists r rs st1,
    begin_load cfg rev rt customerId st = (Ok (r :: rs), st1)
    /\ pending = fst (issue_all cfg rev rt customerId dateStr (r :: rs) (clear_session st1)).
Proof.
  unfold load_pending. destruct (begin_load cfg rev rt customerId st) as [[[|r rs]|e] st1];
    try discriminate.
  intros [= <-]. by exists r, rs, st1.
Qed.

(** A load that asks for slots returns and leaves the repository as the
    settled requests filled it. *)
Lemma loadAndRender_stored cfg rev rt dateStr customerId order st pending :
  load_pending cfg rev rt dateStr customerId st = Some pending ->
  0 < SLOT_DURATION_MIN cfg ->
  exists st' added seen,
    loadAndRender cfg rev rt dateStr customerId order st = Some st'
    /\ heap st' = (heap st ++ added)%list
    /\ stored cfg rev customerId dateStr pending (length (heap st)) seen st'
    /\ forall i, In i seen <-> In i order /\ is_Some (pending !! i).
Proof.
  intros Hp Hs.
  destruct (load_pending_inv _ _ _ _ _ _ _ Hp) as (r & rs & st1 & Hb & Hpend).
  destruct (begin_load_store _ _ _ _ _ _ _ Hb) as (Hh1 & _).
  pose proof (issue_all_data cfg rev rt customerId dateStr (r :: rs) (clear_session st1))
    as (_ & Hm2 & _ & Hh2 & _).
  destruct (issue_all cfg rev rt customerId dateStr (r :: rs) (clear_session st1))
    as [pending' st2] eqn:Hi. cbn [fst snd] in *. subst pending'.
  assert (Hst : stored cfg rev customerId dateStr pending (length (heap st)) [] st2).
  { split; [rewrite Hh2; cbn; by rewrite Hh1|].
    split; [intros k arr; rewrite Hm2; cbn; by rewrite lookup_empty|].
    split; [intros k1 k2 a1 a2 l _; rewrite Hm2; cbn; by rewrite lookup_empty|].
    by intros i r' o items []. }
  pose proof (stored_settle_all cfg rev customerId dateStr pending (length (heap st))
                order [] None st2 Hst) as Hfin.
  cbv zeta in Hfin.
  destruct (settle_all cfg rev customerId dateStr pending order None st2)
    as [failed st3] eqn:Hse. cbn [snd] in Hfin.
  destruct Hfin as [(seen & Hst3 & Hiff) [added Hh3]].
  destruct (loadAndRender_run cfg rev rt dateStr customerId order st r rs st1
              pending st2 failed st3 Hs Hb Hi Hse)
    as (st' & es & Hload & _ & _ & (_ & Hm' & _ & Hh' & _) & _).
  exists st', added, seen. split; [exact Hload|].
  split; [rewrite Hh', Hh3, Hh2; cbn; by rewrite Hh1|].
  split.
  - destruct Hst3 as (A & B & C & D). unfold stored, deref. rewrite Hm', Hh'.
    by repeat split.
  - intros i. rewrite Hiff. cbn. tauto.
Qed.

(** X13. A load that asks for slots fills the repository with objects of
    its own: the objects that were there before are still in the heap,
    unchanged, but every list of the repository is a run of distinct
    locations allocated by this load, and lists under different resource
    ids share no object. *)
Theorem loadAndRender_fresh (cfg : config) (rev : revision) (rt : runtime)
    (dateStr : string) (customerId : val) (order : list nat) (st : state)
    (pending : list (obj * outcome json)) :
  load_pending cfg rev rt dateStr customerId st = Some pending ->
  0 < SLOT_DURATION_MIN cfg ->
  exists st' added,
    loadAndRender cfg rev rt dateStr customerId order st = Some st'
    /\ heap st' = (heap st ++ added)%list
    /\ (forall k arr, slotsMap st' !! k = Some arr ->
          NoDup arr
          /\ Forall (fun l => (length (heap st) <= l < length (heap st'))%nat) arr)
    /\ (forall k1 k2 a1 a2 l,
          k1 <> k2 -> slotsMap st' !! k1 = Some a1 -> slotsMap st' !! k2 = Some a2 ->
          In l a1 -> In l a2 -> False).
Proof.
  intros Hp Hs.
  destruct (loadAndRender_stored cfg rev rt dateStr customerId order st pending Hp Hs)
    as (st' & added & seen & Hload & Hh & (_ & Hall & Hdis & _) & _).
  exists st', added. split; [exact Hload|]. split; [exact Hh|]. split; [|exact Hdis].
  intros k arr Hk. destruct (Hall k arr Hk) as (b & _ & _ & _ & _ & E & Hb0 & Hb & _).
  rewrite E. split; [apply NoDup_ListNoDup, seq_NoDup|].
  apply List.Forall_forall. intros l Hl%in_seq. lia.
Qed.

(** X14. After such a load the repository holds, under the id of every
    resource whose request has settled with a list, the copies of that
    list in order (the fixture list, or none, when the read failed); and
    it holds nothing else. *)
Theorem loadAndRender_stores (cfg : config) (rev : revision) (rt : runtime)
    (dateStr : string) (customerId : val) (order : list nat) (st : state)
    (pending : list (obj * outcome json)) :
  load_pending cfg rev rt dateStr customerId st = Some pending ->
  0 < SLOT_DURATION_MIN cfg ->
  exists st',
    loadAndRender cfg rev rt dateStr customerId order st = Some st'
    /\ (forall i r o items,
          In i order -> pending !! i = Some (r, o) ->
          slot_items (settled_data cfg customerId dateStr (get r "ID") o) = Some items ->
          is_Some (slotsMap st' !! to_string (get r "ID")))
    /\ (forall k arr, slotsMap st' !! k = Some arr ->
          exists i r o items,
            In i order /\ pending !! i = Some (r, o)
            /\ k = to_string (get r "ID")
            /\ slot_items (settled_data cfg customerId dateStr (get r "ID") o) = Some items
            /\ map (deref st') arr = map (copy_slot rev r) items).
Proof.
  intros Hp Hs.
  destruct (loadAndRender_stored cfg rev rt dateStr customerId order st pending Hp Hs)
    as (st' & added & seen & Hload & Hh & (_ & Hall & _ & Hin) & Hiff).
  exists st'. split; [exact Hload|]. split.
  - intros i r o items Hi Hpi Hit. eapply Hin; [|exact Hpi|exact Hit].
    apply Hiff. split; [done|]. by rewrite Hpi.
  - intros k arr Hk.
    destruct (Hall k arr Hk) as (b & i & r & o & items & _ & _ & _ & Hs' & Hpi & Hkk & Hit & Hmap).
    exists i, r, o, items. split; [by apply Hiff in Hs' as [? _]|]. done.
Qed.

Lemma loadAndRender_fresh_witness :
  exists st' added,
    loadAndRender CONFIG WithUpdate double_booked "2025-11-03" (VNum 1) [0%nat] registered
    = Some st'
    /\ heap st' = (heap registered ++ added)%list
    /\ (forall k arr, slotsMap st' !! k = Some arr ->
          NoDup arr
          /\ Forall (fun l => (length (heap registered) <= l < length (heap st'))%nat) arr)
    /\ (forall k1 k2 a1 a2 l,
          k1 <> k2 -> slotsMap st' !! k1 = Some a1 -> slotsMap st' !! k2 = Some a2 ->
          In l a1 -> In l a2 -> False).
Proof.
  apply (loadAndRender_fresh CONFIG WithUpdate double_booked "2025-11-03" (VNum 1)
           [0%nat] registered double_pending).
  - vm_compute. reflexivity.
  - simpl; lia.
Defined.

Lemma loadAndRender_stores_witness :
  exists st',
    loadAndRender CONFIG WithUpdate double_booked "2025-11-03" (VNum 1) [0%nat] blank
    = Some st'
    /\ (forall i r o items,
          In i [0%nat] -> double_pending !! i = Some (r, o) ->
          slot_items (settled_data CONFIG (VNum 1) "2025-11-03" (get r "ID") o)
          = Some items ->
          is_Some (slotsMap st' !! to_string (get r "ID")))
    /\ (forall k arr, slotsMap st' !! k = Some arr ->
          exists i r o items,
            In i [0%nat] /\ double_pending !! i = Some (r, o)
            /\ k = to_string (get r "ID")
            /\ slot_items (settled_data CONFIG (VNum 1) "2025-11-03" (get r "ID") o)
               = Some items
            /\ map (deref st') arr = map (copy_slot WithUpdate r) items).
Proof.
  apply (loadAndRender_stores CONFIG WithUpdate double_booked "2025-11-03" (VNum 1)
           [0%nat] blank double_pending).
  - vm_compute. reflexivity.
  - simpl; lia.
Defined.

(** ** Which slots a grid shows *)




Lemma draw_cell cfg rev rt dateStr st g n dt cells el :
  draw cfg rev rt dateStr st = Some (DrawGrid g n) ->
  In (dt, cells) g -> In (Some el) cells ->
  exists rows,
    generateRowTimes cfg dateStr = Some rows /\ In dt rows
    /\ List.find (starts_at rt st dt)
         (default [] (slotsMap st !! to_string (get (el_resource el) "ID")))
       = Some (el_slot el).
Proof.
  unfold draw. destruct (resources st) as [v|[|r rs]|o]; try done.
  - by destruct (truthy v).
  - destruct (generateRowTimes cfg dateStr) as [rows|]; [|done].
    cbn [mbind option_bind]. intros [= <- _].
    intros [dt' [[= <- <-] Hdt]]%in_map_iff Hcell.
    apply (in_map_iff (render_cell cfg rev rt st dt') (r :: rs)) in Hcell as [r' [Hc _]].
    exists rows. split; [done|]. split; [done|].
    unfold render_cell in Hc.
    destruct (List.find _ _) as [l|] eqn:Hfind; [|done]. injection Hc as <-.
    exact Hfind.
  - by destruct (strict_eq _ _).
Qed.


Lemma find_after {A} (p : A -> bool) (pre post : list A) (x y : A) :
  p x = true -> List.find p (pre ++ x :: post) = Some y -> In y (pre ++ [x]).
Proof.
  intros Hx. induction pre as [|a pre IH]; cbn.
  - rewrite Hx. intros [= <-]. by left.
  - destruct (p a); [intros [= <-]; by left|]. intros H. right. by apply IH.
Qed.

(** X17. Of two slots of a resource that start in the same minute, only
    the one that comes first in the resource's list can be shown: the
    later one is in no cell of that resource's column. *)
Theorem renderGrid_first_slot_wins (cfg : config) (rev : revision) (rt : runtime)
    (dateStr : string) (st : state) (g : grid) (n : nat)
    (k : string) (pre post : list loc) (l1 l2 : loc) :
  draw cfg rev rt dateStr st = Some (DrawGrid g n) ->
  slotsMap st !! k = Some (pre ++ l1 :: post)%list ->
  ~ In l2 (pre ++ [l1]) ->
  Date_of rt (prop st l1 "TimeFrom") = Date_of rt (prop st l2 "TimeFrom") ->
  forall dt cells el,
    In (dt, cells) g -> In (Some el) cells ->
    to_string (get (el_resource el) "ID") = k ->
    el_slot el <> l2.
Proof.
  intros Hdraw Hk Hnot Hsame dt cells el Hrow Hcell Hid Heq.
  destruct (draw_cell cfg rev rt dateStr st g n dt cells el Hdraw Hrow Hcell)
    as (rows & _ & _ & Hfind).
  rewrite Hid, Hk, Heq in Hfind. cbn [default] in Hfind.
  pose proof Hfind as Hfind'. apply find_some in Hfind' as [_ H2].
  assert (H1 : starts_at rt st dt l1 = true).
  { revert H2. unfold starts_at. by rewrite Hsame. }
  by apply (find_after _ _ _ _ _ H1) in Hfind.
Qed.


Lemma renderGrid_first_slot_wins_witness :
  exists dt cells el,
    In (dt, cells) (grid_of (draw CONFIG MainJs offline "2025-11-03" crowded))
    /\ In (Some el) cells
    /\ to_string (get (el_resource el) "ID") = "1"
    /\ el_slot el <> 1%nat.
Proof.
  assert (Hg : exists dt el,
             nth_error (grid_of (draw CONFIG MainJs offline "2025-11-03" crowded)) 2
             = Some (dt, [Some el])
             /\ to_string (get (el_resource el) "ID") = "1").
  { vm_compute. eexists _, _. split; reflexivity. }
  destruct Hg as (dt & el & Hrow & Hid).
  assert (Hin : In (dt, [Some el])
                   (grid_of (draw CONFIG MainJs offline "2025-11-03" crowded))).
  { eapply nth_error_In, Hrow. }
  exists dt, [Some el], el.
  split; [exact Hin|]. split; [by left|]. split; [exact Hid|].
  apply (renderGrid_first_slot_wins CONFIG MainJs offline "2025-11-03" crowded
           (grid_of (draw CONFIG MainJs offline "2025-11-03" crowded)) 1
           "1" [] [1%nat] 0%nat 1%nat) with (dt := dt) (cells := [Some el]).
  - vm_compute. reflexivity.
  - reflexivity.
  - cbn. intros [H|[]]. discriminate.
  - reflexivity.
  - exact Hin.
  - by left.
  - exact Hid.
Defined.

Example crowded_grid :
  map (fun row => map (option_map el_slot) (snd row))
      (take 4 (grid_of (draw CONFIG MainJs offline "2025-11-03" crowded)))
  = [[None]; [None]; [Some 0%nat]; [None]].
Proof. vm_compute. reflexivity. Qed.

(** *** A date text that is not a date *)






(** ** The dialogs *)

(** X18. In [main.js] confirming the update dialog moves the registration
    without any request: the tracker takes the clicked slot's appointment
    id, the clicked resource's id and the slot's times, the slot gets the
    customer as its [Register_Id], the dialog closes, the grid of the
    resulting state is drawn and the last thing the user sees is the
    "updated" alert.  When the dialog was opened by a click on this slot
    while the tracker held a registration with an appointment id, the
    repository slot of that registration has lost its [Register_Id].
    Nothing but [Register_Id] changes on any slot. *)
Theorem handleModalConfirm_moves (cfg : config) (rt : runtime) (ctx : modal_ctx)
    (st : state) (r : obj) (rs : list obj) :
  0 < SLOT_DURATION_MIN cfg ->
  resources st = JArr (r :: rs) ->
  is_Some (heap st !! slot ctx) ->
  exists st' g,
    handleModalConfirm cfg MainJs rt "update" ctx st = Some st'
    /\ frame ["Register_Id"] st st'
    /\ registeredSlot st'
       = Some {| Appoitment_Id := prop st (slot ctx) "Appoitment_Id";
                 Resource_Id := get (resource ctx) "ID";
                 TimeFrom := prop st (slot ctx) "TimeFrom";
                 TimeTo := prop st (slot ctx) "TimeTo" |}
    /\ prop st' (slot ctx) "Register_Id" = customerId ctx
    /\ modalContext st' = None
    /\ requests (log st') = requests (log st)
    /\ last (log st') = Some (EAlert "Appointment updated (mock).")
    /\ In (ERender g) (log st')
    /\ draw cfg MainJs rt (picked_date rt st') st' = Some (DrawGrid g (S (length rs)))
    /\ (forall res o p,
          onSlotClick cfg MainJs (slot ctx) res st = openModal "update" ctx st ->
          registeredSlot st = Some o -> truthy (Appoitment_Id o) = true ->
          find_prev st o = Some p ->
          deref st' p !! "Register_Id" = None).
Proof.
  intros Hs Hres Hl. unfold handleModalConfirm.
  change (String.eqb "update" "register") with false.
  change (String.eqb "update" "update") with true. cbv iota.
  destruct (unregister_previous_frame (old ctx) st) as (F1 & R1 & L1 & D1).
  set (s1 := unregister_previous (old ctx) st) in *.
  set (s2 := set_prop (slot ctx) "Register_Id" (customerId ctx) s1).
  assert (F2 : frame ["Register_Id"] st s2)
    by (eapply frame_trans; [exact F1|apply frame_set_prop; by left]).
  pose proof F2 as (Fm & Fa & Fp).
  rewrite !Fp by (cbn; intuition discriminate).
  set (reg := {| Appoitment_Id := prop st (slot ctx) "Appoitment_Id";
                 Resource_Id := get (resource ctx) "ID";
                 TimeFrom := prop st (slot ctx) "TimeFrom";
                 TimeTo := prop st (slot ctx) "TimeTo" |}).
  set (s5 := closeModal _).
  assert (R5 : resources s5 = JArr (r :: rs)) by (unfold s5; cbn; congruence).
  destruct (renderGrid_draws cfg MainJs rt (picked_date rt s5) s5 r rs Hs R5)
    as (g & Hd & ->).
  cbn [mbind option_bind]. eexists. exists g. split; [reflexivity|].
  assert (A1 : is_Some (heap s1 !! slot ctx)) by by apply F1.
  split; [by split|]. split; [reflexivity|].
  split.
  { unfold prop, deref, s5, s2, set_prop.
    cbn [heap emit setStatus closeModal set_modalContext set_registeredSlot set_heap].
    rewrite list_lookup_alter_eq. destruct A1 as [o ->]. cbn.
    unfold get. by rewrite lookup_insert_eq. }
  split; [reflexivity|].
  split.
  { unfold s5. cbn [log emit setStatus closeModal set_modalContext set_registeredSlot].
    rewrite !requests_app. cbn. rewrite !app_nil_r.
    unfold s2. cbn [log set_prop set_heap]. by rewrite L1. }
  split; [cbn; by rewrite last_snoc|].
  split.
  { cbn [log emit setStatus]. rewrite !in_app_iff. cbn. tauto. }
  split.
  { rewrite <- Hd. apply draw_same_data; by repeat split. }
  intros res o p Hclick Ho Hoid Hp.
  destruct (onSlotClick_update_inv _ _ _ _ _ _ Hclick) as (o' & Ho' & Hold & Hne).
  assert (o' = o) as -> by congruence.
  assert (Hpl : slot ctx <> p).
  { intros E. apply find_some in Hp as [_ Hp]. rewrite <- E in Hp.
    rewrite strict_eq_sym in Hp. congruence. }
  unfold deref, s5, s2, s1, set_prop, unregister_previous.
  cbn [heap emit setStatus closeModal set_modalContext set_registeredSlot set_heap].
  rewrite Hold, Hoid, Hp. cbn [heap set_heap delete_prop].
  rewrite list_lookup_alter_ne by done. rewrite list_lookup_alter_eq.
  destruct (heap st !! p); cbn; [apply lookup_delete_eq|apply lookup_empty].
Qed.

Lemma handleModalConfirm_moves_witness :
  exists st' g,
    handleModalConfirm CONFIG MainJs offline "update" move_ctx registered = Some st'
    /\ frame ["Register_Id"] registered st'
    /\ registeredSlot st'
       = Some {| Appoitment_Id := prop registered (slot move_ctx) "Appoitment_Id";
                 Resource_Id := get (resource move_ctx) "ID";
                 TimeFrom := prop registered (slot move_ctx) "TimeFrom";
                 TimeTo := prop registered (slot move_ctx) "TimeTo" |}
    /\ prop st' (slot move_ctx) "Register_Id" = customerId move_ctx
    /\ modalContext st' = None
    /\ requests (log st') = requests (log registered)
    /\ last (log st') = Some (EAlert "Appointment updated (mock).")
    /\ In (ERender g) (log st')
    /\ draw CONFIG MainJs offline (picked_date offline st') st'
       = Some (DrawGrid g (S (length (tl MOCK_resources))))
    /\ (forall res o p,
          onSlotClick CONFIG MainJs (slot move_ctx) res registered
          = openModal "update" move_ctx registered ->
          registeredSlot registered = Some o -> truthy (Appoitment_Id o) = true ->
          find_prev registered o = Some p ->
          deref st' p !! "Register_Id" = None).
Proof.
  apply (handleModalConfirm_moves CONFIG offline move_ctx registered
           conference (tl MOCK_resources)).
  - simpl; lia.
  - vm_compute. reflexivity.
  - apply lookup_lt_is_Some_2. vm_compute. lia.
Defined.

Example move_on_the_fixtures :
  let moved := default registered
                 (handleModalConfirm CONFIG MainJs offline "update" move_ctx registered) in
  (prop registered 0%nat "Register_Id", prop moved 0%nat "Register_Id",
   prop moved 2%nat "Register_Id",
   slot_class CONFIG MainJs moved (deref moved 0%nat),
   slot_class CONFIG MainJs moved (deref moved 2%nat))
  = (VNum 1, VUndef, VNum 1, "slot available", "slot registered").
Proof. vm_compute. reflexivity. Qed.

Lemma find_only (p : loc -> bool) (l : list loc) (x : loc) :
  In x l -> p x = true -> (forall y, In y l -> y <> x -> p y = false) ->
  List.find p l = Some x.
Proof.
  induction l as [|a l IH]; [done|]. intros Hin Hx Hoth. cbn.
  destruct (p a) eqn:Ha.
  - f_equal. destruct (decide (a = x)) as [|Hne]; [done|].
    rewrite Hoth in Ha; [done|by left|done].
  - destruct Hin as [->|Hin]; [congruence|].
    apply IH; [done|done|]. intros y Hy. apply Hoth. by right.
Qed.

(** X19. After a slot has been registered through the register dialog,
    "View Current" in an update dialog opened on that registration shows
    the very slot object that was registered, found in the repository
    under the synthesized appointment id: no request is sent and the state
    does not change. *)
Theorem register_then_viewCurrent (cfg : config) (rev : revision) (rt : runtime)
    (ctx : modal_ctx) (st : state) (arr : list loc) :
  0 < SLOT_DURATION_MIN cfg ->
  slotsMap st !! to_string (get (resource ctx) "ID") = Some arr ->
  In (slot ctx) arr ->
  is_Some (heap st !! slot ctx) ->
  Date_now rt <> 0 ->
  truthy (get (resource ctx) "ID") = true ->
  (forall l, In l arr -> l <> slot ctx ->
             same_id_text (prop st l "Appoitment_Id") (VNum (Date_now rt)) = false) ->
  exists st1,
    handleModalConfirm cfg rev rt "register" ctx st = Some st1
    /\ forall ctx',
         old ctx' = registeredSlot st1 ->
         viewCurrent_click cfg rev rt ctx' st1 = (View (DSlot (slot ctx)), st1).
Proof.
  intros Hs Harr Hin Hl Hnow Hrid Hoth. unfold handleModalConfirm.
  change (String.eqb "register" "register") with true. cbv iota.
  set (reg := {| Appoitment_Id := VNum (Date_now rt);
                 Resource_Id := get (resource ctx) "ID";
                 TimeFrom := prop st (slot ctx) "TimeFrom";
                 TimeTo := prop st (slot ctx) "TimeTo" |}).
  set (stb := set_prop (slot ctx) "Register_Id" (customerId ctx)
                (set_registeredSlot (Some reg) st)).
  set (sta := set_prop (slot ctx) "Appoitment_Id" (VNum (Date_now rt)) stb).
  set (stc := closeModal (setStatus "Registered (mock): slot marked as dark green" false sta)).
  assert (Hlb : is_Some (heap stb !! slot ctx)) by by apply set_prop_allocated.
  destruct (renderGrid_returns cfg rev rt (picked_date rt stc) stc Hs)
    as (res & st' & -> & (_ & Hmap' & Htr' & Hheap' & _) & _).
  cbn [mbind option_bind].
  set (st1 := match (res, st') with
              | (Ok _, s) => emit (EAlert "Appointment registered (mock).") s
              | (Throw e, s) => confirm_failed e s
              end).
  assert (H1 : heap st1 = heap sta /\ slotsMap st1 = slotsMap st
               /\ registeredSlot st1 = Some reg).
  { unfold st1. destruct res; cbn; rewrite Hmap', Htr', Hheap'; done. }
  destruct H1 as (Hheap1 & Hmap1 & Htr1).
  assert (Hprop : forall l, prop st1 l "Appoitment_Id"
                            = if decide (l = slot ctx) then VNum (Date_now rt)
                              else prop st l "Appoitment_Id").
  { intros l. unfold prop at 1, deref. rewrite Hheap1.
    fold (deref sta l). fold (prop sta l "Appoitment_Id").
    unfold sta. rewrite prop_set_prop.
    destruct (decide (l = slot ctx)) as [->|Hne].
    - by rewrite decide_True.
    - rewrite decide_False by (intros (? & _); congruence).
      unfold stb. rewrite prop_set_prop, decide_False by (by intros (_ & ? & _)). done. }
  exists st1. split; [reflexivity|]. intros ctx' Hold.
  unfold viewCurrent_click. rewrite Hold, Htr1.
  change (truthy (Appoitment_Id reg)) with (negb (Date_now rt =? 0)).
  destruct (Z.eqb_spec (Date_now rt) 0) as [|_]; [done|]. cbn [negb].
  change (Resource_Id reg) with (get (resource ctx) "ID").
  change (Appoitment_Id reg) with (VNum (Date_now rt)).
  unfold or_else. rewrite Hrid.
  unfold fetchAppointmentDetails, find_in_memory. rewrite Hmap1, Harr.
  rewrite (find_only _ arr (slot ctx)); [done|done| |].
  - rewrite Hprop, decide_True by done. cbn [truthy].
    destruct (Z.eqb_spec (Date_now rt) 0) as [|_]; [done|]. cbn [negb andb].
    unfold same_id_text. apply String.eqb_refl.
  - intros l Hl' Hne. rewrite Hprop, decide_False by done.
    rewrite (Hoth l Hl' Hne). by rewrite !andb_false_r.
Qed.

Lemma register_then_viewCurrent_witness :
  exists st1,
    handleModalConfirm CONFIG WithUpdate offline "register" register_ctx loaded = Some st1
    /\ forall ctx',
         old ctx' = registeredSlot st1 ->
         viewCurrent_click CONFIG WithUpdate offline ctx' st1
         = (View (DSlot (slot register_ctx)), st1).
Proof.
  apply (register_then_viewCurrent CONFIG WithUpdate offline register_ctx loaded
           [0; 1]%nat).
  - simpl; lia.
  - vm_compute. reflexivity.
  - by left.
  - apply lookup_lt_is_Some_2. vm_compute. lia.
  - discriminate.
  - reflexivity.
  - intros l [<-|[<-|[]]] Hne; [done|]. vm_compute. reflexivity.
Defined.

(** X21. The register confirm is not undone when drawing fails.  With a
    value in [resources] that is not a list (what a failed load leaves
    there), the confirm stamps the slot and sets the tracker as always,
    closes the dialog, and then reports "Failed to register/update". *)
Theorem handleModalConfirm_not_undone (cfg : config) (rev : revision) (rt : runtime)
    (ctx : modal_ctx) (st : state) :
  no_list (resources st) = true ->
  json_get (resources st) "length" <> VNum 0 ->
  is_Some (heap st !! slot ctx) ->
  exists st1,
    handleModalConfirm cfg rev rt "register" ctx st = Some st1
    /\ last (log st1) = Some (EAlert "Failed to register/update (see console).")
    /\ In (EConsole TypeError) (log st1)
    /\ registeredSlot st1
       = Some {| Appoitment_Id := VNum (Date_now rt);
                 Resource_Id := get (resource ctx) "ID";
                 TimeFrom := prop st (slot ctx) "TimeFrom";
                 TimeTo := prop st (slot ctx) "TimeTo" |}
    /\ prop st1 (slot ctx) "Appoitment_Id" = VNum (Date_now rt)
    /\ prop st1 (slot ctx) "Register_Id" = customerId ctx
    /\ modalContext st1 = None.
Proof.
  intros Hno Hlen Hl. unfold handleModalConfirm.
  change (String.eqb "register" "register") with true. cbv iota.
  set (reg := {| Appoitment_Id := VNum (Date_now rt);
                 Resource_Id := get (resource ctx) "ID";
                 TimeFrom := prop st (slot ctx) "TimeFrom";
                 TimeTo := prop st (slot ctx) "TimeTo" |}).
  set (stb := set_prop (slot ctx) "Register_Id" (customerId ctx)
                (set_registeredSlot (Some reg) st)).
  set (sta := set_prop (slot ctx) "Appoitment_Id" (VNum (Date_now rt)) stb).
  set (stc := closeModal (setStatus "Registered (mock): slot marked as dark green" false sta)).
  assert (Hlb : is_Some (heap stb !! slot ctx)) by by apply set_prop_allocated.
  assert (Hrender : renderGrid cfg rev rt (picked_date rt stc) stc
                    = Some (Throw TypeError, stc)).
  { unfold renderGrid, draw.
    assert (Hr : resources stc = resources st) by reflexivity. rewrite Hr.
    destruct (resources st) as [v|items|o]; cbn [no_list] in Hno.
    - by rewrite Hno.
    - discriminate.
    - cbn [json_get] in Hlen.
      destruct (strict_eq (get o "length") (VNum 0)) eqn:E; [|done].
      by apply strict_eq_num in E. }
  rewrite Hrender. cbn [mbind option_bind]. eexists. split; [reflexivity|].
  split; [cbn; by rewrite last_snoc|].
  split; [cbn; rewrite !in_app_iff; cbn; tauto|].
  split; [reflexivity|].
  split.
  { unfold prop, deref. cbn [heap confirm_failed emit setStatus stc closeModal
                              set_modalContext].
    fold (deref sta (slot ctx)). fold (prop sta (slot ctx) "Appoitment_Id").
    unfold sta. rewrite prop_set_prop. by rewrite decide_True. }
  split; [|reflexivity].
  unfold prop, deref. cbn [heap confirm_failed emit setStatus stc closeModal
                            set_modalContext].
  fold (deref sta (slot ctx)). fold (prop sta (slot ctx) "Register_Id").
  unfold sta. rewrite prop_set_prop, decide_False by (by intros (_ & ? & _)).
  unfold stb. rewrite prop_set_prop. by rewrite decide_True.
Qed.

Lemma handleModalConfirm_not_undone_witness :
  exists st1,
    handleModalConfirm CONFIG WithUpdate offline "register" second_ctx stranded = Some st1
    /\ last (log st1) = Some (EAlert "Failed to register/update (see console).")
    /\ In (EConsole TypeError) (log st1)
    /\ registeredSlot st1
       = Some {| Appoitment_Id := VNum (Date_now offline);
                 Resource_Id := get (resource second_ctx) "ID";
                 TimeFrom := prop stranded (slot second_ctx) "TimeFrom";
                 TimeTo := prop stranded (slot second_ctx) "TimeTo" |}
    /\ prop st1 (slot second_ctx) "Appoitment_Id" = VNum (Date_now offline)
    /\ prop st1 (slot second_ctx) "Register_Id" = customerId second_ctx
    /\ modalContext st1 = None.
Proof.
  apply (handleModalConfirm_not_undone CONFIG WithUpdate offline second_ctx stranded).
  - vm_compute. reflexivity.
  - vm_compute. discriminate.
  - apply lookup_lt_is_Some_2. vm_compute. lia.
Defined.
